(** * Transaction-commitment soundness checker: a shallow embedding

    The repository holds three Python scripts that derive a Keccak-256
    commitment from the fields of a transaction receipt and compare it across
    providers:

    - [txbatch.py]           (module [Txbatch]),
    - [tx_batch_auditor.py]  (module [Auditor]),
    - [txapp.py]             (module [Txapp]).

    Python integers are [Z], byte strings are [list Z] with every element in
    [0, 256), text strings are [string] (sequences of code points below 128).
    Provider calls, sleeps and prints are effects: they are threaded through
    an explicit state holding the outside world and the trace of what the
    program did. Exceptions are values of [exn] carried by [res]. *)

From Stdlib Require Import ZArith QArith List String Ascii Bool Lia Arith.
Import ListNotations.
Open Scope string_scope.
Open Scope Z_scope.

(** ** Python values used by the scripts *)

Module Py.

(** The exception classes the scripts raise, catch or let through.
    [KeyboardInterrupt] and [SystemExit] derive from [BaseException] only,
    every other class derives from [Exception]. *)
Inductive exn : Type :=
| KeyboardInterrupt
| SystemExit (code : Z)
| TransactionNotFound (msg : string)
| OverflowError (msg : string)
| ValueError (msg : string)
| RuntimeError (msg : string)
| AttributeError (msg : string)
| TypeError (msg : string)
| UnicodeDecodeError (msg : string)
| ProviderException (msg : string).

(** [isinstance(e, Exception)] *)
Definition is_Exception (e : exn) : bool :=
  match e with
  | KeyboardInterrupt | SystemExit _ => false
  | _ => true
  end.

(** [isinstance(e, TransactionNotFound)] *)
Definition is_TransactionNotFound (e : exn) : bool :=
  match e with
  | TransactionNotFound _ => true
  | _ => false
  end.

(** [str(e)] *)
Definition str_exn (e : exn) : string :=
  match e with
  | KeyboardInterrupt => ""
  | SystemExit _ => ""
  | TransactionNotFound m | OverflowError m | ValueError m | RuntimeError m
  | AttributeError m | TypeError m | UnicodeDecodeError m | ProviderException m => m
  end.

(** The outcome of evaluating a Python expression. *)
Inductive res (A : Type) : Type :=
| Ret (a : A)
| Raise (e : exn).
Arguments Ret {A} a.
Arguments Raise {A} e.

(** *** Characters and strings *)

Definition code (c : ascii) : Z := Z.of_N (N_of_ascii c).

(** [str.isspace] on code points below 128. *)
Definition is_space (c : ascii) : bool :=
  let n := code c in
  ((9 <=? n) && (n <=? 13)) || ((28 <=? n) && (n <=? 32)).

(** The whitespace [bytes.fromhex] skips (C's [Py_ISSPACE]). *)
Definition is_c_space (c : ascii) : bool :=
  let n := code c in
  ((9 <=? n) && (n <=? 13)) || (n =? 32).

(** Value of a hexadecimal digit, [None] for any other character. *)
Definition hex_value (c : ascii) : option Z :=
  let n := code c in
  if (48 <=? n) && (n <=? 57) then Some (n - 48)
  else if (97 <=? n) && (n <=? 102) then Some (n - 87)
  else if (65 <=? n) && (n <=? 70) then Some (n - 55)
  else None.

Definition is_hex_digit (c : ascii) : bool :=
  match hex_value c with Some _ => true | None => false end.

Fixpoint lstrip (s : string) : string :=
  match s with
  | String c rest => if is_space c then lstrip rest else s
  | EmptyString => EmptyString
  end.

(** Drops the trailing whitespace: a character is kept when something that
    is kept follows it, or when it is not whitespace itself. *)
Fixpoint rstrip (s : string) : string :=
  match s with
  | EmptyString => EmptyString
  | String c rest =>
      match rstrip rest with
      | EmptyString => if is_space c then EmptyString else String c EmptyString
      | r => String c r
      end
  end.

(** [s.strip()] *)
Definition strip (s : string) : string := rstrip (lstrip s).

(** [s.startswith(p)] *)
Fixpoint startswith (s p : string) {struct p} : bool :=
  match p, s with
  | EmptyString, _ => true
  | String a p', String b s' => Ascii.eqb a b && startswith s' p'
  | String _ _, EmptyString => false
  end.

(** [len(s)] *)
Definition len (s : string) : Z := Z.of_nat (String.length s).

(** [s[n:]] for a literal [n >= 0] *)
Fixpoint drop (n : nat) (s : string) : string :=
  match n, s with
  | O, _ => s
  | S k, String _ rest => drop k rest
  | S _, EmptyString => EmptyString
  end.

(** [p in s] for strings *)
Fixpoint contains (s p : string) : bool :=
  startswith s p ||
  match s with
  | EmptyString => false
  | String _ rest => contains rest p
  end.

Fixpoint all_chars (f : ascii -> bool) (s : string) : bool :=
  match s with
  | EmptyString => true
  | String c rest => f c && all_chars f rest
  end.

(** *** Integers and bytes *)

(** The [n] low-order base-256 digits of [v], most significant first. *)
Fixpoint be_digits (n : nat) (v : Z) : list Z :=
  match n with
  | O => []
  | S k => be_digits k (v / 256) ++ [v mod 256]
  end.

(** [v.to_bytes(n, "big")] (unsigned): [OverflowError] for a negative value
    and for one that needs more than [n] bytes. *)
Definition to_bytes (v : Z) (n : nat) : res (list Z) :=
  if v <? 0 then Raise (OverflowError "can't convert negative int to unsigned")
  else if 256 ^ Z.of_nat n <=? v then Raise (OverflowError "int too big to convert")
  else Ret (be_digits n v).

(** [bytes.fromhex(s)]: pairs of hexadecimal digits, runs of ASCII whitespace
    allowed between the pairs; [ValueError] for anything else. *)
Fixpoint fromhex (s : string) : res (list Z) :=
  match s with
  | EmptyString => Ret []
  | String c rest =>
      if is_c_space c then fromhex rest
      else
        match hex_value c, rest with
        | Some hi, String d rest' =>
            match hex_value d with
            | Some lo =>
                match fromhex rest' with
                | Ret bs => Ret (16 * hi + lo :: bs)
                | Raise e => Raise e
                end
            | None => Raise (ValueError "non-hexadecimal number found in fromhex() arg")
            end
        | _, _ => Raise (ValueError "non-hexadecimal number found in fromhex() arg")
        end
  end.

Definition hex_char (d : Z) : ascii :=
  ascii_of_N (Z.to_N (if d <? 10 then 48 + d else 87 + d)).

(** [b.hex()]: two lowercase digits per byte, no prefix. *)
Fixpoint hex (bs : list Z) : string :=
  match bs with
  | [] => EmptyString
  | b :: rest => String (hex_char (b / 16)) (String (hex_char (b mod 16)) (hex rest))
  end.

(** [int(s, 16)] succeeds, for a string of code points below 128:
    optional surrounding whitespace (the whitespace of C, as for
    [bytes.fromhex]: the separators 28 to 31, which [str.strip] removes, are
    not skipped here), an optional sign, an optional [0x] or [0X] (which one
    underscore may follow), then hexadecimal digits with single underscores
    between them. *)
Fixpoint skip_c_space (s : string) : string :=
  match s with
  | String c rest => if is_c_space c then skip_c_space rest else s
  | EmptyString => EmptyString
  end.

Fixpoint digits_tail (prev_underscore : bool) (s : string) : bool :=
  match s with
  | EmptyString => negb prev_underscore
  | String c rest =>
      if is_hex_digit c then digits_tail false rest
      else if Ascii.eqb c "_" then
        if prev_underscore then false else digits_tail true rest
      else negb prev_underscore && all_chars is_c_space s
  end.

Definition digits_ok (s : string) : bool :=
  match s with
  | String c rest => is_hex_digit c && digits_tail false rest
  | EmptyString => false
  end.

Definition skip_sign (s : string) : string :=
  match s with
  | String c rest => if Ascii.eqb c "+" || Ascii.eqb c "-" then rest else s
  | EmptyString => s
  end.

Definition skip_base_prefix (s : string) : string :=
  match s with
  | String c0 (String c1 rest) =>
      if Ascii.eqb c0 "0" && (Ascii.eqb c1 "x" || Ascii.eqb c1 "X") then
        match rest with
        | String c2 rest' => if Ascii.eqb c2 "_" then rest' else rest
        | EmptyString => rest
        end
      else s
  | _ => s
  end.

Definition int16_parses (s : string) : bool :=
  digits_ok (skip_base_prefix (skip_sign (skip_c_space s))).

(** [Web3.is_hex(s)]. The class [Web3] of web3.py has no attribute
    [is_hex] ([is_hex] is a function of eth-utils, which the scripts do not
    import): evaluating the expression raises [AttributeError] at the
    attribute lookup, whatever the argument. *)
Definition Web3_is_hex (s : string) : res bool :=
  Raise (AttributeError "type object 'Web3' has no attribute 'is_hex'").

(** [list(range(lo, hi))] *)
Definition range (lo hi : Z) : list Z :=
  map (fun i => lo + Z.of_nat i) (seq 0 (Z.to_nat (hi - lo))).

(** [x in xs] for strings *)
Definition mem (x : string) (xs : list string) : bool :=
  existsb (String.eqb x) xs.

(** [list(dict.fromkeys(xs))]: the keys in order of first insertion. *)
Definition dict_fromkeys (xs : list string) : list string :=
  fold_left (fun keys x => if mem x keys then keys else (keys ++ [x])%list) xs [].

(** Sequencing of two expressions, the first exception wins. *)
Definition and_then {A B} (r : res A) (k : A -> res B) : res B :=
  match r with
  | Ret a => k a
  | Raise e => Raise e
  end.

End Py.

(** ** Keccak-256, as [Web3.keccak] computes it

    The sponge over Keccak-f[1600] with rate 136 bytes, the original Keccak
    padding (first pad byte [0x01]) and a 32-byte output. The state is the
    list of its 25 lanes, lane [(x, y)] at position [x + 5 * y]; a lane is a
    64-bit integer. *)

Module Keccak.

Definition mask64 : Z := 2 ^ 64 - 1.

Definition rol64 (a n : Z) : Z :=
  Z.lor (Z.land (Z.shiftl a n) mask64) (Z.shiftr a (64 - n)).

Definition lane (st : list Z) (i : Z) : Z := nth (Z.to_nat i) st 0.

Definition positions : list Z := map Z.of_nat (seq 0 25).

Definition theta (st : list Z) : list Z :=
  let C x := fold_left Z.lxor (map (fun y => lane st (x + 5 * y)) [1; 2; 3; 4]) (lane st x) in
  let D x := Z.lxor (C ((x + 4) mod 5)) (rol64 (C ((x + 1) mod 5)) 1) in
  map (fun i => Z.lxor (lane st i) (D (i mod 5))) positions.

(** The walk of rho and pi: step [t] moves the lane at [(x, y)], rotated by
    [(t+1)(t+2)/2], to [(y, 2x+3y)]. Entries are (target, source, rotation). *)
Fixpoint rho_pi_steps (n : nat) (t x y : Z) : list (Z * Z * Z) :=
  match n with
  | O => []
  | S k =>
      let x' := y in
      let y' := (2 * x + 3 * y) mod 5 in
      (x' + 5 * y', x + 5 * y, ((t + 1) * (t + 2) / 2) mod 64)
        :: rho_pi_steps k (t + 1) x' y'
  end.

Definition rho_pi_table : list (Z * Z * Z) :=
  Eval vm_compute in rho_pi_steps 24 0 1 0.

Definition rho_pi (st : list Z) : list Z :=
  map (fun i =>
         match find (fun e => fst (fst e) =? i) rho_pi_table with
         | Some (_, src, r) => rol64 (lane st src) r
         | None => lane st i
         end) positions.

Definition chi (st : list Z) : list Z :=
  map (fun i =>
         let x := i mod 5 in
         let row := i - x in
         Z.lxor (lane st i)
           (Z.land (Z.lxor (lane st (row + (x + 1) mod 5)) mask64)
                   (lane st (row + (x + 2) mod 5)))) positions.

(** One round's constant from the LFSR state [r]; returns the next state. *)
Fixpoint iota_bits (js : list Z) (r acc : Z) : Z * Z :=
  match js with
  | [] => (acc, r)
  | j :: rest =>
      let r' := (Z.lxor (Z.shiftl r 1) (Z.shiftr r 7 * 113)) mod 256 in
      let acc' := if Z.testbit r' 1 then Z.lxor acc (Z.shiftl 1 (2 ^ j - 1)) else acc in
      iota_bits rest r' acc'
  end.

Fixpoint round_constants_from (n : nat) (r : Z) : list Z :=
  match n with
  | O => []
  | S k =>
      let '(c, r') := iota_bits [0; 1; 2; 3; 4; 5; 6] r 0 in
      c :: round_constants_from k r'
  end.

Definition round_constants : list Z :=
  Eval vm_compute in round_constants_from 24 1.

Definition iota (rc : Z) (st : list Z) : list Z :=
  match st with
  | l0 :: rest => Z.lxor l0 rc :: rest
  | [] => []
  end.

Definition keccak_f (st : list Z) : list Z :=
  fold_left (fun s rc => iota rc (chi (rho_pi (theta s)))) round_constants st.

Definition rate : nat := 136.

Definition pad (msg : list Z) : list Z :=
  let q := (rate - (List.length msg mod rate))%nat in
  if (q =? 1)%nat then msg ++ [129]
  else msg ++ [1] ++ repeat 0 (q - 2) ++ [128].

Definition le_lane (bs : list Z) : Z :=
  fold_right (fun b acc => b + 256 * acc) 0 bs.

Definition lane_bytes (l : Z) : list Z :=
  map (fun k => (l / 256 ^ k) mod 256) [0; 1; 2; 3; 4; 5; 6; 7].

Fixpoint block_lanes (n : nat) (bs : list Z) : list Z :=
  match n with
  | O => []
  | S k => le_lane (firstn 8 bs) :: block_lanes k (skipn 8 bs)
  end.

Fixpoint xor_lanes (st blk : list Z) : list Z :=
  match st, blk with
  | s :: st', b :: blk' => Z.lxor s b :: xor_lanes st' blk'
  | _, [] => st
  | [], _ => []
  end.

Fixpoint absorb (n : nat) (st : list Z) (bs : list Z) : list Z :=
  match n with
  | O => st
  | S k =>
      absorb k (keccak_f (xor_lanes st (block_lanes 17 (firstn rate bs)))) (skipn rate bs)
  end.

(** [Web3.keccak(msg)]: the 32-byte digest. *)
Definition keccak256 (msg : list Z) : list Z :=
  let padded := pad msg in
  let st := absorb (List.length padded / rate) (repeat 0 25) padded in
  flat_map lane_bytes (firstn 4 st).

End Keccak.

(** ** Effects: the outside world, provider calls, sleeps and prints *)

(** What a provider answers for a receipt ([web3]'s [AttributeDict]). *)
Record Receipt : Type := {
  status : Z;
  gasUsed : Z;
  blockNumber : Z;
  effectiveGasPrice : option Z
}.

(** What a provider answers for a transaction. *)
Record Transaction : Type := {
  tx_from : string;
  tx_to : option string;
  gasPrice : option Z
}.

Inductive rpc_method : Type :=
| IsConnected
| ChainId
| GetTransactionReceipt (txh : string)
| GetTransaction (txh : string).

(** [NETWORKS.get(chain_id, f"Unknown (chain ID {chain_id})")] *)
Inductive network_label : Type :=
| Known (name : string)
| Unknown (chain_id : Z).

Definition network_name (chain_id : Z) : network_label :=
  if chain_id =? 1 then Known "Ethereum Mainnet"
  else if chain_id =? 11155111 then Known "Sepolia Testnet"
  else if chain_id =? 10 then Known "Optimism"
  else if chain_id =? 137 then Known "Polygon"
  else if chain_id =? 42161 then Known "Arbitrum One"
  else Unknown chain_id.

(** The cross-check column of a row of [txbatch.py]. *)
Inductive cross_note : Type :=
| NoteNone
| NoteOk
| NoteMismatch
| NoteNotFoundSecondary
| NoteErrorSecondary (msg : string).

(** One commitment record of [tx_batch_auditor.py]. *)
Record Commit : Type := {
  c_chainId : Z;
  c_blockNumber : Z;
  c_status : Z;
  c_gasUsed : Z;
  c_commitment : string
}.

(** The per-transaction record of [tx_batch_auditor.py]. The [timingSec]
    entry (wall-clock time) is left out. *)
Record AuditResult : Type := {
  r_txHash : string;
  r_primary : option Commit;
  r_secondary : option Commit;
  r_match : option bool;
  r_errorPrimary : option string;
  r_errorSecondary : option string
}.

(** What the scripts print, by content; icons, number formats and elapsed
    times are left out. *)
Inductive line : Type :=
| LVersion
| LHelp
| LPlaceholderWarning
| LNoHashes
| LInvalidHash (raw : string)
| LInvalidHashes (bad : list string)
| LNoValidHashes
| LConnecting (url : string)
| LConnectionFailed (url : string)
| LConnected (chain_id : option Z)
| LChainIdMismatch (primary secondary : Z)
| LHeader
| LRetryWarning (attempt retries : Z) (msg : string)
| LRetryFailed (retries : Z) (msg : string)
| LFetchFailed (msg : string)
| LNotFoundPrimary (txh : string)
| LErrorPrimary (txh : string) (msg : string)
| LRow (txh : string) (status_str : string) (chain_id block_number : Z)
       (fee_wei : option Z) (commitment : string) (note : cross_note)
| LProcessed (count invalid : Z)
| LSummary (success failed not_found pending cross_mismatches : Z)
| LMismatchWarning (count : Z)
| LFileError (path : string)
| LProvider (net : network_label) (chain_id : Z)
| LJson (primary : string * Z * network_label)
        (secondary : option (string * Z * network_label))
        (results : list AuditResult)
| LAuditing (count : Z)
| LResultHash (txh : string)
| LResultPrimaryError (msg : string)
| LResultPrimary (c : Commit)
| LResultSecondaryError (msg : string)
| LResultSecondary (commitment : string) (matched : bool)
| LResultTime
| LAborted.

Inductive event : Type :=
| EvRpc (uri : string) (m : rpc_method)
| EvSleep (seconds : Q)
| EvStdout (l : line)
| EvStderr (l : line).

(** What opening a file for reading as UTF-8 text and iterating over its
    lines gives: [open] raises [OSError]; or the file opens but its bytes
    are not valid UTF-8, and reading it raises [UnicodeDecodeError]; or its
    lines. *)
Inductive opened : Type :=
| CannotOpen
| NotText
| Text (lines : list string).

Module Eff.
Import Py.

Section World.

(** The state of everything outside the program: what the providers will
    answer, now and later. *)
Context {W : Type}.

Record state : Type := {
  world : W;
  trace : list event
}.

Definition M (A : Type) : Type := state -> res A * state.

Definition ret {A} (a : A) : M A := fun s => (Ret a, s).

Definition bind {A B} (m : M A) (k : A -> M B) : M B :=
  fun s =>
    match m s with
    | (Ret a, s') => k a s'
    | (Raise e, s') => (Raise e, s')
    end.

Definition raise {A} (e : exn) : M A := fun s => (Raise e, s).

(** A pure expression that may raise. *)
Definition lift {A} (r : res A) : M A := fun s => (r, s).

Definition emit (ev : event) : M unit :=
  fun s => (Ret tt, {| world := world s; trace := trace s ++ [ev] |}).

(** [print(...)] and [print(..., file=sys.stderr)] *)
Definition print (l : line) : M unit := emit (EvStdout l).
Definition print_err (l : line) : M unit := emit (EvStderr l).

(** [time.sleep(delay)]: [ValueError] for a negative delay. *)
Definition sleep (delay : Q) : M unit :=
  if Qle_bool 0 delay then emit (EvSleep delay)
  else raise (ValueError "sleep length must be non-negative").

(** [sys.exit(code)] *)
Definition sys_exit {A} (code : Z) : M A := raise (SystemExit code).

(** [try: body  except ...: handler]: the handler says which exceptions it
    takes ([None]: none of the clauses matches, the exception goes on). *)
Definition try_except {A} (body : M A) (handler : exn -> option (M A)) : M A :=
  fun s =>
    match body s with
    | (Ret a, s') => (Ret a, s')
    | (Raise e, s') =>
        match handler e with
        | Some h => h s'
        | None => (Raise e, s')
        end
    end.

(** A connected [Web3] object: its endpoint and what each of its calls does
    to the world. *)
Record Web3 : Type := {
  uri : string;
  is_connected : W -> bool * W;
  chain_id : W -> res Z * W;
  get_transaction_receipt : string -> W -> res (option Receipt) * W;
  get_transaction : string -> W -> res (option Transaction) * W
}.

(** One call to a provider: it acts on the world and is recorded. *)
Definition call_rpc {A} (w3 : Web3) (m : rpc_method) (op : W -> res A * W) : M A :=
  fun s =>
    let (r, w') := op (world s) in
    (r, {| world := w'; trace := trace s ++ [EvRpc (uri w3) m] |}).

Definition w3_is_connected (w3 : Web3) : M bool :=
  call_rpc w3 IsConnected (fun w => let (b, w') := is_connected w3 w in (Ret b, w')).

Definition eth_chain_id (w3 : Web3) : M Z :=
  call_rpc w3 ChainId (chain_id w3).

Definition eth_get_transaction_receipt (w3 : Web3) (txh : string) : M (option Receipt) :=
  call_rpc w3 (GetTransactionReceipt txh) (get_transaction_receipt w3 txh).

Definition eth_get_transaction (w3 : Web3) (txh : string) : M (option Transaction) :=
  call_rpc w3 (GetTransaction txh) (get_transaction w3 txh).

End World.

Arguments state W : clear implicits.
Arguments M W A : clear implicits.
Arguments Web3 W : clear implicits.

End Eff.

Declare Scope eff_scope.
Delimit Scope eff_scope with eff.
Notation "x <- m ;; k" := (Eff.bind m (fun x => k))
  (at level 100, m at next level, right associativity) : eff_scope.
Notation "m ;; k" := (Eff.bind m (fun _ => k))
  (at level 100, right associativity) : eff_scope.
Notation "' p <- m ;; k" := (Eff.bind m (fun p => k))
  (at level 100, p pattern, m at next level, right associativity) : eff_scope.

Notation "'let!' x ':=' r 'in' k" := (Py.and_then r (fun x => k))
  (at level 10, x name, r at level 100, k at level 200, only parsing).

(** ** txbatch.py *)

Module Txbatch.
Import Py Eff.
Local Open Scope eff_scope.

Definition VERSION : string := "0.1.0".
Definition DEFAULT_RPC : string := "https://mainnet.infura.io/v3/your_api_key".

(** [parse_tx_hash]: strip, add the prefix when it is missing, check the
    shape; [None] for a string that is not a hash. The test
    [len(h) != 66 or not Web3.is_hex(h)] evaluates [Web3.is_hex] only when
    the length is 66. *)
Definition parse_tx_hash (h : string) : res (option string) :=
  let h := strip h in
  if (h =? "")%string then Ret None
  else
    let h := if negb (startswith h "0x") then "0x" ++ h else h in
    let! not_a_hash :=
      (if negb (len h =? 66) then Ret true
       else let! hex := Web3_is_hex h in Ret (negb hex)) in
    if not_a_hash then Ret None
    else Ret (Some h).

(** [build_commitment]:
    keccak(chainId[8] || txHash[32] || blockNumber[8] || status[1] || gasUsed[8]) *)
Definition build_commitment (chain_id : Z) (tx_hash_hex : string)
  (block_number status gas_used : Z) : res string :=
  let! c := to_bytes chain_id 8 in
  let! t := fromhex (drop 2 tx_hash_hex) in
  let! b := to_bytes block_number 8 in
  let! s := to_bytes status 1 in
  let! g := to_bytes gas_used 8 in
  let payload := (c ++ t ++ b ++ s ++ g)%list in
  Ret ("0x" ++ hex (Keccak.keccak256 payload)).

(** The dict [fetch_bundle] returns; [total_fee_eth] is kept in wei. *)
Record Bundle : Type := {
  b_chain_id : Z;
  b_network : network_label;
  b_tx_hash : string;
  b_from : string;
  b_to : option string;
  b_block_number : Z;
  b_status : Z;
  b_gas_used : Z;
  b_total_fee_wei : option Z;
  b_commitment : string
}.

(** The five counters of [main]. *)
Record Counters : Type := {
  success_count : Z;
  fail_count : Z;
  pending_count : Z;
  not_found_count : Z;
  mismatch_count : Z
}.

(** The parsed command line. *)
Record Args : Type := {
  a_tx : list string;
  a_file : option string;
  a_no_emoji : bool;
  a_version : bool
}.

(** How one pass through the body of a retry loop ends. *)
Inductive attempt_end (A : Type) : Type :=
| Returned (a : A)
| NextAttempt.
Arguments Returned {A} a.
Arguments NextAttempt {A}.

Section World.
Context {W : Type}.

(** The loop of [safe_rpc_call] over [range(1, retries + 1)]. The function
    returns [None] when the range is empty. *)
Fixpoint safe_rpc_attempts {A} (func : M W A) (retries : Z) (delay : Q)
  (attempts : list Z) : M W (option A) :=
  match attempts with
  | [] => ret None
  | attempt :: rest =>
      o <- try_except
             (a <- func ;; ret (Returned a))
             (fun e =>
                match e with
                | KeyboardInterrupt => Some (raise e)
                | _ =>
                    if is_Exception e then
                      Some (if attempt =? retries then
                              (print_err (LRetryFailed retries (str_exn e)) ;;
                               raise e)
                            else
                              (print_err (LRetryWarning attempt retries (str_exn e)) ;;
                               sleep delay ;;
                               ret NextAttempt))
                    else None
                end) ;;
      match o with
      | Returned a => ret (Some a)
      | NextAttempt => safe_rpc_attempts func retries delay rest
      end
  end.

(** [safe_rpc_call(func, *args, retries=3, delay=1.0)] *)
Definition safe_rpc_call {A} (func : M W A) (retries : Z) (delay : Q) : M W (option A) :=
  safe_rpc_attempts func retries delay (range 1 (retries + 1)).

(** [w3_connect(url)]: the provider the network has at [url]; exits with
    status 1 when it is not connected. *)
Definition w3_connect (network : string -> Web3 W) (url : string) : M W (Web3 W) :=
  let w3 := network url in
  connected <- w3_is_connected w3 ;;
  if negb connected then
    (print_err (LConnectionFailed url) ;; sys_exit 1)
  else ret w3.

(** [fetch_bundle(w3, txh)] *)
Definition fetch_bundle (w3 : Web3 W) (txh : string) : M W Bundle :=
  '(rcpt, tx) <- try_except
      (rcpt <- safe_rpc_call (eth_get_transaction_receipt w3 txh) 3 1 ;;
       tx <- safe_rpc_call (eth_get_transaction w3 txh) 3 1 ;;
       ret (rcpt, tx))
      (fun e =>
         if is_TransactionNotFound e then Some (raise e)
         else if is_Exception e then
           Some (print_err (LFetchFailed (str_exn e)) ;; raise e)
         else None) ;;
  match rcpt with
  | None | Some None => raise (RuntimeError "receipt is None (tx pending or unknown)")
  | Some (Some rcpt) =>
      chain <- safe_rpc_call (eth_chain_id w3) 3 1 ;;
      match chain with
      | None => raise (AttributeError "'NoneType' object has no attribute 'to_bytes'")
      | Some chain_id =>
          let status := status rcpt in
          let gas_used := gasUsed rcpt in
          let block_number := blockNumber rcpt in
          commitment <- lift (build_commitment chain_id txh block_number status gas_used) ;;
          match tx with
          | None | Some None =>
              match effectiveGasPrice rcpt with
              | None => raise (AttributeError "'NoneType' object has no attribute 'get'")
              | Some _ => raise (TypeError "'NoneType' object is not subscriptable")
              end
          | Some (Some tx) =>
              let effective_gas_price :=
                match effectiveGasPrice rcpt with
                | None => gasPrice tx
                | Some p => Some p
                end in
              let total_fee_wei :=
                match effective_gas_price with
                | Some p => Some (gas_used * p)
                | None => None
                end in
              ret {| b_chain_id := chain_id;
                     b_network := network_name chain_id;
                     b_tx_hash := txh;
                     b_from := tx_from tx;
                     b_to := tx_to tx;
                     b_block_number := block_number;
                     b_status := status;
                     b_gas_used := gas_used;
                     b_total_fee_wei := total_fee_wei;
                     b_commitment := commitment |}
          end
      end
  end.

(** What [main] reads besides its arguments: the two environment variables,
    the provider reachable at each URL, the files, and the lines of standard
    input ([None] when its bytes are not valid text). *)
Record Env : Type := {
  env_RPC_URL : option string;
  env_RPC_URL_2 : option string;
  network : string -> Web3 W;
  open_file : string -> opened;
  stdin : option (list string)
}.

(** [RPC_URL = os.getenv("RPC_URL", DEFAULT_RPC)] *)
Definition RPC_URL (env : Env) : string :=
  match env_RPC_URL env with
  | Some u => u
  | None => DEFAULT_RPC
  end.

(** [RPC_URL_2 = os.getenv("RPC_URL_2")], as the truth value tests see it:
    unset and empty both count as absent. *)
Definition RPC_URL_2 (env : Env) : option string :=
  match env_RPC_URL_2 env with
  | Some u => if (u =? "")%string then None else Some u
  | None => None
  end.

(** The lines of the file that are neither blank nor comments, stripped. *)
Fixpoint file_hashes (lines : list string) : list string :=
  match lines with
  | [] => []
  | l :: rest =>
      let l := strip l in
      if (l =? "")%string || startswith l "#" then file_hashes rest
      else l :: file_hashes rest
  end.

(** The de-duplication loop of [load_hashes]. *)
Fixpoint dedup (hashes seen unique : list string) : list string :=
  match hashes with
  | [] => unique
  | h :: rest =>
      if negb (mem h seen) then dedup rest (h :: seen) (unique ++ [h])%list
      else dedup rest seen unique
  end.

(** [load_hashes(args)]. Only the [open] is inside the [try]: an
    [OSError] there ends the script with status 1; the lines are read
    outside it, so the [UnicodeDecodeError] of a file (or of standard input)
    that is not valid text goes out of [load_hashes]. *)
Definition load_hashes (env : Env) (args : Args) : M W (list string) :=
  from_file <-
    match a_file args with
    | None => ret []
    | Some path =>
        if (path =? "")%string then ret []
        else if (path =? "-")%string then
          match stdin env with
          | Some lines => ret (file_hashes lines)
          | None => raise (UnicodeDecodeError "'utf-8' codec can't decode the input")
          end
        else
          match open_file env path with
          | CannotOpen => print_err (LFileError path) ;; sys_exit 1
          | NotText => raise (UnicodeDecodeError "'utf-8' codec can't decode the input")
          | Text lines => ret (file_hashes lines)
          end
    end ;;
  ret (dedup (a_tx args ++ from_file)%list [] []).

(** The normalisation loop of [main]: the valid hashes, normalised, and the
    number of invalid ones. *)
Fixpoint normalize (hashes_raw tx_hashes : list string) (invalid_count : Z)
  : M W (list string * Z) :=
  match hashes_raw with
  | [] => ret (tx_hashes, invalid_count)
  | raw :: rest =>
      h <- lift (parse_tx_hash raw) ;;
      match h with
      | None =>
          print_err (LInvalidHash raw) ;;
          normalize rest tx_hashes (invalid_count + 1)
      | Some h => normalize rest (tx_hashes ++ [h])%list invalid_count
      end
  end.

(** The cross-check of one transaction against the secondary provider: the
    note for the row and the value of [match]. *)
Definition cross_check (w3b : Web3 W) (txh : string) (bundle_primary : Bundle)
  : M W (cross_note * bool) :=
  try_except
    (bundle_secondary <- fetch_bundle w3b txh ;;
     let same_chain := b_chain_id bundle_primary =? b_chain_id bundle_secondary in
     let same_block := b_block_number bundle_primary =? b_block_number bundle_secondary in
     let same_status := b_status bundle_primary =? b_status bundle_secondary in
     let same_gas := b_gas_used bundle_primary =? b_gas_used bundle_secondary in
     let same_commit :=
       (b_commitment bundle_primary =? b_commitment bundle_secondary)%string in
     if forallb (fun b => b) [same_chain; same_block; same_status; same_gas; same_commit]
     then ret (NoteOk, true)
     else ret (NoteMismatch, false))
    (fun e =>
       if is_TransactionNotFound e then Some (ret (NoteNotFoundSecondary, false))
       else if is_Exception e then Some (ret (NoteErrorSecondary (str_exn e), false))
       else None).

(** The loop of [main] over [tx_hashes]. *)
Fixpoint audit_loop (w3 : Web3 W) (w3b : option (Web3 W)) (tx_hashes : list string)
  (c : Counters) : M W Counters :=
  match tx_hashes with
  | [] => ret c
  | txh :: rest =>
      fetched <- try_except
          (b <- fetch_bundle w3 txh ;; ret (inl b))
          (fun e =>
             if is_TransactionNotFound e then
               Some (print (LNotFoundPrimary txh) ;;
                     ret (inr {| success_count := success_count c;
                                 fail_count := fail_count c;
                                 pending_count := pending_count c;
                                 not_found_count := not_found_count c + 1;
                                 mismatch_count := mismatch_count c |}))
             else if is_Exception e then
               Some (print_err (LErrorPrimary txh (str_exn e)) ;;
                     ret (inr {| success_count := success_count c;
                                 fail_count := fail_count c + 1;
                                 pending_count := pending_count c;
                                 not_found_count := not_found_count c;
                                 mismatch_count := mismatch_count c |}))
             else None) ;;
      match fetched with
      | inr c' => audit_loop w3 w3b rest c'
      | inl bundle_primary =>
          let status_str := if b_status bundle_primary =? 1 then "success" else "failed" in
          '(note, matched) <-
            match w3b with
            | None => ret (NoteNone, true)
            | Some w3b' => cross_check w3b' txh bundle_primary
            end ;;
          print (LRow txh status_str (b_chain_id bundle_primary)
                   (b_block_number bundle_primary) (b_total_fee_wei bundle_primary)
                   (b_commitment bundle_primary) note) ;;
          let success' :=
            if b_status bundle_primary =? 1 then success_count c + 1 else success_count c in
          let fail' :=
            if b_status bundle_primary =? 1 then fail_count c else fail_count c + 1 in
          let mismatch' :=
            if negb matched && (match w3b with Some _ => true | None => false end)
            then mismatch_count c + 1 else mismatch_count c in
          audit_loop w3 w3b rest
            {| success_count := success';
               fail_count := fail';
               pending_count := pending_count c;
               not_found_count := not_found_count c;
               mismatch_count := mismatch' |}
      end
  end.

(** The connection step of [main] (lines 238 to 256): the primary
    provider and its chain id, then the same for the secondary provider
    when [RPC_URL_2] is set. *)
Definition connections (env : Env) : M W (Web3 W * option (Web3 W)) :=
  print (LConnecting (RPC_URL env)) ;;
  w3 <- w3_connect (network env) (RPC_URL env) ;;
  primary_chain_id <- safe_rpc_call (eth_chain_id w3) 3 1 ;;
  print (LConnected primary_chain_id) ;;
  w3b <-
    match RPC_URL_2 env with
    | None => ret None
    | Some url2 =>
        print (LConnecting url2) ;;
        w3b <- w3_connect (network env) url2 ;;
        secondary_chain_id <- safe_rpc_call (eth_chain_id w3b) 3 1 ;;
        print (LConnected secondary_chain_id) ;;
        ret (Some w3b)
    end ;;
  ret (w3, w3b).

(** The second half of [main], from the connection to the primary
    provider to the exit status (lines 236 to 359), for the hashes and the
    number of invalid strings that the normalisation left. *)
Definition process (env : Env) (tx_hashes : list string) (invalid_count : Z) : M W Z :=
  '(w3, w3b) <- connections env ;;
  print LHeader ;;
  c <- audit_loop w3 w3b tx_hashes
         {| success_count := 0; fail_count := 0; pending_count := 0;
            not_found_count := 0; mismatch_count := 0 |} ;;
  print (LProcessed (Z.of_nat (List.length tx_hashes)) invalid_count) ;;
  print (LSummary (success_count c) (fail_count c) (not_found_count c)
           (pending_count c) (mismatch_count c)) ;;
  if 0 <? mismatch_count c then
    print_err (LMismatchWarning (mismatch_count c)) ;;
    ret (match w3b with Some _ => 2 | None => 0 end)
  else if (0 <? fail_count c) || (0 <? not_found_count c) || (0 <? invalid_count)
  then ret 1
  else ret 0.

(** [main()], from the parsed arguments on; the value is the exit status. *)
Definition main (env : Env) (args : Args) : M W Z :=
  if a_version args then (print LVersion ;; ret 0)
  else
    (if (RPC_URL env =? DEFAULT_RPC)%string then print_err LPlaceholderWarning
     else ret tt) ;;
    hashes_raw <- load_hashes env args ;;
    match hashes_raw with
    | [] => print_err LNoHashes ;; print LHelp ;; ret 1
    | _ =>
        '(tx_hashes, invalid_count) <- normalize hashes_raw [] 0 ;;
        match tx_hashes with
        | [] => print_err LNoValidHashes ;; ret 1
        | _ => process env tx_hashes invalid_count
        end
    end.

End World.

Arguments Env W : clear implicits.

End Txbatch.

(** ** tx_batch_auditor.py *)

Module Auditor.
Import Py Eff.
Local Open Scope eff_scope.

(** The parsed command line. *)
Record Args : Type := {
  a_rpc1 : string;
  a_rpc2 : option string;
  a_file : option string;
  a_txs : list string;
  a_max : Z;
  a_json : bool
}.

(** [validate_tx_hash(h)]: the prefix, the length, and [int(h[2:], 16)]
    raising no [ValueError]. *)
Definition validate_tx_hash (h : string) : bool :=
  if negb (startswith h "0x") || negb (len h =? 66) then false
  else if int16_parses (drop 2 h) then true
  else false.

(** A string as a truth value: [None] and the empty string are false. *)
Definition truthy (s : option string) : option string :=
  match s with
  | Some u => if (u =? "")%string then None else Some u
  | None => None
  end.

(** [[h.strip() for h in hashes if h.strip()]] *)
Definition stripped (hashes : list string) : list string :=
  filter (fun h => negb (h =? "")%string) (map strip hashes).

Section World.
Context {W : Type}.

(** What [main] reads besides its arguments: the provider reachable at
    each URL, and the lines of the file at each path, [None] when opening
    or reading it raises [OSError] (no such file, a directory, no
    permission). Files are text here; one that is not valid UTF-8 makes
    the read raise [UnicodeDecodeError], which neither handler of
    [read_hashes_from_file] catches. *)
Record Env : Type := {
  network : string -> Web3 W;
  open_file : string -> option (list string)
}.

(** [connect(rpc, label)]; the optional middleware injection leaves no
    trace in what follows. *)
Definition connect (network : string -> Web3 W) (rpc : string) : M W (Web3 W) :=
  let w3 := network rpc in
  connected <- w3_is_connected w3 ;;
  if negb connected then
    (print_err (LConnectionFailed rpc) ;; sys_exit 1)
  else ret w3.

(** [read_hashes_from_file(path)] *)
Definition read_hashes_from_file (env : Env) (path : string) : M W (list string) :=
  match open_file env path with
  | None => print_err (LFileError path) ;; sys_exit 1
  | Some lines => ret (stripped lines)
  end.

(** [build_commitment(w3, tx_hash)] *)
Definition build_commitment (w3 : Web3 W) (tx_hash : string) : M W Commit :=
  rcpt <- eth_get_transaction_receipt w3 tx_hash ;;
  chain_id <- eth_chain_id w3 ;;
  match rcpt with
  | None => raise (AttributeError "'NoneType' object has no attribute 'blockNumber'")
  | Some rcpt =>
      let block_number := blockNumber rcpt in
      let status := status rcpt in
      let gas_used := gasUsed rcpt in
      chain_bytes <- lift (to_bytes chain_id 8) ;;
      tx_bytes <- lift (fromhex (drop 2 tx_hash)) ;;
      block_bytes <- lift (to_bytes block_number 8) ;;
      status_bytes <- lift (to_bytes status 1) ;;
      gas_bytes <- lift (to_bytes gas_used 8) ;;
      let preimage := (chain_bytes ++ tx_bytes ++ block_bytes ++ status_bytes ++ gas_bytes)%list in
      let commit := Keccak.keccak256 preimage in
      ret {| c_chainId := chain_id;
             c_blockNumber := block_number;
             c_status := status;
             c_gasUsed := gas_used;
             c_commitment := hex commit |}
  end.

(** One provider's part of [audit_tx]: the commitment record, or the
    message of the [Exception] it raised. *)
Definition audit_provider (w3 : Web3 W) (tx_hash : string)
  : M W (option Commit * option string) :=
  try_except
    (c <- build_commitment w3 tx_hash ;; ret (Some c, None))
    (fun e => if is_Exception e then Some (ret (None, Some (str_exn e))) else None).

(** [audit_tx(tx_hash, w3_primary, w3_secondary)] *)
Definition audit_tx (tx_hash : string) (w3_primary : Web3 W)
  (w3_secondary : option (Web3 W)) : M W AuditResult :=
  '(primary, errorPrimary) <- audit_provider w3_primary tx_hash ;;
  '(secondary, errorSecondary) <-
    match w3_secondary with
    | Some w3 => audit_provider w3 tx_hash
    | None => ret (None, None)
    end ;;
  let matched :=
    match primary, secondary with
    | Some p, Some s => Some (c_commitment p =? c_commitment s)%string
    | _, _ => None
    end in
  ret {| r_txHash := tx_hash;
         r_primary := primary;
         r_secondary := secondary;
         r_match := matched;
         r_errorPrimary := errorPrimary;
         r_errorSecondary := errorSecondary |}.

(** The loop of [main] that fills [results]. *)
Fixpoint audit_all (hashes : list string) (w3_primary : Web3 W)
  (w3_secondary : option (Web3 W)) (results : list AuditResult)
  : M W (list AuditResult) :=
  match hashes with
  | [] => ret results
  | h :: rest =>
      res <- audit_tx h w3_primary w3_secondary ;;
      audit_all rest w3_primary w3_secondary (results ++ [res])%list
  end.

(** The human-readable rendering of the results. *)
Fixpoint render (w3_secondary : option (Web3 W)) (results : list AuditResult) : M W unit :=
  match results with
  | [] => ret tt
  | res :: rest =>
      print (LResultHash (r_txHash res)) ;;
      match truthy (r_errorPrimary res) with
      | Some msg =>
          print (LResultPrimaryError msg) ;;
          render w3_secondary rest
      | None =>
          match r_primary res with
          | None => raise (TypeError "'NoneType' object is not subscriptable")
          | Some p =>
              print (LResultPrimary p) ;;
              match w3_secondary with
              | Some _ =>
                  match truthy (r_errorSecondary res), r_secondary res with
                  | Some msg, _ => print (LResultSecondaryError msg)
                  | None, Some s =>
                      print (LResultSecondary (c_commitment s)
                               (match r_match res with Some true => true | _ => false end))
                  | None, None => ret tt
                  end
              | None => ret tt
              end ;;
              print LResultTime ;;
              render w3_secondary rest
          end
      end
  end.

(** [hashes[: args.max]] when [args.max > 0] and the list is longer. *)
Definition cap (max : Z) (hashes : list string) : list string :=
  if (0 <? max) && (max <? Z.of_nat (List.length hashes))
  then firstn (Z.to_nat max) hashes
  else hashes.

(** The output part of [main]: the JSON payload, or the human-readable
    summary. *)
Definition report (args : Args) (w3_primary : Web3 W) (w3_secondary : option (Web3 W))
  (results : list AuditResult) : M W unit :=
  if a_json args then
    c1 <- eth_chain_id w3_primary ;;
    c2 <- eth_chain_id w3_primary ;;
    secondary <-
      match w3_secondary with
      | Some w3s =>
          c3 <- eth_chain_id w3s ;;
          c4 <- eth_chain_id w3s ;;
          ret (Some (match a_rpc2 args with Some u => u | None => "" end,
                     c3, network_name c4))
      | None => ret None
      end ;;
    print (LJson (a_rpc1 args, c1, network_name c2) secondary results)
  else
    c1 <- eth_chain_id w3_primary ;;
    c2 <- eth_chain_id w3_primary ;;
    print (LProvider (network_name c1) c2) ;;
    match w3_secondary with
    | Some w3s =>
        c3 <- eth_chain_id w3s ;;
        c4 <- eth_chain_id w3s ;;
        print (LProvider (network_name c3) c4)
    | None => ret tt
    end ;;
    print (LAuditing (Z.of_nat (List.length results))) ;;
    render w3_secondary results.

(** The chain-id comparison of [main]: with a secondary provider, the two
    chain ids are read and compared; when they differ they are read again
    for the message and the script exits with status 1. *)
Definition check_chain_ids (w3_primary : Web3 W) (w3_secondary : option (Web3 W))
  : M W unit :=
  match w3_secondary with
  | Some w3s =>
      cp <- eth_chain_id w3_primary ;;
      cs <- eth_chain_id w3s ;;
      if negb (cp =? cs) then
        cp' <- eth_chain_id w3_primary ;;
        cs' <- eth_chain_id w3s ;;
        print_err (LChainIdMismatch cp' cs') ;;
        sys_exit 1
      else ret tt
  | None => ret tt
  end.

(** [main()], from the parsed arguments on. *)
Definition main (env : Env) (args : Args) : M W unit :=
  hashes <-
    match truthy (a_file args) with
    | Some path => read_hashes_from_file env path
    | None => ret (a_txs args)
    end ;;
  let hashes := stripped hashes in
  let hashes := dict_fromkeys hashes in
  match hashes with
  | [] => print_err LNoHashes ;; sys_exit 1
  | _ =>
      let bad := filter (fun h => negb (validate_tx_hash h)) hashes in
      match bad with
      | _ :: _ => print_err (LInvalidHashes bad) ;; sys_exit 1
      | [] =>
          let hashes := cap (a_max args) hashes in
          (if contains (a_rpc1 args) "your_api_key" then print_err LPlaceholderWarning
           else ret tt) ;;
          w3_primary <- connect (network env) (a_rpc1 args) ;;
          w3_secondary <-
            match truthy (a_rpc2 args) with
            | Some rpc2 => w3 <- connect (network env) rpc2 ;; ret (Some w3)
            | None => ret None
            end ;;
          check_chain_ids w3_primary w3_secondary ;;
          results <- audit_all hashes w3_primary w3_secondary [] ;;
          report args w3_primary w3_secondary results
      end
  end.

(** The script's entry point: [main()], with a user interrupt turned into
    exit status 1. *)
Definition entry (env : Env) (args : Args) : M W unit :=
  try_except (main env args)
    (fun e =>
       match e with
       | KeyboardInterrupt => Some (print_err LAborted ;; sys_exit 1)
       | _ => None
       end).

End World.

Arguments Env W : clear implicits.

End Auditor.

(** ** txapp.py *)

Module Txapp.
Import Py Eff.
Local Open Scope eff_scope.

(** [build_commitment]:
    keccak(chainId[8] || txHash[32] || blockNumber[8] || status[1] || gasUsed[8]) *)
Definition build_commitment (chain_id : Z) (tx_hash_hex : string)
  (block_number status gas_used : Z) : res string :=
  let! c := to_bytes chain_id 8 in
  let! t := fromhex (drop 2 tx_hash_hex) in
  let! b := to_bytes block_number 8 in
  let! s := to_bytes status 1 in
  let! g := to_bytes gas_used 8 in
  let payload := (c ++ t ++ b ++ s ++ g)%list in
  Ret ("0x" ++ hex (Keccak.keccak256 payload)).

Section World.
Context {W : Type}.

(** The loop of [safe_rpc_call] over [range(1, retries + 1)] and what
    follows it. Every [Exception] is caught, at every attempt; the warning
    goes to standard output and the sleep follows it, also after the last
    attempt. After the loop the script prints its last message (which names
    no exception: the text field is empty) and exits with status 2. *)
Fixpoint safe_rpc_attempts {A} (func : M W A) (retries : Z) (delay : Q)
  (attempts : list Z) : M W A :=
  match attempts with
  | [] => print (LRetryFailed retries EmptyString) ;; sys_exit 2
  | attempt :: rest =>
      o <- try_except
             (a <- func ;; ret (Txbatch.Returned a))
             (fun e =>
                if is_Exception e then
                  Some (print (LRetryWarning attempt retries (str_exn e)) ;;
                        sleep delay ;;
                        ret Txbatch.NextAttempt)
                else None) ;;
      match o with
      | Txbatch.Returned a => ret a
      | Txbatch.NextAttempt => safe_rpc_attempts func retries delay rest
      end
  end.

(** [safe_rpc_call(func, *args, retries=3, delay=1)] *)
Definition safe_rpc_call {A} (func : M W A) (retries : Z) (delay : Q) : M W A :=
  safe_rpc_attempts func retries delay (range 1 (retries + 1)).

(** [w3_connect(url)]; the message goes to standard output. *)
Definition w3_connect (network : string -> Web3 W) (url : string) : M W (Web3 W) :=
  let w3 := network url in
  connected <- w3_is_connected w3 ;;
  if negb connected then
    (print (LConnectionFailed url) ;; sys_exit 1)
  else ret w3.

(** [parse_tx_hash(h)]: strip, add the prefix when it is missing, check the
    shape; a string that is not a hash ends the script with status 1. The
    message does not repeat the string; the model's line records which one
    it was. *)
Definition parse_tx_hash (h : string) : M W string :=
  let raw := h in
  let h := strip h in
  let h := if negb (startswith h "0x") then "0x" ++ h else h in
  not_a_hash <- lift (if negb (len h =? 66) then Ret true
                      else let! hex := Web3_is_hex h in Ret (negb hex)) ;;
  if not_a_hash then
    (print (LInvalidHash raw) ;; sys_exit 1)
  else ret h.

End World.

End Txapp.

(** ** Concrete providers and inputs

    The world of these examples is the number of provider calls answered so
    far. *)

Module Fixtures.
Import Py Eff.

(** A well-formed transaction hash: 0x and 32 times the byte 0xab. *)
Definition hash_bytes : list Z := repeat 171 32.
Definition tx1 : string := "0x" ++ hex hash_bytes.

Definition receipt (st gas : Z) : Receipt :=
  {| status := st; gasUsed := gas; blockNumber := 100; effectiveGasPrice := Some 5 |}.

Definition transfer : Transaction :=
  {| tx_from := "0xfrom"; tx_to := Some "0xto"; gasPrice := Some 7 |}.

(** A provider that is connected, reports chain [cid] and answers receipt
    requests with [rc] (which sees the hash and the world). *)
Definition provider (url : string) (cid : Z)
  (rc : string -> nat -> res (option Receipt)) : Web3 nat :=
  {| uri := url;
     is_connected := fun w => (true, S w);
     chain_id := fun w => (Ret cid, S w);
     get_transaction_receipt := fun h w => (rc h w, S w);
     get_transaction := fun h w => (Ret (Some transfer), S w) |}.

Definition node_a : Web3 nat :=
  provider "https://a.example" 1 (fun _ _ => Ret (Some (receipt 1 21000))).

(** Same chain, but reports one more unit of gas. *)
Definition node_b : Web3 nat :=
  provider "https://b.example" 1 (fun _ _ => Ret (Some (receipt 1 21001))).

(** Agrees with [node_a]. *)
Definition node_c : Web3 nat :=
  provider "https://c.example" 1 (fun _ _ => Ret (Some (receipt 1 21000))).

(** Another chain. *)
Definition node_polygon : Web3 nat :=
  provider "https://polygon.example" 137 (fun _ _ => Ret (Some (receipt 1 21000))).

(** Knows no transaction. *)
Definition node_empty : Web3 nat :=
  provider "https://empty.example" 1 (fun _ _ => Raise (TransactionNotFound "not found")).

(** Times out on its first two calls, then answers. *)
Definition node_flaky : Web3 nat :=
  provider "https://flaky.example" 1
    (fun _ w => if (w <? 2)%nat then Raise (ProviderException "timeout")
                else Ret (Some (receipt 1 21000))).

Definition net (url : string) : Web3 nat :=
  if (url =? "https://b.example")%string then node_b
  else if (url =? "https://c.example")%string then node_c
  else if (url =? "https://polygon.example")%string then node_polygon
  else if (url =? "https://empty.example")%string then node_empty
  else if (url =? "https://flaky.example")%string then node_flaky
  else node_a.

Definition start : state nat := {| world := O; trace := [] |}.

Definition batch_env (url1 : string) (url2 : option string) : Txbatch.Env nat :=
  {| Txbatch.env_RPC_URL := Some url1;
     Txbatch.env_RPC_URL_2 := url2;
     Txbatch.network := net;
     Txbatch.open_file := fun _ => CannotOpen;
     Txbatch.stdin := Some [] |}.

Definition batch_args (txs : list string) : Txbatch.Args :=
  {| Txbatch.a_tx := txs; Txbatch.a_file := None;
     Txbatch.a_no_emoji := false; Txbatch.a_version := false |}.

Definition auditor_env : Auditor.Env nat :=
  {| Auditor.network := net; Auditor.open_file := fun _ => None |}.

Definition auditor_args (url1 : string) (url2 : option string) (txs : list string)
  (max : Z) : Auditor.Args :=
  {| Auditor.a_rpc1 := url1; Auditor.a_rpc2 := url2; Auditor.a_file := None;
     Auditor.a_txs := txs; Auditor.a_max := max; Auditor.a_json := true |}.

(** Knows the transaction but has no receipt for it yet: the receipt call
    answers [None]. *)
Definition node_pending : Web3 nat :=
  provider "https://pending.example" 1 (fun _ _ => Ret None).

(** The user interrupts every receipt call. *)
Definition node_interrupted : Web3 nat :=
  provider "https://interrupted.example" 1 (fun _ _ => Raise KeyboardInterrupt).

(** Never answers a receipt call in time. *)
Definition node_down : Web3 nat :=
  provider "https://down.example" 1 (fun _ _ => Raise (ProviderException "timeout")).

(** A receipt without [effectiveGasPrice], as a node from before EIP-1559
    answers. *)
Definition node_legacy : Web3 nat :=
  provider "https://legacy.example" 1
    (fun _ _ => Ret (Some {| status := 1; gasUsed := 21000; blockNumber := 100;
                             effectiveGasPrice := None |})).

(** Fails every receipt call with an exception that carries no message
    (as [TimeoutError()] does). *)
Definition node_silent : Web3 nat :=
  provider "https://silent.example" 1 (fun _ _ => Raise (ProviderException EmptyString)).

Definition net_more (url : string) : Web3 nat :=
  if (url =? "https://pending.example")%string then node_pending
  else if (url =? "https://silent.example")%string then node_silent
  else if (url =? "https://interrupted.example")%string then node_interrupted
  else if (url =? "https://down.example")%string then node_down
  else if (url =? "https://legacy.example")%string then node_legacy
  else net url.

(** A file of hashes with a comment, a blank line and a repeated hash. *)
Definition hashes_txt : list string :=
  ["# transfers of today"; "  " ++ tx1 ++ "  "; ""; tx1].

Definition batch_file_env (url1 : string) : Txbatch.Env nat :=
  {| Txbatch.env_RPC_URL := Some url1;
     Txbatch.env_RPC_URL_2 := None;
     Txbatch.network := net_more;
     Txbatch.open_file :=
       fun path => if (path =? "hashes.txt")%string then Text hashes_txt
                   else if (path =? "photo.jpg")%string then NotText
                   else CannotOpen;
     Txbatch.stdin := Some [] |}.

Definition batch_file_args (path : string) : Txbatch.Args :=
  {| Txbatch.a_tx := []; Txbatch.a_file := Some path;
     Txbatch.a_no_emoji := false; Txbatch.a_version := false |}.

(** A file of hashes without comments: a hash, a blank line, and the hash
    again with spaces around it. *)
Definition batch_txt : list string := [tx1; ""; " " ++ tx1 ++ " "].

Definition auditor_file_env : Auditor.Env nat :=
  {| Auditor.network := net_more;
     Auditor.open_file :=
       fun path => if (path =? "hashes.txt")%string then Some hashes_txt
                   else if (path =? "batch.txt")%string then Some batch_txt
                   else None |}.

Definition auditor_file_args (url1 path : string) : Auditor.Args :=
  {| Auditor.a_rpc1 := url1; Auditor.a_rpc2 := None; Auditor.a_file := Some path;
     Auditor.a_txs := []; Auditor.a_max := 0; Auditor.a_json := true |}.

(** The same for the human-readable report. *)
Definition auditor_table_args (url1 path : string) : Auditor.Args :=
  {| Auditor.a_rpc1 := url1; Auditor.a_rpc2 := None; Auditor.a_file := Some path;
     Auditor.a_txs := []; Auditor.a_max := 0; Auditor.a_json := false |}.

End Fixtures.

(** * Vocabulary of the properties *)

Section Vocabulary.
Context {W : Type}.
Import Py Eff.

Definition is_byte (b : Z) : Prop := 0 <= b < 256.

(** The spec's layout of a [n]-byte big-endian field: byte [k] from the
    left holds bits [8(n-1-k)] to [8(n-k)-1]. *)
Definition big_endian (n : nat) (v : Z) : list Z :=
  map (fun k => (v / 256 ^ Z.of_nat k) mod 256) (rev (seq 0 n)).

(** The 57-byte preimage as the spec words it. *)
Definition spec_preimage (chainId : Z) (txHash : list Z) (blockNumber status gasUsed : Z)
  : list Z :=
  (big_endian 8 chainId ++ txHash ++ big_endian 8 blockNumber
     ++ big_endian 1 status ++ big_endian 8 gasUsed)%list.

(** The provider calls and the sleeps among some events, in order. *)
Definition timing (evs : list event) : list event :=
  filter (fun ev => match ev with EvRpc _ _ | EvSleep _ => true | _ => false end) evs.

(** [k] attempts each followed by a sleep, then one last attempt. *)
Definition retry_pattern (call pause : event) (k : nat) : list event :=
  (List.concat (repeat [call; pause] k) ++ [call])%list.


(** The state after some more events. *)
Definition logged (s : state W) (evs : list event) : state W :=
  {| world := world s; trace := (trace s ++ evs)%list |}.

(** [emits P m]: whatever [m] adds to the trace satisfies [P]; it never
    rewrites what is already there. *)
Definition emits {A} (P : event -> Prop) (m : M W A) : Prop :=
  forall s, exists evs, trace (snd (m s)) = (trace s ++ evs)%list /\ Forall P evs.

(** [calm m]: [m] lets no [KeyboardInterrupt] and no [SystemExit] out. *)
Definition calm {A} (m : M W A) : Prop :=
  forall s e, fst (m s) = Raise e -> is_Exception e = true.

(** A provider none of whose calls is interrupted. *)
Record calm_provider (w3 : Web3 W) : Prop := {
  calm_chain_id : forall w e, fst (chain_id w3 w) = Raise e -> is_Exception e = true;
  calm_receipt : forall h w e,
      fst (get_transaction_receipt w3 h w) = Raise e -> is_Exception e = true;
  calm_transaction : forall h w e,
      fst (get_transaction w3 h w) = Raise e -> is_Exception e = true
}.

(** [hoare P R X m]: the events [m] adds satisfy [P], a value it returns
    satisfies [R], an exception it raises satisfies [X]. *)
Definition hoare {A} (P : event -> Prop) (R : A -> Prop) (X : exn -> Prop)
  (m : M W A) : Prop :=
  forall s,
    (exists evs, trace (snd (m s)) = (trace s ++ evs)%list /\ Forall P evs) /\
    match fst (m s) with
    | Ret a => R a
    | Raise e => X e
    end.

(** The record a provider's part of [audit_tx] keeps for an outcome of
    [build_commitment]. *)
Definition built (r : Py.res Commit) : option Commit :=
  match r with
  | Py.Ret c => Some c
  | Py.Raise _ => None
  end.

(** Among the events of an audit, the provider calls concern the audited
    hash only. *)
Definition about (tx : string) (ev : event) : Prop :=
  match ev with
  | EvRpc _ IsConnected => False
  | EvRpc _ ChainId => True
  | EvRpc _ (GetTransactionReceipt h) => h = tx
  | EvRpc _ (GetTransaction h) => h = tx
  | _ => False
  end.

(** Events that audit no transaction: messages on standard error and the
    connection and chain-id calls. Nothing on standard output, no receipt
    fetched. *)
Definition no_audit (ev : event) : Prop :=
  match ev with
  | EvStderr _ => True
  | EvRpc _ IsConnected => True
  | EvRpc _ ChainId => True
  | _ => False
  end.

(** The provider answers every connection test with yes. *)
Definition connects (w3 : Web3 W) : Prop :=
  forall w, fst (is_connected w3 w) = true.

(** The provider reports chain id [c] whenever it is asked. *)
Definition reports (w3 : Web3 W) (c : Z) : Prop :=
  forall w, fst (chain_id w3 w) = Ret c.

(** What the retry wrapper and [fetch_bundle] write by themselves. *)
Definition retry_noise (ev : event) : Prop :=
  match ev with
  | EvSleep _ => True
  | EvStderr (LRetryWarning _ _ _) => True
  | EvStderr (LRetryFailed _ _) => True
  | EvStderr (LFetchFailed _) => True
  | _ => False
  end.

(** The events of fetching the bundle of [txh]: retry noise, and provider
    calls for the chain id or about [txh]. *)
Definition fetch_event (txh : string) (ev : event) : Prop :=
  retry_noise ev \/ about txh ev.

(** A bundle is consistent: it is about [txh], and its commitment is the
    one derived from its own fields. *)
Definition bundle_ok (txh : string) (b : Txbatch.Bundle) : Prop :=
  Txbatch.b_tx_hash b = txh /\
  Txbatch.build_commitment (Txbatch.b_chain_id b) (Txbatch.b_tx_hash b)
    (Txbatch.b_block_number b) (Txbatch.b_status b) (Txbatch.b_gas_used b)
  = Py.Ret (Txbatch.b_commitment b).

(** A commitment record of tx_batch_auditor.py is consistent: its
    commitment is the one txbatch.py derives from the same fields, without
    the [0x]. *)
Definition commit_ok (txh : string) (c : Commit) : Prop :=
  Txbatch.build_commitment (c_chainId c) txh (c_blockNumber c) (c_status c) (c_gasUsed c)
  = Py.Ret ("0x" ++ c_commitment c).

(** The lines by which the loop reports on a transaction. *)
Definition row_success (ev : event) : bool :=
  match ev with
  | EvStdout (LRow _ st _ _ _ _ _) => (st =? "success")%string
  | _ => false
  end.

Definition row_failed (ev : event) : bool :=
  match ev with
  | EvStdout (LRow _ st _ _ _ _ _) => negb (st =? "success")%string
  | _ => false
  end.

Definition primary_error (ev : event) : bool :=
  match ev with
  | EvStderr (LErrorPrimary _ _) => true
  | _ => false
  end.

Definition primary_not_found (ev : event) : bool :=
  match ev with
  | EvStdout (LNotFoundPrimary _) => true
  | _ => false
  end.

(** The cross-check did not end in agreement. *)
Definition flagged (note : cross_note) : bool :=
  match note with
  | NoteNone | NoteOk => false
  | _ => true
  end.

Definition row_flagged (ev : event) : bool :=
  match ev with
  | EvStdout (LRow _ _ _ _ _ _ note) => flagged note
  | _ => false
  end.

(** Any of the per-transaction lines. *)
Definition is_verdict (ev : event) : bool :=
  match ev with
  | EvStdout (LRow _ _ _ _ _ _ _) => true
  | EvStdout (LNotFoundPrimary _) => true
  | EvStderr (LErrorPrimary _ _) => true
  | _ => false
  end.

(** How many of the events satisfy [f]. *)
Definition tally (f : event -> bool) (evs : list event) : Z :=
  Z.of_nat (List.length (filter f evs)).

(** The counters after one more transaction whose primary bundle is [b]
    and whose cross-check gave [matched]. *)
Definition counted_row (c : Txbatch.Counters) (b : Txbatch.Bundle) (w3b : option (Web3 W))
  (matched : bool) : Txbatch.Counters :=
  {| Txbatch.success_count :=
       if Txbatch.b_status b =? 1 then Txbatch.success_count c + 1
       else Txbatch.success_count c;
     Txbatch.fail_count :=
       if Txbatch.b_status b =? 1 then Txbatch.fail_count c
       else Txbatch.fail_count c + 1;
     Txbatch.pending_count := Txbatch.pending_count c;
     Txbatch.not_found_count := Txbatch.not_found_count c;
     Txbatch.mismatch_count :=
       if negb matched && (match w3b with Some _ => true | None => false end)
       then Txbatch.mismatch_count c + 1 else Txbatch.mismatch_count c |}.

Definition row_of (txh : string) (b : Txbatch.Bundle) (note : cross_note) : event :=
  EvStdout (LRow txh (if Txbatch.b_status b =? 1 then "success" else "failed")
              (Txbatch.b_chain_id b) (Txbatch.b_block_number b)
              (Txbatch.b_total_fee_wei b) (Txbatch.b_commitment b) note).

(** [0x] followed by exactly 64 hexadecimal digits. *)
Definition well_formed (h : string) : bool :=
  Py.startswith h "0x" && (Py.len h =? 66) && Py.all_chars Py.is_hex_digit (Py.drop 2 h).


(** The hashes [main] of tx_batch_auditor.py works on, after stripping and
    de-duplication; [None] when the file cannot be read. *)
Definition input_hashes (env : Auditor.Env W) (args : Auditor.Args) : option (list string) :=
  match Auditor.truthy (Auditor.a_file args) with
  | Some path =>
      match Auditor.open_file env path with
      | Some lines => Some (dict_fromkeys (Auditor.stripped (Auditor.stripped lines)))
      | None => None
      end
  | None => Some (dict_fromkeys (Auditor.stripped (Auditor.a_txs args)))
  end.

(** The events of auditing the hashes of a list. *)
Definition audits (hashes : list string) (ev : event) : Prop :=
  no_audit ev \/ exists h, In h hashes /\ about h ev.

(** The form [parse_tx_hash] checks: the string stripped, with [0x] put in
    front when it does not start with it. *)
Definition normal_form (raw : string) : string :=
  let h := Py.strip raw in
  if Py.startswith h "0x" then h else "0x" ++ h.

(** The normal form has the length of a hash. *)
Definition hash_length (raw : string) : bool := Py.len (normal_form raw) =? 66.


(** The exception of the expression [Web3.is_hex(h)]. *)
Definition no_is_hex : exn :=
  AttributeError "type object 'Web3' has no attribute 'is_hex'".



(** The counters [main] starts its loop with. *)
Definition zero_counters : Txbatch.Counters :=
  {| Txbatch.success_count := 0; Txbatch.fail_count := 0; Txbatch.pending_count := 0;
     Txbatch.not_found_count := 0; Txbatch.mismatch_count := 0 |}.

End Vocabulary.

(** * More vocabulary: decoding, first occurrences, exit status *)

Section MoreVocabulary.
Context {W : Type}.
Import Py Eff.

(** [int.from_bytes(bs, "big")] *)
Definition from_bytes (bs : list Z) : Z :=
  fold_left (fun acc b => acc * 256 + b) bs 0.

(** The five fields read back from a 57-byte preimage. *)
Definition decode_preimage (p : list Z) : Z * list Z * Z * Z * Z :=
  (from_bytes (firstn 8 p),
   firstn 32 (skipn 8 p),
   from_bytes (firstn 8 (skipn 40 p)),
   from_bytes (firstn 1 (skipn 48 p)),
   from_bytes (skipn 49 p)).

(** The elements of a list, each at its first occurrence. *)
Fixpoint first_occurrences (xs : list string) : list string :=
  match xs with
  | [] => []
  | x :: rest => x :: filter (fun y => negb (y =? x)%string) (first_occurrences rest)
  end.

(** What [load_hashes] of txbatch.py reads besides the [--tx] arguments:
    the file, standard input for [-], nothing without [--file]. *)
Definition read_input (env : Txbatch.Env W) (args : Txbatch.Args) : opened :=
  match Txbatch.a_file args with
  | None => Text []
  | Some path =>
      if (path =? "")%string then Text []
      else if (path =? "-")%string then
        match Txbatch.stdin env with
        | Some lines => Text lines
        | None => NotText
        end
      else Txbatch.open_file env path
  end.

(** The strings [main] of tx_batch_auditor.py starts from: the lines of
    the file when [--file] is given ([None] when it cannot be read), the
    positional arguments otherwise. *)
Definition given_lines (env : Auditor.Env W) (args : Auditor.Args) : option (list string) :=
  match Auditor.truthy (Auditor.a_file args) with
  | Some path => Auditor.open_file env path
  | None => Some (Auditor.a_txs args)
  end.

(** The strings among them that tx_batch_auditor.py rejects. *)
Definition bad_hashes (lines : list string) : list string :=
  filter (fun h => negb (Auditor.validate_tx_hash h))
    (dict_fromkeys (Auditor.stripped lines)).

(** The two provider calls behind one commitment record of
    tx_batch_auditor.py. *)
Definition receipt_call (w3 : Web3 W) (tx : string) : event :=
  EvRpc (uri w3) (GetTransactionReceipt tx).



(** The hashes named by the result lines of a human-readable report, in
    order. *)
Definition result_hashes (evs : list event) : list string :=
  flat_map (fun ev => match ev with
                      | EvStdout (LResultHash h) => [h]
                      | _ => []
                      end) evs.

(** A line on standard output. *)
Definition on_stdout (ev : event) : Prop :=
  match ev with
  | EvStdout _ => True
  | _ => False
  end.

(** A record the human-readable report can print: its primary error, if
    any, has a message, or its primary commitment is there. *)
Definition printable (r : AuditResult) : Prop :=
  Auditor.truthy (r_errorPrimary r) <> None \/ r_primary r <> None.

(** Every exception the provider raises for a receipt or a chain-id request
    has a message ([str(e)] is not empty). *)
Definition outspoken (w3 : Web3 W) : Prop :=
  (forall w e, fst (chain_id w3 w) = Raise e -> str_exn e <> EmptyString) /\
  (forall h w e, fst (get_transaction_receipt w3 h w) = Raise e -> str_exn e <> EmptyString).

(** [returns m s a evs s']: run in state [s], [m] returns [a], having
    added the events [evs], and leaves the state [s']. *)
Definition returns {A} (m : M W A) (s : state W) (a : A) (evs : list event)
  (s' : state W) : Prop :=
  m s = (Ret a, s') /\ trace s' = (trace s ++ evs)%list.


(** How the body of the loop of [main] of txbatch.py ends for one
    transaction: the primary bundle was fetched and the cross-check gave a
    note for the row; or the primary fetch raised [TransactionNotFound]; or
    it raised another [Exception], with this text. *)
Inductive outcome : Type :=
| Fetched (b : Txbatch.Bundle) (note : cross_note)
| NotFound
| Failed (msg : string).

(** The line the loop prints for an outcome. *)
Definition outcome_line (txh : string) (o : outcome) : event :=
  match o with
  | Fetched b note => row_of txh b note
  | NotFound => EvStdout (LNotFoundPrimary txh)
  | Failed msg => EvStderr (LErrorPrimary txh msg)
  end.

(** [audited w3 w3b txh s o s1]: started in state [s], the fetches for
    [txh] (the primary bundle and, when that is there and a secondary
    provider is configured, the cross-check) end with the outcome [o] and
    leave the state [s1]. *)
Inductive audited (w3 : Web3 W) (w3b : option (Web3 W)) (txh : string) (s : state W)
  : outcome -> state W -> Prop :=
| audited_fetched b s1 note matched s2 :
    Txbatch.fetch_bundle w3 txh s = (Ret b, s1) ->
    (match w3b with
     | None => ret (NoteNone, true)
     | Some w3b' => Txbatch.cross_check w3b' txh b
     end) s1 = (Ret (note, matched), s2) ->
    audited w3 w3b txh s (Fetched b note) s2
| audited_not_found e s1 :
    Txbatch.fetch_bundle w3 txh s = (Raise e, s1) ->
    is_TransactionNotFound e = true ->
    audited w3 w3b txh s NotFound s1
| audited_failed e s1 :
    Txbatch.fetch_bundle w3 txh s = (Raise e, s1) ->
    is_TransactionNotFound e = false ->
    is_Exception e = true ->
    audited w3 w3b txh s (Failed (str_exn e)) s1.

(** [loop_run w3 w3b tx_hashes s outs s']: the hashes are audited one
    after the other, each followed by its line, with the outcomes [outs],
    from state [s] to state [s']. *)
Inductive loop_run (w3 : Web3 W) (w3b : option (Web3 W))
  : list string -> state W -> list outcome -> state W -> Prop :=
| loop_done s : loop_run w3 w3b [] s [] s
| loop_next txh rest s o s1 outs s' :
    audited w3 w3b txh s o s1 ->
    loop_run w3 w3b rest (logged s1 [outcome_line txh o]) outs s' ->
    loop_run w3 w3b (txh :: rest) s (o :: outs) s'.

(** How many of the outcomes satisfy [f]. *)
Definition count (f : outcome -> bool) (outs : list outcome) : Z :=
  Z.of_nat (List.length (filter f outs)).

(** The primary bundle was fetched and its status is 1. *)
Definition status_one (o : outcome) : bool :=
  match o with
  | Fetched b _ => Txbatch.b_status b =? 1
  | _ => false
  end.

(** The primary bundle was fetched and its status is not 1. *)
Definition status_other (o : outcome) : bool :=
  match o with
  | Fetched b _ => negb (Txbatch.b_status b =? 1)
  | _ => false
  end.

Definition fetch_failed (o : outcome) : bool :=
  match o with
  | Failed _ => true
  | _ => false
  end.

Definition not_found (o : outcome) : bool :=
  match o with
  | NotFound => true
  | _ => false
  end.

(** The primary bundle was fetched and the cross-check did not end in
    agreement. *)
Definition cross_flagged (o : outcome) : bool :=
  match o with
  | Fetched _ note => flagged note
  | _ => false
  end.

(** The lines of the outcomes of a list of hashes, in order. *)
Definition outcome_lines (tx_hashes : list string) (outs : list outcome) : list event :=
  map (fun p => outcome_line (fst p) (snd p)) (combine tx_hashes outs).


(** The summary line for some outcomes. *)
Definition summary_of (outs : list outcome) : event :=
  EvStdout (LSummary (count status_one outs)
              (count status_other outs + count fetch_failed outs)
              (count not_found outs) 0 (count cross_flagged outs)).

(** The events of the connection step of txbatch.py. *)
Definition setup (ev : event) : Prop :=
  match ev with
  | EvStdout (LConnecting _) | EvStdout (LConnected _) => True
  | EvRpc _ IsConnected | EvRpc _ ChainId => True
  | _ => False
  end.

(** The warning that follows the summary when some cross-check did not
    end in agreement. *)
Definition mismatch_warning (outs : list outcome) : list event :=
  if 0 <? count cross_flagged outs
  then [EvStderr (LMismatchWarning (count cross_flagged outs))]
  else [].

(** The exit status of txbatch.py as the outcomes tell it: 2 when the
    cross-check of some fetched transaction did not end in agreement;
    otherwise 1 when some fetched transaction has a status other than 1,
    some primary fetch raised an error or found nothing, or some input
    string was counted as invalid; otherwise 0. *)
Definition exit_status (outs : list outcome) (invalid_count : Z) : Z :=
  if 0 <? count cross_flagged outs then 2
  else if (0 <? count status_other outs + count fetch_failed outs)
          || (0 <? count not_found outs)
          || (0 <? invalid_count)
       then 1
       else 0.

(** Two bundles agree on the four fields the commitment is derived from. *)
Definition fields_agree (b1 b2 : Txbatch.Bundle) : bool :=
  (Txbatch.b_chain_id b1 =? Txbatch.b_chain_id b2)
  && (Txbatch.b_block_number b1 =? Txbatch.b_block_number b2)
  && (Txbatch.b_status b1 =? Txbatch.b_status b2)
  && (Txbatch.b_gas_used b1 =? Txbatch.b_gas_used b2).

(** [k] attempts, each followed by a sleep. *)
Definition all_failed (call pause : event) (k : nat) : list event :=
  List.concat (repeat [call; pause] k).

End MoreVocabulary.

(** * Properties *)

(** ** Bytes and hexadecimal text *)

Lemma be_digits_length n v : List.length (Py.be_digits n v) = n.
Proof.
  revert v. induction n as [|n IH]; intros v; simpl; [reflexivity|].
  rewrite length_app, IH. simpl. lia.
Qed.

Lemma be_digits_big_endian n v : Py.be_digits n v = big_endian n v.
Proof.
  unfold big_endian. revert v. induction n as [|n IH]; intros v; [reflexivity|].
  cbn [Py.be_digits]. rewrite IH.
  rewrite <- cons_seq, <- seq_shift. cbn [rev]. rewrite map_app. cbn [map].
  rewrite Z.pow_0_r, Z.div_1_r. f_equal.
  rewrite map_rev, map_rev, map_map. f_equal.
  apply map_ext. intros k.
  rewrite Nat2Z.inj_succ, Z.pow_succ_r by lia.
  rewrite Z.div_div by lia. reflexivity.
Qed.

Lemma to_bytes_fits v n :
  0 <= v < 256 ^ Z.of_nat n -> Py.to_bytes v n = Py.Ret (big_endian n v).
Proof.
  intros [H0 H1]. unfold Py.to_bytes.
  destruct (Z.ltb_spec v 0); [lia|].
  destruct (Z.leb_spec (256 ^ Z.of_nat n) v); [lia|].
  now rewrite be_digits_big_endian.
Qed.

Lemma to_bytes_overflow v n :
  v < 0 \/ 256 ^ Z.of_nat n <= v -> exists m, Py.to_bytes v n = Py.Raise (Py.OverflowError m).
Proof.
  intros H. unfold Py.to_bytes.
  destruct (Z.ltb_spec v 0); [eauto|].
  destruct (Z.leb_spec (256 ^ Z.of_nat n) v); [eauto|lia].
Qed.

Lemma to_bytes_returns v n bs :
  Py.to_bytes v n = Py.Ret bs -> 0 <= v < 256 ^ Z.of_nat n.
Proof.
  unfold Py.to_bytes.
  destruct (Z.ltb_spec v 0); [discriminate|].
  destruct (Z.leb_spec (256 ^ Z.of_nat n) v); [discriminate|]. lia.
Qed.

Lemma nibble_cases d : 0 <= d < 16 ->
  In d [0; 1; 2; 3; 4; 5; 6; 7; 8; 9; 10; 11; 12; 13; 14; 15].
Proof.
  intros H. simpl.
  assert (d = 0 \/ d = 1 \/ d = 2 \/ d = 3 \/ d = 4 \/ d = 5 \/ d = 6 \/ d = 7 \/
          d = 8 \/ d = 9 \/ d = 10 \/ d = 11 \/ d = 12 \/ d = 13 \/ d = 14 \/ d = 15) by lia.
  intuition auto.
Qed.

Lemma hex_char_value d : 0 <= d < 16 ->
  Py.hex_value (Py.hex_char d) = Some d /\ Py.is_c_space (Py.hex_char d) = false.
Proof.
  intros H. apply nibble_cases in H. simpl in H.
  repeat (destruct H as [<- | H]; [split; reflexivity|]). contradiction.
Qed.

Lemma fromhex_hex bs : Forall is_byte bs -> Py.fromhex (Py.hex bs) = Py.Ret bs.
Proof.
  induction 1 as [|b bs Hb _ IH]; [reflexivity|].
  unfold is_byte in Hb. cbn [Py.hex Py.fromhex].
  destruct (hex_char_value (b / 16)) as [Hv Hs].
  { split; [apply Z.div_pos; lia | apply Z.div_lt_upper_bound; lia]. }
  destruct (hex_char_value (b mod 16)) as [Hv' _].
  { apply Z.mod_pos_bound; lia. }
  rewrite Hs, Hv, Hv', IH. f_equal. f_equal.
  rewrite (Z.div_mod b 16) at 3 by lia. reflexivity.
Qed.

Lemma big_endian_length n v : List.length (big_endian n v) = n.
Proof. unfold big_endian. now rewrite length_map, length_rev, length_seq. Qed.

Lemma spec_preimage_length chainId txHash blockNumber status gasUsed :
  List.length txHash = 32%nat ->
  List.length (spec_preimage chainId txHash blockNumber status gasUsed) = 57%nat.
Proof.
  intros H. unfold spec_preimage.
  rewrite !length_app, !big_endian_length, H. reflexivity.
Qed.

(** ** Keccak-256: test vectors and the size of the digest *)

Example keccak256_empty :
  Py.hex (Keccak.keccak256 []) =
  "c5d2460186f7233c927e7db2dcc703c0e500b653ca82273b7bfad8045d85a470".
Proof. vm_compute. reflexivity. Qed.

Example keccak256_abc :
  Py.hex (Keccak.keccak256 [97; 98; 99]) =
  "4e03657aea45a94fc7d47ba826c8d667c0d1e6e33a64a036ec44f58fa12d6c45".
Proof. vm_compute. reflexivity. Qed.

Lemma keccak_round_length rc st :
  List.length (Keccak.iota rc (Keccak.chi (Keccak.rho_pi (Keccak.theta st)))) = 25%nat.
Proof.
  unfold Keccak.chi. generalize (Keccak.rho_pi (Keccak.theta st)). intros st'.
  unfold Keccak.positions. cbn [seq map Keccak.iota List.length]. reflexivity.
Qed.

Lemma keccak_f_length st :
  List.length st = 25%nat -> List.length (Keccak.keccak_f st) = 25%nat.
Proof.
  unfold Keccak.keccak_f. generalize Keccak.round_constants. intros rcs.
  revert st. induction rcs as [|rc rcs IH]; intros st Hst; [exact Hst|].
  cbn [fold_left]. apply IH, keccak_round_length.
Qed.

Lemma xor_lanes_length st blk :
  List.length (Keccak.xor_lanes st blk) = List.length st.
Proof.
  revert blk. induction st as [|s st IH]; intros [|b blk]; cbn; auto.
Qed.

Lemma absorb_length n st bs :
  List.length st = 25%nat -> List.length (Keccak.absorb n st bs) = 25%nat.
Proof.
  revert st bs. induction n as [|n IH]; intros st bs Hst; [exact Hst|].
  cbn [Keccak.absorb]. apply IH, keccak_f_length. now rewrite xor_lanes_length.
Qed.

(** The digest has 32 bytes. *)
Lemma keccak256_length msg : List.length (Keccak.keccak256 msg) = 32%nat.
Proof.
  unfold Keccak.keccak256.
  pose proof (absorb_length (List.length (Keccak.pad msg) / Keccak.rate)
                (repeat 0 25) (Keccak.pad msg) eq_refl) as H.
  destruct (Keccak.absorb _ _ _) as [|l0 [|l1 [|l2 [|l3 st]]]]; try discriminate H.
  reflexivity.
Qed.

Lemma hex_length bs : String.length (Py.hex bs) = (2 * List.length bs)%nat.
Proof. induction bs as [|b bs IH]; cbn [Py.hex String.length List.length]; lia. Qed.

(** ** The retry wrapper of txbatch.py *)


Lemma range_unfold lo n :
  map (fun i => lo + Z.of_nat i) (seq 0 (S n)) =
  lo :: map (fun i => (lo + 1) + Z.of_nat i) (seq 0 n).
Proof.
  cbn [seq map]. rewrite Z.add_0_r. f_equal.
  rewrite <- seq_shift, map_map. apply map_ext. intros i. lia.
Qed.

Section Retry.
Context {W : Type}.
Import Py Eff.

(** One pass through the loop body of [safe_rpc_call]. *)
Lemma safe_rpc_attempts_step {A} (func : M W A) retries delay attempt rest s :
  Txbatch.safe_rpc_attempts func retries delay (attempt :: rest) s =
  match func s with
  | (Ret a, s1) => (Ret (Some a), s1)
  | (Raise e, s1) =>
      if is_Exception e then
        if attempt =? retries then
          (Raise e, logged s1 [EvStderr (LRetryFailed retries (str_exn e))])
        else if Qle_bool 0 delay then
          Txbatch.safe_rpc_attempts func retries delay rest
            (logged s1 [EvStderr (LRetryWarning attempt retries (str_exn e));
                        EvSleep delay])
        else
          (Raise (ValueError "sleep length must be non-negative"),
           logged s1 [EvStderr (LRetryWarning attempt retries (str_exn e))])
      else (Raise e, s1)
  end.
Proof.
  cbn [Txbatch.safe_rpc_attempts]. unfold bind at 1. unfold try_except, bind at 1.
  destruct (func s) as [[a | e] s1]; [reflexivity|].
  destruct e; cbn [is_Exception]; try reflexivity;
    destruct (attempt =? retries); unfold sleep; destruct (Qle_bool 0 delay);
    cbn; unfold logged; cbn; rewrite <- ?app_assoc; reflexivity.
Qed.

Lemma call_rpc_run {A} (w3 : Web3 W) m (op : W -> res A * W) s :
  call_rpc w3 m op s =
  (fst (op (world s)),
   {| world := snd (op (world s)); trace := (trace s ++ [EvRpc (uri w3) m])%list |}).
Proof. unfold call_rpc. destruct (op (world s)); reflexivity. Qed.

Lemma safe_rpc_attempts_nil {A} (func : M W A) retries delay s :
  Txbatch.safe_rpc_attempts func retries delay [] s = (Ret None, s).
Proof. reflexivity. Qed.


End Retry.

(** A value returned by the first attempt, [None] included, is handed back
    at once: one call, no sleep. *)
Lemma safe_rpc_call_first_answer {W A : Type} (w3 : Eff.Web3 W) (m : rpc_method)
  (op : W -> Py.res A * W) (retries : Z) (delay : Q) (s : Eff.state W) (a : A) (w1 : W) :
  1 <= retries ->
  op (Eff.world s) = (Py.Ret a, w1) ->
  Txbatch.safe_rpc_call (Eff.call_rpc w3 m op) retries delay s =
  (Py.Ret (Some a),
   {| Eff.world := w1; Eff.trace := (Eff.trace s ++ [EvRpc (Eff.uri w3) m])%list |}).
Proof.
  intros Hretries Hop. unfold Txbatch.safe_rpc_call, Py.range.
  replace (retries + 1 - 1) with retries by lia.
  destruct (Z.to_nat retries) as [|n] eqn:Hn; [lia|].
  rewrite range_unfold, safe_rpc_attempts_step, call_rpc_run, Hop. reflexivity.
Qed.


(** ** The commitment derivation *)

Section Commitment.
Import Py Eff.

Lemma build_commitment_txapp_same cid tx blk st gas :
  Txapp.build_commitment cid tx blk st gas = Txbatch.build_commitment cid tx blk st gas.
Proof. reflexivity. Qed.

(** [build_commitment] of txbatch.py returns exactly when every field fits
    its width and the hash text decodes. *)
Lemma build_commitment_returns cid tx blk st gas out :
  Txbatch.build_commitment cid tx blk st gas = Ret out <->
  exists t,
    0 <= cid < 2 ^ 64 /\ fromhex (drop 2 tx) = Ret t /\ 0 <= blk < 2 ^ 64 /\
    0 <= st < 2 ^ 8 /\ 0 <= gas < 2 ^ 64 /\
    out = "0x" ++ hex (Keccak.keccak256
             (big_endian 8 cid ++ t ++ big_endian 8 blk ++ big_endian 1 st
                ++ big_endian 8 gas)%list).
Proof.
  unfold Txbatch.build_commitment, and_then. split.
  - destruct (to_bytes cid 8) as [c|] eqn:Hc; [|discriminate].
    destruct (fromhex (drop 2 tx)) as [t|] eqn:Ht; [|discriminate].
    destruct (to_bytes blk 8) as [b|] eqn:Hb; [|discriminate].
    destruct (to_bytes st 1) as [s|] eqn:Hs; [|discriminate].
    destruct (to_bytes gas 8) as [g|] eqn:Hg; [|discriminate].
    intros [= <-]. exists t.
    pose proof (to_bytes_returns _ _ _ Hc) as Rc.
    pose proof (to_bytes_returns _ _ _ Hb) as Rb.
    pose proof (to_bytes_returns _ _ _ Hs) as Rs.
    pose proof (to_bytes_returns _ _ _ Hg) as Rg.
    rewrite to_bytes_fits in Hc, Hb, Hs, Hg by assumption.
    injection Hc as <-. injection Hb as <-. injection Hs as <-. injection Hg as <-.
    change (256 ^ Z.of_nat 8) with (2 ^ 64) in *.
    change (256 ^ Z.of_nat 1) with (2 ^ 8) in *.
    repeat split; try lia; auto.
  - intros (t & Hc & Ht & Hb & Hs & Hg & ->).
    rewrite !to_bytes_fits, Ht by assumption. reflexivity.
Qed.

End Commitment.

(** C1. For fields that fit their widths and a 32-byte hash written as
    [0x] plus its 64 hexadecimal digits, [build_commitment] of txbatch.py,
    of txapp.py and of tx_batch_auditor.py return the Keccak-256 digest (in
    hexadecimal) of the 57-byte preimage
    chainId[8] || txHash[32] || blockNumber[8] || status[1] || gasUsed[8],
    every integer big-endian. *)
Theorem C1_commitment_is_keccak_of_preimage :
  forall (cid : Z) (hash : list Z) (blk st gas : Z),
    0 <= cid < 2 ^ 64 -> 0 <= blk < 2 ^ 64 -> 0 <= gas < 2 ^ 64 ->
    0 <= st < 2 ^ 8 ->
    List.length hash = 32%nat -> Forall is_byte hash ->
    let preimage := spec_preimage cid hash blk st gas in
    let digest := Py.hex (Keccak.keccak256 preimage) in
    let tx := "0x" ++ Py.hex hash in
    List.length preimage = 57%nat /\
    Txbatch.build_commitment cid tx blk st gas = Py.Ret ("0x" ++ digest) /\
    Txapp.build_commitment cid tx blk st gas = Py.Ret ("0x" ++ digest) /\
    (forall (W : Type) (w3 : Eff.Web3 W) (s : Eff.state W) (rcpt : Receipt) (w1 w2 : W),
        Eff.get_transaction_receipt w3 tx (Eff.world s) = (Py.Ret (Some rcpt), w1) ->
        Eff.chain_id w3 w1 = (Py.Ret cid, w2) ->
        blockNumber rcpt = blk -> status rcpt = st -> gasUsed rcpt = gas ->
        fst (Auditor.build_commitment w3 tx s) =
        Py.Ret {| c_chainId := cid; c_blockNumber := blk; c_status := st;
                  c_gasUsed := gas; c_commitment := digest |}).
Proof.
  intros cid hash blk st gas Hc Hb Hg Hs Hlen Hbytes preimage digest tx.
  assert (Htx : Py.fromhex (Py.drop 2 tx) = Py.Ret hash)
    by (subst tx; cbn [Py.drop append]; now apply fromhex_hex).
  assert (Hbatch : Txbatch.build_commitment cid tx blk st gas = Py.Ret ("0x" ++ digest)).
  { apply build_commitment_returns. exists hash. repeat split; auto; lia. }
  split; [now apply spec_preimage_length|].
  split; [exact Hbatch|]. split; [exact Hbatch|].
  intros W w3 s rcpt w1 w2 Hr Hchain <- <- <-.
  unfold Auditor.build_commitment, Eff.bind, Eff.eth_get_transaction_receipt,
    Eff.eth_chain_id, Eff.call_rpc, Eff.lift, Eff.ret.
  rewrite Hr. cbn [Eff.world]. rewrite Hchain, Htx.
  rewrite !to_bytes_fits by assumption. reflexivity.
Qed.

(** C5, as the code has it. [build_commitment] of txbatch.py and txapp.py
    returns exactly when chainId, blockNumber and gasUsed lie in [0, 2^64),
    status lies in [0, 2^8) and the hash text decodes; a value outside its
    range is rejected with [OverflowError], never truncated. A status from 2
    to 255 is accepted and encoded as one byte. *)
Theorem C5_commitment_rejects_what_does_not_fit :
  forall (cid : Z) (tx : string) (blk st gas : Z),
    ((exists out, Txbatch.build_commitment cid tx blk st gas = Py.Ret out) <->
     (0 <= cid < 2 ^ 64 /\ (exists t, Py.fromhex (Py.drop 2 tx) = Py.Ret t) /\
      0 <= blk < 2 ^ 64 /\ 0 <= st < 2 ^ 8 /\ 0 <= gas < 2 ^ 64)) /\
    Txapp.build_commitment cid tx blk st gas = Txbatch.build_commitment cid tx blk st gas /\
    (0 <= cid < 2 ^ 64 -> (exists t, Py.fromhex (Py.drop 2 tx) = Py.Ret t) ->
     ~ (0 <= blk < 2 ^ 64 /\ 0 <= st < 2 ^ 8 /\ 0 <= gas < 2 ^ 64) ->
     exists m, Txbatch.build_commitment cid tx blk st gas = Py.Raise (Py.OverflowError m)).
Proof.
  intros cid tx blk st gas. split; [|split; [reflexivity|]].
  - split.
    + intros [out H]. apply build_commitment_returns in H.
      destruct H as (t & ? & ? & ? & ? & ? & _). eauto 10.
    + intros (Hc & [t Ht] & Hb & Hs & Hg). eexists.
      apply build_commitment_returns. exists t. repeat split; auto; lia.
  - intros Hc [t Ht] Hbad.
    unfold Txbatch.build_commitment, Py.and_then.
    rewrite (to_bytes_fits cid 8), Ht by assumption.
    destruct (Z.lt_ge_cases blk 0) as [|Hb0];
      [destruct (to_bytes_overflow blk 8) as [m ->]; eauto|].
    destruct (Z.le_gt_cases (2 ^ 64) blk) as [|Hb1];
      [destruct (to_bytes_overflow blk 8) as [m ->]; eauto|].
    rewrite (to_bytes_fits blk 8) by (change (256 ^ Z.of_nat 8) with (2 ^ 64); lia).
    destruct (Z.lt_ge_cases st 0) as [|Hs0];
      [destruct (to_bytes_overflow st 1) as [m ->]; eauto|].
    destruct (Z.le_gt_cases (2 ^ 8) st) as [|Hs1];
      [destruct (to_bytes_overflow st 1) as [m ->]; eauto|].
    rewrite (to_bytes_fits st 1) by (change (256 ^ Z.of_nat 1) with (2 ^ 8); lia).
    destruct (to_bytes_overflow gas 8) as [m ->]; eauto.
    change (256 ^ Z.of_nat 8) with (2 ^ 64). lia.
Qed.

(** ** Reasoning about effectful code *)

Section Effects.
Context {W : Type}.
Import Py Eff.

Lemma bind_run {A B} (m : M W A) (k : A -> M W B) s :
  bind m k s =
  match m s with
  | (Ret a, s1) => k a s1
  | (Raise e, s1) => (Raise e, s1)
  end.
Proof. reflexivity. Qed.

Lemma bind_returns {A B} (m : M W A) (k : A -> M W B) s b s' :
  bind m k s = (Ret b, s') ->
  exists a s1, m s = (Ret a, s1) /\ k a s1 = (Ret b, s').
Proof.
  rewrite bind_run. destruct (m s) as [[a | e] s1]; [eauto | discriminate].
Qed.

Lemma emits_weaken {A} (P Q : event -> Prop) (m : M W A) :
  (forall ev, P ev -> Q ev) -> emits P m -> emits Q m.
Proof.
  intros HPQ Hm s. destruct (Hm s) as (evs & Ht & HP).
  exists evs. split; [assumption|]. eapply Forall_impl; eauto.
Qed.

Lemma emits_ret {A} P (a : A) : emits P (ret (W := W) a).
Proof. intros s. exists []. cbn. now rewrite app_nil_r. Qed.

Lemma emits_raise {A} P e : emits P (raise (W := W) (A := A) e).
Proof. intros s. exists []. cbn. now rewrite app_nil_r. Qed.


Lemma emits_lift {A} P (r : res A) : emits P (lift (W := W) r).
Proof. intros s. exists []. cbn. now rewrite app_nil_r. Qed.


Lemma emits_call_rpc {A} (P : event -> Prop) (w3 : Web3 W) m (op : W -> res A * W) :
  P (EvRpc (uri w3) m) -> emits P (call_rpc w3 m op).
Proof.
  intros H s. exists [EvRpc (uri w3) m]. rewrite call_rpc_run. cbn. auto.
Qed.

Lemma emits_bind {A B} P (m : M W A) (k : A -> M W B) :
  emits P m -> (forall a, emits P (k a)) -> emits P (bind m k).
Proof.
  intros Hm Hk s. rewrite bind_run.
  destruct (Hm s) as (evs & Ht & HP).
  destruct (m s) as [[a | e] s1]; cbn in *.
  - destruct (Hk a s1) as (evs' & Ht' & HP').
    exists (evs ++ evs')%list. rewrite Ht', Ht, app_assoc.
    split; [reflexivity | now apply Forall_app].
  - eauto.
Qed.

Lemma emits_try_except {A} P (body : M W A) handler :
  emits P body -> (forall e h, handler e = Some h -> emits P h) ->
  emits P (try_except body handler).
Proof.
  intros Hb Hh s. unfold try_except.
  destruct (Hb s) as (evs & Ht & HP).
  destruct (body s) as [[a | e] s1]; cbn in *; [eauto|].
  destruct (handler e) as [h|] eqn:He; [|eauto].
  destruct (Hh e h He s1) as (evs' & Ht' & HP').
  exists (evs ++ evs')%list. rewrite Ht', Ht, app_assoc.
  split; [reflexivity | now apply Forall_app].
Qed.

Lemma calm_ret {A} (a : A) : calm (ret (W := W) a).
Proof. intros s e. discriminate. Qed.

Lemma calm_raise {A} e : is_Exception e = true -> calm (raise (W := W) (A := A) e).
Proof. intros H s e' [= <-]. exact H. Qed.

Lemma calm_emit ev : calm (emit (W := W) ev).
Proof. intros s e. discriminate. Qed.

Lemma calm_bind {A B} (m : M W A) (k : A -> M W B) :
  calm m -> (forall a, calm (k a)) -> calm (bind m k).
Proof.
  intros Hm Hk s e. rewrite bind_run.
  specialize (Hm s). destruct (m s) as [[a | e0] s1]; cbn in *.
  - apply Hk.
  - intros [= <-]. auto.
Qed.

Lemma calm_try_except {A} (body : M W A) handler :
  calm body -> (forall e h, handler e = Some h -> calm h) ->
  calm (try_except body handler).
Proof.
  intros Hb Hh s e. unfold try_except.
  specialize (Hb s). destruct (body s) as [[a | e0] s1]; cbn in *; [discriminate|].
  destruct (handler e0) as [h|] eqn:He.
  - apply (Hh e0 h He).
  - cbn. intros [= <-]. auto.
Qed.

Lemma calm_call_rpc {A} (w3 : Web3 W) m (op : W -> res A * W) :
  (forall w e, fst (op w) = Raise e -> is_Exception e = true) ->
  calm (call_rpc w3 m op).
Proof. intros H s e. rewrite call_rpc_run. cbn. apply H. Qed.

Lemma calm_lift {A} (r : res A) :
  (forall e, r = Raise e -> is_Exception e = true) -> calm (lift (W := W) r).
Proof. intros H s e. cbn. apply H. Qed.

Lemma hoare_ret {A} P (R : A -> Prop) X a : R a -> hoare (W := W) P R X (ret a).
Proof. intros H s. split; [|exact H]. exists []. cbn. now rewrite app_nil_r. Qed.

Lemma hoare_raise {A} P (R : A -> Prop) (X : exn -> Prop) e :
  X e -> hoare (W := W) P R X (raise e).
Proof. intros H s. split; [|exact H]. exists []. cbn. now rewrite app_nil_r. Qed.

Lemma hoare_emit (P : event -> Prop) (R : unit -> Prop) X ev :
  P ev -> R tt -> hoare (W := W) P R X (emit ev).
Proof. intros HP HR s. split; [|exact HR]. exists [ev]. cbn. auto. Qed.

Lemma hoare_bind {A B} P (R : A -> Prop) (R' : B -> Prop) X (m : M W A) (k : A -> M W B) :
  hoare P R X m -> (forall a, R a -> hoare P R' X (k a)) -> hoare P R' X (bind m k).
Proof.
  intros Hm Hk s. rewrite bind_run.
  destruct (Hm s) as [(evs & Ht & HP) Hr].
  destruct (m s) as [[a | e] s1]; cbn in *.
  - destruct (Hk a Hr s1) as [(evs' & Ht' & HP') Hr'].
    split; [|exact Hr'].
    exists (evs ++ evs')%list. rewrite Ht', Ht, app_assoc.
    split; [reflexivity | now apply Forall_app].
  - split; [eauto | exact Hr].
Qed.

Lemma hoare_weaken {A} (P P' : event -> Prop) (R R' : A -> Prop) (X X' : exn -> Prop)
  (m : M W A) :
  (forall ev, P ev -> P' ev) -> (forall a, R a -> R' a) -> (forall e, X e -> X' e) ->
  hoare P R X m -> hoare P' R' X' m.
Proof.
  intros HP HR HX Hm s. destruct (Hm s) as [(evs & Ht & Hev) Hr]. split.
  - exists evs. split; [exact Ht|]. eapply Forall_impl; eauto.
  - destruct (fst (m s)); auto.
Qed.

Lemma emits_hoare {A} P (m : M W A) :
  emits P m -> hoare P (fun _ => True) (fun _ => True) m.
Proof. intros Hm s. split; [apply Hm|]. now destruct (fst (m s)). Qed.

Lemma hoare_emits {A} P (R : A -> Prop) X (m : M W A) : hoare P R X m -> emits P m.
Proof. intros Hm s. apply Hm. Qed.

Lemma hoare_lift {A} P (R : A -> Prop) (X : exn -> Prop) (r : res A) :
  match r with Ret a => R a | Raise e => X e end -> hoare (W := W) P R X (lift r).
Proof. intros H s. split; [|exact H]. exists []. cbn. now rewrite app_nil_r. Qed.

Lemma hoare_try_except {A} P (R : A -> Prop) (X X' : exn -> Prop) (body : M W A) handler :
  hoare P R X' body ->
  (forall e, X' e ->
     match handler e with
     | Some h => hoare P R X h
     | None => X e
     end) ->
  hoare P R X (try_except body handler).
Proof.
  intros Hb Hh s. unfold try_except.
  destruct (Hb s) as [(evs & Ht & HP) Hr].
  destruct (body s) as [[a | e] s1]; cbn in *; [split; eauto|].
  specialize (Hh e Hr). destruct (handler e) as [h|].
  - destruct (Hh s1) as [(evs' & Ht' & HP') Hr'].
    split; [|exact Hr'].
    exists (evs ++ evs')%list. rewrite Ht', Ht, app_assoc.
    split; [reflexivity | now apply Forall_app].
  - split; eauto.
Qed.

End Effects.

Lemma to_bytes_raises_exception v n e :
  Py.to_bytes v n = Py.Raise e -> Py.is_Exception e = true.
Proof.
  unfold Py.to_bytes. destruct (v <? 0); [intros [= <-]; reflexivity|].
  destruct (256 ^ Z.of_nat n <=? v); [intros [= <-]; reflexivity | discriminate].
Qed.

Lemma fromhex_cons c rest :
  Py.fromhex (String c rest) =
  if Py.is_c_space c then Py.fromhex rest
  else
    match Py.hex_value c, rest with
    | Some hi, String d rest' =>
        match Py.hex_value d with
        | Some lo =>
            match Py.fromhex rest' with
            | Py.Ret bs => Py.Ret (16 * hi + lo :: bs)
            | Py.Raise e => Py.Raise e
            end
        | None => Py.Raise (Py.ValueError "non-hexadecimal number found in fromhex() arg")
        end
    | _, _ => Py.Raise (Py.ValueError "non-hexadecimal number found in fromhex() arg")
    end.
Proof. reflexivity. Qed.

Lemma fromhex_raises_exception s e :
  Py.fromhex s = Py.Raise e -> Py.is_Exception e = true.
Proof.
  remember (String.length s) as n eqn:Hn.
  assert (Hle : (String.length s <= n)%nat) by lia. clear Hn.
  revert s e Hle. induction n as [|n IH]; intros s e Hle.
  - destruct s; [discriminate | cbn in Hle; lia].
  - destruct s as [|c rest]; [discriminate|].
    rewrite fromhex_cons. cbn [String.length] in Hle.
    destruct (Py.is_c_space c); [apply IH; lia|].
    destruct (Py.hex_value c); [|intros [= <-]; reflexivity].
    destruct rest as [|d rest']; [intros [= <-]; reflexivity|].
    destruct (Py.hex_value d); [|intros [= <-]; reflexivity].
    destruct (Py.fromhex rest') eqn:Hr; [discriminate|].
    intros [= <-]. apply (IH rest'); [cbn [String.length] in Hle; lia | exact Hr].
Qed.

Lemma build_commitment_raises_exception cid tx blk st gas e :
  Txbatch.build_commitment cid tx blk st gas = Py.Raise e -> Py.is_Exception e = true.
Proof.
  unfold Txbatch.build_commitment, Py.and_then.
  destruct (Py.to_bytes cid 8) eqn:H1; [|intros [= <-]; eauto using to_bytes_raises_exception].
  destruct (Py.fromhex _) eqn:H2; [|intros [= <-]; eauto using fromhex_raises_exception].
  destruct (Py.to_bytes blk 8) eqn:H3; [|intros [= <-]; eauto using to_bytes_raises_exception].
  destruct (Py.to_bytes st 1) eqn:H4; [|intros [= <-]; eauto using to_bytes_raises_exception].
  destruct (Py.to_bytes gas 8) eqn:H5; [|intros [= <-]; eauto using to_bytes_raises_exception].
  discriminate.
Qed.

(** ** tx_batch_auditor.py: one transaction *)

Section AuditTx.
Context {W : Type}.
Import Py Eff.

Lemma audit_provider_run (w3 : Web3 W) tx s :
  Auditor.audit_provider w3 tx s =
  match Auditor.build_commitment w3 tx s with
  | (Ret c, s1) => (Ret (Some c, None), s1)
  | (Raise e, s1) =>
      if is_Exception e then (Ret (None, Some (str_exn e)), s1) else (Raise e, s1)
  end.
Proof.
  unfold Auditor.audit_provider, try_except. rewrite bind_run.
  destruct (Auditor.build_commitment w3 tx s) as [[c | e] s1]; [reflexivity|].
  destruct (is_Exception e); reflexivity.
Qed.

Lemma auditor_build_commitment_calm (w3 : Web3 W) tx :
  calm_provider w3 -> calm (Auditor.build_commitment w3 tx).
Proof.
  intros [Hc Hr _]. unfold Auditor.build_commitment.
  apply calm_bind; [apply calm_call_rpc, Hr|]. intros rcpt.
  apply calm_bind; [apply calm_call_rpc, Hc|]. intros cid.
  destruct rcpt as [rcpt|]; [|now apply calm_raise].
  repeat (apply calm_bind;
          [apply calm_lift;
           eauto using to_bytes_raises_exception, fromhex_raises_exception
          | intros ?]).
  apply calm_ret.
Qed.

Lemma auditor_build_commitment_emits (w3 : Web3 W) tx :
  emits (about tx) (Auditor.build_commitment w3 tx).
Proof.
  unfold Auditor.build_commitment.
  apply emits_bind; [apply emits_call_rpc; reflexivity|]. intros rcpt.
  apply emits_bind; [apply emits_call_rpc; exact I|]. intros cid.
  destruct rcpt as [rcpt|]; [|apply emits_raise].
  repeat (apply emits_bind; [apply emits_lift | intros ?]).
  apply emits_ret.
Qed.

Lemma audit_provider_emits (w3 : Web3 W) tx :
  emits (about tx) (Auditor.audit_provider w3 tx).
Proof.
  apply emits_try_except.
  - apply emits_bind; [apply auditor_build_commitment_emits|].
    intros c. apply emits_ret.
  - intros e h. destruct (is_Exception e); [|discriminate].
    intros [= <-]. apply emits_ret.
Qed.

Lemma audit_tx_emits tx (p : Web3 W) sec :
  emits (about tx) (Auditor.audit_tx tx p sec).
Proof.
  unfold Auditor.audit_tx.
  apply emits_bind; [apply audit_provider_emits|]. intros [primary errorPrimary].
  apply emits_bind; [destruct sec; [apply audit_provider_emits | apply emits_ret]|].
  intros [secondary errorSecondary]. apply emits_ret.
Qed.

(** With providers that are not interrupted, [audit_tx] returns a record,
    and the record is about the hash it was given. *)
Lemma audit_tx_returns tx (p : Web3 W) sec s :
  calm_provider p -> (forall w3, sec = Some w3 -> calm_provider w3) ->
  exists r s', Auditor.audit_tx tx p sec s = (Ret r, s') /\ r_txHash r = tx.
Proof.
  intros Hp Hs. unfold Auditor.audit_tx. rewrite bind_run, audit_provider_run.
  pose proof (auditor_build_commitment_calm p tx Hp s) as Hcalm.
  destruct (Auditor.build_commitment p tx s) as [[c | e] s1]; cbn in Hcalm.
  - rewrite bind_run. destruct sec as [w3|]; [|cbn; do 2 eexists; split; reflexivity].
    rewrite audit_provider_run.
    pose proof (auditor_build_commitment_calm w3 tx (Hs w3 eq_refl) s1) as Hcalm2.
    destruct (Auditor.build_commitment w3 tx s1) as [[c2 | e2] s2]; cbn in Hcalm2;
      [cbn; do 2 eexists; split; reflexivity|].
    rewrite (Hcalm2 e2 eq_refl). cbn. do 2 eexists; split; reflexivity.
  - rewrite (Hcalm e eq_refl). rewrite bind_run.
    destruct sec as [w3|]; [|cbn; do 2 eexists; split; reflexivity].
    rewrite audit_provider_run.
    pose proof (auditor_build_commitment_calm w3 tx (Hs w3 eq_refl) s1) as Hcalm2.
    destruct (Auditor.build_commitment w3 tx s1) as [[c2 | e2] s2]; cbn in Hcalm2;
      [cbn; do 2 eexists; split; reflexivity|].
    rewrite (Hcalm2 e2 eq_refl). cbn. do 2 eexists; split; reflexivity.
Qed.

End AuditTx.

(** C9. [audit_tx] returns a record unless a provider call is interrupted:
    the only exception it lets out is the [KeyboardInterrupt] or
    [SystemExit] that one of the two calls of [build_commitment] raised;
    with providers whose calls are not interrupted it always returns a
    record, and the record is about the hash it was given. In the record,
    [primary] and [secondary] are the records [build_commitment] returned
    for the two providers ([None] where it raised or where no secondary is
    configured), and [match] is a boolean exactly when both are there;
    without a secondary provider, or when either fetch left an error
    message, [match] stays [None]. *)
Theorem C9_match_set_iff_both_built :
  forall (W : Type) (tx : string) (p : Eff.Web3 W) (sec : option (Eff.Web3 W))
         (s : Eff.state W),
    let first := Auditor.build_commitment p tx s in
    let second := option_map (fun w3 => Auditor.build_commitment w3 tx (snd first)) sec in
    match Auditor.audit_tx tx p sec s with
    | (Py.Ret r, _) =>
        r_txHash r = tx /\
        r_primary r = built (fst first) /\
        r_secondary r = match second with Some out => built (fst out) | None => None end /\
        ((exists b, r_match r = Some b) <->
         (exists cp cs, r_primary r = Some cp /\ r_secondary r = Some cs)) /\
        (sec = None -> r_match r = None) /\
        (r_errorPrimary r <> None \/ r_errorSecondary r <> None -> r_match r = None) /\
        (r_primary r = None <-> r_errorPrimary r <> None) /\
        (sec <> None -> (r_secondary r = None <-> r_errorSecondary r <> None))
    | (Py.Raise e, _) =>
        Py.is_Exception e = false /\
        (fst first = Py.Raise e \/
         exists out, second = Some out /\ fst out = Py.Raise e)
    end /\
    (calm_provider p -> (forall w3, sec = Some w3 -> calm_provider w3) ->
     exists r s', Auditor.audit_tx tx p sec s = (Py.Ret r, s')).
Proof.
  intros W tx p sec s first second. subst first second. split.
  - unfold Auditor.audit_tx. rewrite bind_run, audit_provider_run.
    destruct (Auditor.build_commitment p tx s) as [[c | e] s1]; cbn [fst snd built];
      [|destruct (Py.is_Exception e) eqn:HE; [|split; [exact HE | now left]]];
      rewrite bind_run; destruct sec as [w3|]; cbn [option_map];
      try (rewrite audit_provider_run;
           destruct (Auditor.build_commitment w3 tx s1) as [[c2 | e2] s2] eqn:Hb2;
           cbn [fst snd built];
           [|destruct (Py.is_Exception e2) eqn:HE2;
             [|split; [exact HE2 | right; eexists; split; reflexivity]]]);
      cbn; repeat split; eauto; try discriminate; try tauto; try congruence;
      try (intros [b Hb]; discriminate);
      try (intros (cp & cs & Hcp & Hcs); discriminate);
      try (intros [H | H]; congruence).
  - intros Hp Hs. destruct (audit_tx_returns tx p sec s Hp Hs) as (r & s' & H & _).
    eauto.
Qed.
(** ** Stripping the input *)

Lemma lstrip_head c rest : Py.is_space c = false -> Py.lstrip (String c rest) = String c rest.
Proof. intros H. cbn. now rewrite H. Qed.

Lemma lstrip_shape s :
  Py.lstrip s = EmptyString \/
  exists c rest, Py.lstrip s = String c rest /\ Py.is_space c = false.
Proof.
  induction s as [|c rest IH]; [now left|].
  cbn. destruct (Py.is_space c) eqn:H; [exact IH|].
  right. exists c, rest. now split.
Qed.

Lemma rstrip_head c rest :
  Py.is_space c = false -> exists r, Py.rstrip (String c rest) = String c r.
Proof.
  intros H. cbn. destruct (Py.rstrip rest); [rewrite H|]; eexists; reflexivity.
Qed.

Lemma rstrip_idempotent s : Py.rstrip (Py.rstrip s) = Py.rstrip s.
Proof.
  induction s as [|c rest IH]; [reflexivity|].
  cbn [Py.rstrip]. destruct (Py.rstrip rest) as [|d r] eqn:E.
  - destruct (Py.is_space c) eqn:H; [reflexivity|]. cbn. now rewrite H.
  - cbn [Py.rstrip]. cbn [Py.rstrip] in IH. now rewrite IH.
Qed.

Lemma strip_idempotent s : Py.strip (Py.strip s) = Py.strip s.
Proof.
  unfold Py.strip. destruct (lstrip_shape s) as [-> | (c & rest & -> & H)]; [reflexivity|].
  destruct (rstrip_head c rest H) as [r E].
  rewrite E, (lstrip_head _ _ H), <- E. apply rstrip_idempotent.
Qed.

Lemma stripped_In h lines :
  In h (Auditor.stripped lines) <->
  exists line, In line lines /\ h = Py.strip line /\ h <> EmptyString.
Proof.
  unfold Auditor.stripped. rewrite filter_In, in_map_iff. split.
  - intros [(line & <- & Hin) Hne]. exists line. repeat split; auto.
    intros E. now rewrite E in Hne.
  - intros (line & Hin & -> & Hne). split; [now exists line|].
    now destruct (String.eqb_spec (Py.strip line) EmptyString).
Qed.

Lemma stripped_idempotent lines :
  Auditor.stripped (Auditor.stripped lines) = Auditor.stripped lines.
Proof.
  unfold Auditor.stripped. induction lines as [|l rest IH]; [reflexivity|].
  cbn [map filter].
  destruct (String.eqb_spec (Py.strip l) EmptyString) as [E | E]; cbn [negb]; [exact IH|].
  cbn [map filter]. rewrite strip_idempotent.
  destruct (String.eqb_spec (Py.strip l) EmptyString); [contradiction|].
  cbn [negb]. now rewrite IH.
Qed.

Lemma input_hashes_given {W : Type} (env : Auditor.Env W) args :
  input_hashes env args =
  option_map (fun lines => Py.dict_fromkeys (Auditor.stripped lines)) (given_lines env args).
Proof.
  unfold input_hashes, given_lines.
  destruct (Auditor.truthy (Auditor.a_file args)); [|reflexivity].
  destruct (Auditor.open_file env s); [|reflexivity].
  cbn. now rewrite stripped_idempotent.
Qed.


(** ** tx_batch_auditor.py: the batch *)

Section AuditorMain.
Context {W : Type}.
Import Py Eff.


Lemma connect_run (net : string -> Web3 W) url s :
  Auditor.connect net url s =
  let st := {| world := snd (is_connected (net url) (world s));
               trace := (trace s ++ [EvRpc (uri (net url)) IsConnected])%list |} in
  if fst (is_connected (net url) (world s)) then (Ret (net url), st)
  else (Raise (SystemExit 1), logged st [EvStderr (LConnectionFailed url)]).
Proof.
  unfold Auditor.connect, w3_is_connected. rewrite bind_run, call_rpc_run.
  destruct (is_connected (net url) (world s)) as [[|] w1]; reflexivity.
Qed.





Lemma check_chain_ids_agree_run (p : Web3 W) sec c s :
  reports p c -> (forall w3s, sec = Some w3s -> reports w3s c) ->
  exists s1 evs,
    Auditor.check_chain_ids p sec s = (Ret tt, s1) /\
    trace s1 = (trace s ++ evs)%list /\ Forall no_audit evs.
Proof.
  intros Hp Hs. unfold Auditor.check_chain_ids, eth_chain_id.
  destruct sec as [w3s|].
  - rewrite bind_run, call_rpc_run, Hp. cbn [fst snd world trace].
    rewrite bind_run, call_rpc_run, (Hs w3s eq_refl). cbn [fst snd world trace].
    rewrite Z.eqb_refl. cbn. do 2 eexists. split; [reflexivity|].
    rewrite <- app_assoc. split; [reflexivity|]. repeat constructor.
  - exists s, []. cbn. rewrite app_nil_r. auto.
Qed.


(** The loop gives one record per hash, in order, unless a provider call is
    interrupted. *)
Lemma audit_all_returns (hashes : list string) (p : Web3 W) sec :
  calm_provider p -> (forall w3, sec = Some w3 -> calm_provider w3) ->
  forall acc s,
  exists results s',
    Auditor.audit_all hashes p sec acc s = (Ret (acc ++ results)%list, s') /\
    map r_txHash results = hashes.
Proof.
  intros Hp Hs. induction hashes as [|h rest IH]; intros acc s.
  - exists [], s. cbn. now rewrite app_nil_r.
  - cbn [Auditor.audit_all]. rewrite bind_run.
    destruct (audit_tx_returns h p sec s Hp Hs) as (r & s1 & -> & Hr).
    destruct (IH (acc ++ [r])%list s1) as (results & s' & -> & Hm).
    exists (r :: results), s'. rewrite <- app_assoc. cbn. now rewrite Hr, Hm.
Qed.

(** The provider calls of the loop concern the hashes of the list only. *)
Lemma audit_all_emits (hashes : list string) (p : Web3 W) sec acc :
  emits (fun ev => exists h, In h hashes /\ about h ev)
    (Auditor.audit_all hashes p sec acc).
Proof.
  revert acc. induction hashes as [|h rest IH]; intros acc; cbn [Auditor.audit_all].
  - apply emits_ret.
  - apply emits_bind.
    + eapply emits_weaken; [|apply audit_tx_emits].
      intros ev Hev. exists h. split; [now left | exact Hev].
    + intros r. eapply emits_weaken; [|apply IH].
      intros ev (h' & Hin & Hev). exists h'. split; [now right | exact Hev].
Qed.

(** With well-formed hashes in its input and providers that connect,
    [main] gets to the chain-id comparison without auditing anything. *)
Lemma main_reaches_check (env : Auditor.Env W) (args : Auditor.Args)
  (lines : list string) (s : state W) :
  let hashes := dict_fromkeys (Auditor.stripped lines) in
  let p := Auditor.network env (Auditor.a_rpc1 args) in
  let sec := option_map (Auditor.network env) (Auditor.truthy (Auditor.a_rpc2 args)) in
  given_lines env args = Some lines ->
  hashes <> [] ->
  Forall (fun h => Auditor.validate_tx_hash h = true) hashes ->
  connects p ->
  (forall w3, sec = Some w3 -> connects w3) ->
  exists (s1 : state W) (evs : list event),
    trace s1 = (trace s ++ evs)%list /\ Forall no_audit evs /\
    Auditor.main env args s =
    bind (Auditor.check_chain_ids p sec)
      (fun _ => bind (Auditor.audit_all (Auditor.cap (Auditor.a_max args) hashes) p sec [])
                  (Auditor.report args p sec)) s1.
Proof.
  intros hashes p sec Hgiven Hne Hvalid Hp Hs. subst p sec.
  unfold Auditor.main. rewrite bind_run.
  assert (Hread : exists raw,
             (match Auditor.truthy (Auditor.a_file args) with
              | Some path => Auditor.read_hashes_from_file env path
              | None => ret (Auditor.a_txs args)
              end) s = (Ret raw, s) /\
             dict_fromkeys (Auditor.stripped raw) = hashes).
  { unfold given_lines in Hgiven.
    destruct (Auditor.truthy (Auditor.a_file args)) as [path|].
    - unfold Auditor.read_hashes_from_file. rewrite Hgiven.
      eexists. split; [reflexivity|]. subst hashes. now rewrite stripped_idempotent.
    - injection Hgiven as <-. eexists. split; reflexivity. }
  destruct Hread as (raw & -> & Hraw). cbv zeta. rewrite Hraw.
  assert (Hbad : filter (fun h => negb (Auditor.validate_tx_hash h)) hashes = []).
  { clear - Hvalid. induction Hvalid as [|h l Hh _ IH]; [reflexivity|].
    cbn. now rewrite Hh. }
  destruct hashes as [|h0 hs] eqn:Hh; [contradiction|]. rewrite Hbad.
  rewrite bind_run.
  set (s0 := snd ((if contains (Auditor.a_rpc1 args) "your_api_key"
                   then print_err LPlaceholderWarning else ret tt) s)).
  assert (Hs0 : exists evs0, trace s0 = (trace s ++ evs0)%list /\ Forall no_audit evs0 /\
                  (if contains (Auditor.a_rpc1 args) "your_api_key"
                   then print_err LPlaceholderWarning else ret tt) s = (Ret tt, s0)).
  { subst s0. destruct (contains _ _); cbn.
    - eexists. split; [reflexivity|]. split; [repeat constructor | reflexivity].
    - exists []. rewrite app_nil_r. auto. }
  destruct Hs0 as (evs0 & Ht0 & Hq0 & ->). clearbody s0.
  rewrite bind_run, connect_run, Hp. cbv beta iota zeta.
  set (p := Auditor.network env (Auditor.a_rpc1 args)) in *.
  set (s1 := {| world := snd (is_connected p (world s0));
                trace := (trace s0 ++ [EvRpc (uri p) IsConnected])%list |}).
  destruct (Auditor.truthy (Auditor.a_rpc2 args)) as [rpc2|]; cbn [option_map] in *.
  - set (w3 := Auditor.network env rpc2) in *.
    exists {| world := snd (is_connected w3 (world s1));
              trace := (trace s1 ++ [EvRpc (uri w3) IsConnected])%list |},
      (evs0 ++ [EvRpc (uri p) IsConnected; EvRpc (uri w3) IsConnected])%list.
    split; [|split].
    + subst s1. cbn. rewrite Ht0, <- !app_assoc. reflexivity.
    + apply Forall_app. split; [exact Hq0 | repeat constructor].
    + rewrite bind_run, bind_run, connect_run, (Hs _ eq_refl). reflexivity.
  - exists s1, (evs0 ++ [EvRpc (uri p) IsConnected])%list.
    split; [|split].
    + subst s1. cbn. rewrite Ht0, <- !app_assoc. reflexivity.
    + apply Forall_app. split; [exact Hq0 | repeat constructor].
    + reflexivity.
Qed.

End AuditorMain.

(** ** txbatch.py: fetching a bundle *)

Section Fetch.
Context {W : Type}.
Import Py Eff.

Lemma hoare_call_rpc {A} (P : event -> Prop) (R : A -> Prop) (X : exn -> Prop)
  (w3 : Web3 W) m (op : W -> res A * W) :
  P (EvRpc (uri w3) m) ->
  (forall w, match fst (op w) with Ret a => R a | Raise e => X e end) ->
  hoare P R X (call_rpc w3 m op).
Proof.
  intros HP Hop s. rewrite call_rpc_run. cbn [fst snd trace]. split; [|apply Hop].
  exists [EvRpc (uri w3) m]. auto.
Qed.

Lemma safe_rpc_attempts_hoare {A} (P : event -> Prop) (X : exn -> Prop)
  (func : M W A) retries delay attempts :
  Qle_bool 0 delay = true ->
  (forall ev, retry_noise ev -> P ev) ->
  hoare P (fun _ => True) X func ->
  hoare P (fun _ => True) X (Txbatch.safe_rpc_attempts func retries delay attempts).
Proof.
  intros Hdelay Hnoise Hf. induction attempts as [|attempt rest IH]; intros s.
  - rewrite safe_rpc_attempts_nil. split; [|exact I].
    exists []. cbn. now rewrite app_nil_r.
  - rewrite safe_rpc_attempts_step, Hdelay.
    destruct (Hf s) as [(evs & Ht & HP) Hr].
    destruct (func s) as [[a | e] s1]; cbn [fst snd] in *; [split; eauto|].
    destruct (is_Exception e); [|split; eauto].
    destruct (attempt =? retries).
    + cbn [fst snd logged trace]. split; [|exact Hr].
      exists (evs ++ [EvStderr (LRetryFailed retries (str_exn e))])%list.
      rewrite Ht, app_assoc. split; [reflexivity|].
      apply Forall_app. split; [exact HP|]. repeat constructor. now apply Hnoise.
    + match goal with
      | |- context [Txbatch.safe_rpc_attempts _ _ _ _ ?s2] =>
          destruct (IH s2) as [(evs' & Ht' & HP') Hr']
      end.
      split; [|exact Hr'].
      exists (evs ++ [EvStderr (LRetryWarning attempt retries (str_exn e)); EvSleep delay]
                ++ evs')%list.
      rewrite Ht'. cbn [logged trace]. rewrite Ht, <- !app_assoc.
      split; [reflexivity|].
      apply Forall_app. split; [exact HP|].
      repeat constructor; try (now apply Hnoise). exact HP'.
Qed.

Lemma safe_rpc_call_hoare {A} (P : event -> Prop) (X : exn -> Prop)
  (func : M W A) retries delay :
  Qle_bool 0 delay = true ->
  (forall ev, retry_noise ev -> P ev) ->
  hoare P (fun _ => True) X func ->
  hoare P (fun _ => True) X (Txbatch.safe_rpc_call func retries delay).
Proof. intros. now apply safe_rpc_attempts_hoare. Qed.

(** [fetch_bundle] writes fetch events only, returns consistent bundles
    only, and raises what the provider raised or an [Exception] of its
    own. *)
Lemma fetch_bundle_hoare (X : exn -> Prop) (w3 : Web3 W) (txh : string) :
  (forall e, is_Exception e = true -> X e) ->
  (forall w e, fst (chain_id w3 w) = Raise e -> X e) ->
  (forall h w e, fst (get_transaction_receipt w3 h w) = Raise e -> X e) ->
  (forall h w e, fst (get_transaction w3 h w) = Raise e -> X e) ->
  hoare (fetch_event txh) (bundle_ok txh) X (Txbatch.fetch_bundle w3 txh).
Proof.
  intros HX Hc Hr Ht.
  assert (Hrcpt : hoare (fetch_event txh) (fun _ => True) X
                    (Txbatch.safe_rpc_call (eth_get_transaction_receipt w3 txh) 3 1)).
  { apply safe_rpc_call_hoare; [reflexivity|now left|].
    apply hoare_call_rpc; [right; reflexivity|].
    intros w. specialize (Hr txh w).
    destruct (fst (get_transaction_receipt w3 txh w)); auto. }
  assert (Htx : hoare (fetch_event txh) (fun _ => True) X
                  (Txbatch.safe_rpc_call (eth_get_transaction w3 txh) 3 1)).
  { apply safe_rpc_call_hoare; [reflexivity|now left|].
    apply hoare_call_rpc; [right; reflexivity|].
    intros w. specialize (Ht txh w).
    destruct (fst (get_transaction w3 txh w)); auto. }
  assert (Hchain : hoare (fetch_event txh) (fun _ => True) X
                     (Txbatch.safe_rpc_call (eth_chain_id w3) 3 1)).
  { apply safe_rpc_call_hoare; [reflexivity|now left|].
    apply hoare_call_rpc; [right; exact I|].
    intros w. specialize (Hc w).
    destruct (fst (chain_id w3 w)); auto. }
  unfold Txbatch.fetch_bundle.
  eapply hoare_bind with (R := fun _ => True).
  { eapply hoare_try_except with (X' := X).
    - eapply hoare_bind; [exact Hrcpt|]. intros rcpt _.
      eapply hoare_bind; [exact Htx|]. intros tx _.
      now apply hoare_ret.
    - intros e He. destruct (is_TransactionNotFound e); [now apply hoare_raise|].
      destruct (is_Exception e); [|exact He].
      eapply hoare_bind with (R := fun _ => True);
        [apply hoare_emit; [now left | exact I]|].
      intros _ _. now apply hoare_raise. }
  intros [rcpt tx] _.
  destruct rcpt as [[rcpt|]|]; try (apply hoare_raise; now apply HX).
  eapply hoare_bind; [exact Hchain|]. intros [cid|] _;
    [|apply hoare_raise; now apply HX].
  eapply hoare_bind with
    (R := fun c => Txbatch.build_commitment cid txh (blockNumber rcpt) (status rcpt)
                     (gasUsed rcpt) = Ret c).
  { apply hoare_lift.
    destruct (Txbatch.build_commitment _ _ _ _ _) eqn:Hb; [reflexivity|].
    apply HX. eapply build_commitment_raises_exception; eauto. }
  intros c Hb.
  destruct tx as [[tx|]|];
    try (destruct (effectiveGasPrice rcpt); apply hoare_raise; now apply HX).
  apply hoare_ret. split; [reflexivity | exact Hb].
Qed.

Lemma fetch_bundle_calm (w3 : Web3 W) txh :
  calm_provider w3 ->
  hoare (fetch_event txh) (bundle_ok txh) (fun e => is_Exception e = true)
    (Txbatch.fetch_bundle w3 txh).
Proof.
  intros [Hc Hr Ht]. apply fetch_bundle_hoare; auto.
Qed.

Lemma fetch_bundle_any (w3 : Web3 W) txh :
  hoare (fetch_event txh) (bundle_ok txh) (fun _ => True) (Txbatch.fetch_bundle w3 txh).
Proof. apply fetch_bundle_hoare; auto. Qed.

End Fetch.

(** ** Equal fields, equal commitments *)

Section Determinism.
Context {W : Type}.
Import Py Eff.

Lemma auditor_build_commitment_ok (w3 : Web3 W) txh :
  hoare (about txh) (commit_ok txh) (fun _ => True) (Auditor.build_commitment w3 txh).
Proof.
  unfold Auditor.build_commitment.
  eapply hoare_bind with (R := fun _ => True).
  { apply hoare_call_rpc; [reflexivity|]. intros w. now destruct (fst _). }
  intros rcpt _.
  eapply hoare_bind with (R := fun _ => True).
  { apply hoare_call_rpc; [exact I|]. intros w. now destruct (fst _). }
  intros cid _. destruct rcpt as [rcpt|]; [|now apply hoare_raise].
  eapply hoare_bind with (R := fun bs => to_bytes cid 8 = Ret bs).
  { apply hoare_lift. now destruct (to_bytes cid 8). }
  intros c Hc.
  eapply hoare_bind with (R := fun bs => fromhex (drop 2 txh) = Ret bs).
  { apply hoare_lift. now destruct (fromhex (drop 2 txh)). }
  intros t Ht.
  eapply hoare_bind with (R := fun bs => to_bytes (blockNumber rcpt) 8 = Ret bs).
  { apply hoare_lift. now destruct (to_bytes (blockNumber rcpt) 8). }
  intros b Hb.
  eapply hoare_bind with (R := fun bs => to_bytes (status rcpt) 1 = Ret bs).
  { apply hoare_lift. now destruct (to_bytes (status rcpt) 1). }
  intros st Hst.
  eapply hoare_bind with (R := fun bs => to_bytes (gasUsed rcpt) 8 = Ret bs).
  { apply hoare_lift. now destruct (to_bytes (gasUsed rcpt) 8). }
  intros g Hg.
  apply hoare_ret. unfold commit_ok, Txbatch.build_commitment, and_then.
  cbn [c_chainId c_blockNumber c_status c_gasUsed c_commitment].
  now rewrite Hc, Ht, Hb, Hst, Hg.
Qed.

Lemma commitment_text_length cid txh blk st gas out :
  Txbatch.build_commitment cid txh blk st gas = Ret out -> String.length out = 66%nat.
Proof.
  intros H. apply build_commitment_returns in H.
  destruct H as (t & _ & _ & _ & _ & _ & ->).
  cbn [append String.length]. now rewrite hex_length, keccak256_length.
Qed.

End Determinism.

(** C2. The commitment is a function of chainId, txHash, blockNumber,
    status and gasUsed alone: two bundles of txbatch.py, or two commitment
    records of tx_batch_auditor.py, fetched for the same hash from any two
    providers in any two states of the world and agreeing on those fields,
    carry the same commitment, the hexadecimal text of a 32-byte digest. *)
Theorem C2_same_fields_same_commitment :
  forall (W1 W2 : Type) (p1 : Eff.Web3 W1) (p2 : Eff.Web3 W2) (txh : string)
         (s1 : Eff.state W1) (s2 : Eff.state W2),
    (forall b1 b2,
        fst (Txbatch.fetch_bundle p1 txh s1) = Py.Ret b1 ->
        fst (Txbatch.fetch_bundle p2 txh s2) = Py.Ret b2 ->
        Txbatch.b_chain_id b1 = Txbatch.b_chain_id b2 ->
        Txbatch.b_block_number b1 = Txbatch.b_block_number b2 ->
        Txbatch.b_status b1 = Txbatch.b_status b2 ->
        Txbatch.b_gas_used b1 = Txbatch.b_gas_used b2 ->
        Txbatch.b_commitment b1 = Txbatch.b_commitment b2 /\
        String.length (Txbatch.b_commitment b1) = 66%nat) /\
    (forall c1 c2,
        fst (Auditor.build_commitment p1 txh s1) = Py.Ret c1 ->
        fst (Auditor.build_commitment p2 txh s2) = Py.Ret c2 ->
        c_chainId c1 = c_chainId c2 ->
        c_blockNumber c1 = c_blockNumber c2 ->
        c_status c1 = c_status c2 ->
        c_gasUsed c1 = c_gasUsed c2 ->
        c_commitment c1 = c_commitment c2 /\
        String.length (c_commitment c1) = 64%nat).
Proof.
  intros W1 W2 p1 p2 txh s1 s2. split.
  - intros b1 b2 H1 H2 Hc Hb Hs Hg.
    pose proof (proj2 (fetch_bundle_any p1 txh s1)) as K1. rewrite H1 in K1.
    pose proof (proj2 (fetch_bundle_any p2 txh s2)) as K2. rewrite H2 in K2.
    destruct K1 as [T1 K1], K2 as [T2 K2].
    split; [|eapply commitment_text_length; exact K1].
    rewrite Hc, Hb, Hs, Hg, T1, <- T2 in K1. congruence.
  - intros c1 c2 H1 H2 Hc Hb Hs Hg.
    pose proof (proj2 (auditor_build_commitment_ok p1 txh s1)) as K1. rewrite H1 in K1.
    pose proof (proj2 (auditor_build_commitment_ok p2 txh s2)) as K2. rewrite H2 in K2.
    unfold commit_ok in K1, K2. split.
    + rewrite Hc, Hb, Hs, Hg in K1. rewrite K1 in K2. now injection K2.
    + apply commitment_text_length in K1. cbn [append String.length] in K1. lia.
Qed.

(** ** txbatch.py: the loop and its counters *)

Lemma tally_app f evs1 evs2 : tally f (evs1 ++ evs2) = tally f evs1 + tally f evs2.
Proof. unfold tally. rewrite filter_app, length_app. lia. Qed.

Lemma tally_none f evs : Forall (fun ev => f ev = false) evs -> tally f evs = 0.
Proof.
  unfold tally. induction 1 as [|ev evs H _ IH]; [reflexivity|].
  cbn [filter]. now rewrite H.
Qed.

Lemma fetch_event_quiet txh ev : fetch_event txh ev -> is_verdict ev = false.
Proof.
  intros [H | H]; destruct ev as [u m | d | l | l]; try destruct l; try destruct m;
    cbn in *; try reflexivity; contradiction.
Qed.

Lemma quiet_tallies evs :
  Forall (fun ev => is_verdict ev = false) evs ->
  tally row_success evs = 0 /\ tally row_failed evs = 0 /\ tally primary_error evs = 0 /\
  tally primary_not_found evs = 0 /\ tally row_flagged evs = 0 /\ tally is_verdict evs = 0.
Proof.
  intros H. repeat split; apply tally_none; try exact H;
    (eapply Forall_impl; [|exact H]); intros ev Hev;
    destruct ev as [u m | d | l | l]; try destruct l; cbn in *;
    try reflexivity; discriminate.
Qed.

Section Loop.
Context {W : Type}.
Import Py Eff.

(** The cross-check never raises with a secondary provider that is not
    interrupted; [match] is false exactly when the note is a flag. *)
Lemma cross_check_hoare (w3b : Web3 W) txh b :
  calm_provider w3b ->
  hoare (fetch_event txh)
    (fun out => snd out = negb (flagged (fst out)) /\ fst out <> NoteNone)
    (fun _ => False)
    (Txbatch.cross_check w3b txh b).
Proof.
  intros Hcalm. unfold Txbatch.cross_check.
  eapply hoare_try_except with (X' := fun e => is_Exception e = true).
  - eapply hoare_bind; [apply fetch_bundle_calm, Hcalm|]. intros b2 _.
    destruct (forallb _ _); apply hoare_ret; cbn; split; (reflexivity || discriminate).
  - intros e He. destruct (is_TransactionNotFound e).
    + apply hoare_ret. cbn. split; (reflexivity || discriminate).
    + rewrite He. apply hoare_ret. cbn. split; (reflexivity || discriminate).
Qed.

(** One pass through the body of the loop. *)
Lemma audit_loop_step (w3 : Web3 W) w3b txh rest c s :
  Txbatch.audit_loop w3 w3b (txh :: rest) c s =
  match Txbatch.fetch_bundle w3 txh s with
  | (Ret b, s1) =>
      match (match w3b with
             | None => ret (NoteNone, true)
             | Some w3b' => Txbatch.cross_check w3b' txh b
             end) s1 with
      | (Ret (note, matched), s2) =>
          Txbatch.audit_loop w3 w3b rest (counted_row c b w3b matched)
            (logged s2 [row_of txh b note])
      | (Raise e, s2) => (Raise e, s2)
      end
  | (Raise e, s1) =>
      if is_TransactionNotFound e then
        Txbatch.audit_loop w3 w3b rest
          {| Txbatch.success_count := Txbatch.success_count c;
             Txbatch.fail_count := Txbatch.fail_count c;
             Txbatch.pending_count := Txbatch.pending_count c;
             Txbatch.not_found_count := Txbatch.not_found_count c + 1;
             Txbatch.mismatch_count := Txbatch.mismatch_count c |}
          (logged s1 [EvStdout (LNotFoundPrimary txh)])
      else if is_Exception e then
        Txbatch.audit_loop w3 w3b rest
          {| Txbatch.success_count := Txbatch.success_count c;
             Txbatch.fail_count := Txbatch.fail_count c + 1;
             Txbatch.pending_count := Txbatch.pending_count c;
             Txbatch.not_found_count := Txbatch.not_found_count c;
             Txbatch.mismatch_count := Txbatch.mismatch_count c |}
          (logged s1 [EvStderr (LErrorPrimary txh (str_exn e))])
      else (Raise e, s1)
  end.
Proof.
  cbn [Txbatch.audit_loop]. rewrite bind_run. unfold try_except at 1. rewrite bind_run.
  destruct (Txbatch.fetch_bundle w3 txh s) as [[b | e] s1].
  - cbn [ret]. rewrite bind_run.
    destruct ((match w3b with
               | None => ret (NoteNone, true)
               | Some w3b' => Txbatch.cross_check w3b' txh b
               end) s1) as [[[note matched] | e] s2]; reflexivity.
  - destruct (is_TransactionNotFound e); [reflexivity|].
    destruct (is_Exception e); reflexivity.
Qed.

Lemma tally_one f ev : tally f [ev] = if f ev then 1 else 0.
Proof. unfold tally. cbn. now destruct (f ev). Qed.

(** What one more row adds to each count. *)
Lemma tally_row txh b note :
  tally row_success [row_of txh b note] = (if Txbatch.b_status b =? 1 then 1 else 0) /\
  tally row_failed [row_of txh b note] = (if Txbatch.b_status b =? 1 then 0 else 1) /\
  tally primary_error [row_of txh b note] = 0 /\
  tally primary_not_found [row_of txh b note] = 0 /\
  tally row_flagged [row_of txh b note] = (if flagged note then 1 else 0) /\
  tally is_verdict [row_of txh b note] = 1.
Proof.
  unfold tally, row_of. cbn [filter row_success row_failed primary_error
    primary_not_found row_flagged is_verdict].
  destruct (Txbatch.b_status b =? 1); destruct (flagged note); cbn;
    repeat split; reflexivity.
Qed.

(** The loop ends with every counter advanced by the number of lines of its
    kind, and with one line per transaction, unless a provider call is
    interrupted. *)
Lemma audit_loop_tally (w3 : Web3 W) (w3b : option (Web3 W)) :
  calm_provider w3 -> (forall w, w3b = Some w -> calm_provider w) ->
  forall tx_hashes c s,
  exists c' evs s',
    Txbatch.audit_loop w3 w3b tx_hashes c s = (Ret c', s') /\
    trace s' = (trace s ++ evs)%list /\
    Txbatch.success_count c' = Txbatch.success_count c + tally row_success evs /\
    Txbatch.fail_count c' =
      Txbatch.fail_count c + tally row_failed evs + tally primary_error evs /\
    Txbatch.not_found_count c' = Txbatch.not_found_count c + tally primary_not_found evs /\
    Txbatch.pending_count c' = Txbatch.pending_count c /\
    Txbatch.mismatch_count c' = Txbatch.mismatch_count c + tally row_flagged evs /\
    tally is_verdict evs = Z.of_nat (List.length tx_hashes).
Proof.
  intros Hcalm Hcalmb. induction tx_hashes as [|txh rest IH]; intros c s.
  - exists c, [], s. cbn. rewrite app_nil_r. repeat split; lia.
  - rewrite audit_loop_step.
    destruct (fetch_bundle_calm w3 txh Hcalm s) as [(evs1 & Ht1 & HP1) Hr1].
    assert (Hq1 : Forall (fun ev => is_verdict ev = false) evs1)
      by (eapply Forall_impl; [|exact HP1]; apply fetch_event_quiet).
    destruct (quiet_tallies evs1 Hq1) as (Q1 & Q2 & Q3 & Q4 & Q5 & Q6).
    destruct (Txbatch.fetch_bundle w3 txh s) as [[b | e] s1]; cbn [fst snd] in *.
    + assert (Hcross : exists note matched s2 evs2,
                 (match w3b with
                  | None => ret (NoteNone, true)
                  | Some w3b' => Txbatch.cross_check w3b' txh b
                  end) s1 = (Ret (note, matched), s2) /\
                 trace s2 = (trace s1 ++ evs2)%list /\
                 Forall (fun ev => is_verdict ev = false) evs2 /\
                 (negb matched && (match w3b with Some _ => true | None => false end)
                  = flagged note)).
      { destruct w3b as [w|].
        - destruct (cross_check_hoare w txh b (Hcalmb w eq_refl) s1)
            as [(evs2 & Ht2 & HP2) Hr2].
          destruct (Txbatch.cross_check w txh b s1) as [[[note matched] | e] s2];
            cbn [fst snd] in *; [|contradiction].
          destruct Hr2 as [-> _]. exists note, (negb (flagged note)), s2, evs2.
          repeat split; auto.
          + eapply Forall_impl; [|exact HP2]. apply fetch_event_quiet.
          + rewrite negb_involutive. apply andb_true_r.
        - exists NoteNone, true, s1, []. cbn. rewrite app_nil_r. auto. }
      destruct Hcross as (note & matched & s2 & evs2 & -> & Ht2 & Hq2 & Hflag).
      destruct (quiet_tallies evs2 Hq2) as (P1 & P2 & P3 & P4 & P5 & P6).
      destruct (tally_row txh b note) as (R1 & R2 & R3 & R4 & R5 & R6).
      destruct (IH (counted_row c b w3b matched) (logged s2 [row_of txh b note]))
        as (c' & evs3 & s' & -> & Ht3 & E1 & E2 & E3 & E4 & E5 & E6).
      exists c', (evs1 ++ evs2 ++ [row_of txh b note] ++ evs3)%list, s'.
      split; [reflexivity|]. split.
      { rewrite Ht3. cbn [logged trace]. rewrite Ht2, Ht1, <- !app_assoc. reflexivity. }
      rewrite !tally_app, Q1, Q2, Q3, Q4, Q5, Q6, P1, P2, P3, P4, P5, P6,
        R1, R2, R3, R4, R5, R6.
      rewrite E1, E2, E3, E4, E5, E6. unfold counted_row.
      cbn [Txbatch.success_count Txbatch.fail_count Txbatch.pending_count
             Txbatch.not_found_count Txbatch.mismatch_count List.length].
      rewrite Hflag.
      destruct (Txbatch.b_status b =? 1); destruct (flagged note); repeat split; lia.
    + destruct (is_TransactionNotFound e).
      * match goal with
        | |- context [Txbatch.audit_loop _ _ _ ?c1 ?s2] =>
            destruct (IH c1 s2) as (c' & evs3 & s' & -> & Ht3 & E1 & E2 & E3 & E4 & E5 & E6)
        end.
        exists c', (evs1 ++ [EvStdout (LNotFoundPrimary txh)] ++ evs3)%list, s'.
        split; [reflexivity|]. split.
        { rewrite Ht3. cbn [logged trace]. rewrite Ht1, <- !app_assoc. reflexivity. }
        rewrite !tally_app, Q1, Q2, Q3, Q4, Q5, Q6, E1, E2, E3, E4, E5, E6.
        rewrite !tally_one.
        cbn [row_success row_failed primary_error primary_not_found row_flagged is_verdict
               List.length Txbatch.success_count Txbatch.fail_count Txbatch.pending_count
               Txbatch.not_found_count Txbatch.mismatch_count].
        repeat split; lia.
      * rewrite Hr1.
        match goal with
        | |- context [Txbatch.audit_loop _ _ _ ?c1 ?s2] =>
            destruct (IH c1 s2) as (c' & evs3 & s' & -> & Ht3 & E1 & E2 & E3 & E4 & E5 & E6)
        end.
        exists c', (evs1 ++ [EvStderr (LErrorPrimary txh (str_exn e))] ++ evs3)%list, s'.
        split; [reflexivity|]. split.
        { rewrite Ht3. cbn [logged trace]. rewrite Ht1, <- !app_assoc. reflexivity. }
        rewrite !tally_app, Q1, Q2, Q3, Q4, Q5, Q6, E1, E2, E3, E4, E5, E6.
        rewrite !tally_one.
        cbn [row_success row_failed primary_error primary_not_found row_flagged is_verdict
               List.length Txbatch.success_count Txbatch.fail_count Txbatch.pending_count
               Txbatch.not_found_count Txbatch.mismatch_count].
        repeat split; lia.
Qed.

End Loop.

(** ** The shape of a transaction hash *)

Section HashShape.
Import Py.


Lemma startswith_0x s :
  startswith s "0x" = true <-> exists rest, s = "0x" ++ rest.
Proof.
  split.
  - destruct s as [|c0 [|c1 rest]]; cbn [startswith]; try discriminate.
    + now rewrite andb_false_r.
    + destruct (Ascii.eqb_spec "0" c0) as [<-|]; [|discriminate].
      destruct (Ascii.eqb_spec "x" c1) as [<-|]; [|discriminate].
      intros _. exists rest. reflexivity.
  - intros [rest ->]. reflexivity.
Qed.






Lemma well_formed_parts h :
  well_formed h = true <->
  exists d, h = "0x" ++ d /\ String.length d = 64%nat /\ all_chars is_hex_digit d = true.
Proof.
  unfold well_formed. split.
  - intros H. apply andb_prop in H. destruct H as [H Hhex].
    apply andb_prop in H. destruct H as [Hpre Hlen].
    apply startswith_0x in Hpre. destruct Hpre as [d ->].
    exists d. cbn [drop append] in Hhex. unfold len in Hlen. cbn [append String.length] in Hlen.
    apply Z.eqb_eq in Hlen. repeat split; auto; lia.
  - intros (d & -> & Hlen & Hhex). cbn [drop append]. unfold len.
    cbn [append String.length]. rewrite Hlen, Hhex. reflexivity.
Qed.



Lemma validate_shape h :
  Auditor.validate_tx_hash h = true -> startswith h "0x" = true /\ len h = 66.
Proof.
  unfold Auditor.validate_tx_hash.
  destruct (startswith h "0x"); [|discriminate].
  destruct (len h =? 66) eqn:Hlen; [|discriminate].
  intros _. split; [reflexivity | now apply Z.eqb_eq].
Qed.

Lemma normal_form_prefixed raw : startswith (normal_form raw) "0x" = true.
Proof.
  unfold normal_form. cbv zeta.
  destruct (startswith (strip raw) "0x") eqn:E; [exact E | reflexivity].
Qed.

Lemma blank_is_short raw : strip raw = "" -> hash_length raw = false.
Proof. unfold hash_length, normal_form. cbv zeta. now intros ->. Qed.

(** [parse_tx_hash] returns no hash: a string whose normal form has 66
    characters takes it to [Web3.is_hex], any other string is rejected. *)
Lemma parse_tx_hash_run raw :
  Txbatch.parse_tx_hash raw =
  if hash_length raw then Raise no_is_hex else Ret None.
Proof.
  unfold Txbatch.parse_tx_hash. cbv zeta.
  destruct (String.eqb_spec (strip raw) "") as [E | _].
  - now rewrite (blank_is_short raw E).
  - unfold hash_length, normal_form. cbv zeta.
    destruct (startswith (strip raw) "0x"); cbn [negb];
      match goal with |- context [len ?h =? 66] => destruct (len h =? 66) end;
      reflexivity.
Qed.

Lemma parse_tx_hash_no_hash raw h : Txbatch.parse_tx_hash raw <> Ret (Some h).
Proof. rewrite parse_tx_hash_run. now destruct (hash_length raw). Qed.



End HashShape.

(** ** What reaches no provider *)

Section NoContact.
Context {W : Type}.
Import Py Eff.








(** With one malformed hash in its input, [main] of tx_batch_auditor.py
    names the malformed ones on standard error and exits, no provider
    called. *)
Lemma auditor_main_rejects (env : Auditor.Env W) args hashes (s : state W) :
  input_hashes env args = Some hashes ->
  filter (fun h => negb (Auditor.validate_tx_hash h)) hashes <> [] ->
  Auditor.main env args s =
  (Raise (SystemExit 1),
   logged s [EvStderr (LInvalidHashes
                         (filter (fun h => negb (Auditor.validate_tx_hash h)) hashes))]).
Proof.
  unfold input_hashes, Auditor.main. intros Hin Hbad. rewrite bind_run.
  assert (Hrun : exists raw,
             (match Auditor.truthy (Auditor.a_file args) with
              | Some path => Auditor.read_hashes_from_file env path
              | None => ret (Auditor.a_txs args)
              end) s = (Ret raw, s) /\
             dict_fromkeys (Auditor.stripped raw) = hashes).
  { destruct (Auditor.truthy (Auditor.a_file args)) as [path|].
    - unfold Auditor.read_hashes_from_file.
      destruct (Auditor.open_file env path) as [lines|]; [|discriminate].
      injection Hin as <-. eexists. split; reflexivity.
    - injection Hin as <-. eexists. split; reflexivity. }
  destruct Hrun as (raw & -> & Hraw). cbv zeta. rewrite Hraw.
  destruct hashes as [|h0 hs]; [now contradiction Hbad|].
  destruct (filter _ (h0 :: hs)); [now contradiction Hbad|]. reflexivity.
Qed.

End NoContact.

(** ** tx_batch_auditor.py: the JSON report *)

Section Report.
Context {W : Type}.
Import Py Eff.

Lemma eth_chain_id_reports (w3 : Web3 W) c s :
  reports w3 c ->
  eth_chain_id w3 s =
  (Ret c, {| world := snd (chain_id w3 (world s));
             trace := (trace s ++ [EvRpc (uri w3) ChainId])%list |}).
Proof. intros H. unfold eth_chain_id. now rewrite call_rpc_run, H. Qed.

Lemma report_json_run (args : Auditor.Args) (p : Web3 W) sec c results s :
  Auditor.a_json args = true ->
  reports p c -> (forall w3, sec = Some w3 -> reports w3 c) ->
  exists s' evs secondary,
    Auditor.report args p sec results s = (Ret tt, s') /\
    trace s' = (trace s ++ evs ++
                  [EvStdout (LJson (Auditor.a_rpc1 args, c, network_name c)
                               secondary results)])%list /\
    Forall no_audit evs.
Proof.
  intros Hjson Hp Hs. unfold Auditor.report. rewrite Hjson.
  rewrite bind_run, (eth_chain_id_reports p c s Hp). cbn [world trace].
  rewrite bind_run, (eth_chain_id_reports p c _ Hp). cbn [world trace].
  rewrite bind_run. destruct sec as [w3|].
  - rewrite bind_run, (eth_chain_id_reports w3 c _ (Hs w3 eq_refl)). cbn [world trace].
    rewrite bind_run, (eth_chain_id_reports w3 c _ (Hs w3 eq_refl)). cbn [world trace].
    unfold ret, print, emit. cbn [world trace].
    eexists. exists [EvRpc (uri p) ChainId; EvRpc (uri p) ChainId;
                     EvRpc (uri w3) ChainId; EvRpc (uri w3) ChainId]. eexists.
    split; [reflexivity|]. cbn [trace]. rewrite <- !app_assoc.
    split; [reflexivity | repeat constructor].
  - unfold ret, print, emit. cbn [world trace].
    eexists. exists [EvRpc (uri p) ChainId; EvRpc (uri p) ChainId]. eexists.
    split; [reflexivity|]. cbn [trace]. rewrite <- !app_assoc.
    split; [reflexivity | repeat constructor].
Qed.

End Report.
(** ** tx_batch_auditor.py: interrupts and the human-readable report *)

Section AuditorEdges.
Context {W : Type}.
Import Py Eff.

Lemma auditor_build_commitment_receipt_raises (w3 : Web3 W) tx s e :
  fst (get_transaction_receipt w3 tx (world s)) = Raise e ->
  Auditor.build_commitment w3 tx s =
  (Raise e, {| world := snd (get_transaction_receipt w3 tx (world s));
               trace := (trace s ++ [receipt_call w3 tx])%list |}).
Proof.
  intros H. unfold Auditor.build_commitment.
  rewrite bind_run. unfold eth_get_transaction_receipt. rewrite call_rpc_run, H.
  reflexivity.
Qed.

(** An interrupt of the primary receipt request goes through [audit_tx]. *)
Lemma audit_tx_interrupted tx (p : Web3 W) sec s e :
  fst (get_transaction_receipt p tx (world s)) = Raise e ->
  is_Exception e = false ->
  Auditor.audit_tx tx p sec s =
  (Raise e, {| world := snd (get_transaction_receipt p tx (world s));
               trace := (trace s ++ [receipt_call p tx])%list |}).
Proof.
  intros H HE. unfold Auditor.audit_tx.
  rewrite bind_run, audit_provider_run, (auditor_build_commitment_receipt_raises _ _ _ _ H), HE.
  reflexivity.
Qed.

(** An [Exception] of the primary receipt request becomes the record's
    primary error. *)
Lemma audit_tx_primary_error tx (p : Web3 W) sec s e r s' :
  fst (get_transaction_receipt p tx (world s)) = Raise e ->
  is_Exception e = true ->
  Auditor.audit_tx tx p sec s = (Ret r, s') ->
  r_txHash r = tx /\ r_primary r = None /\ r_errorPrimary r = Some (str_exn e).
Proof.
  intros H HE. unfold Auditor.audit_tx.
  rewrite bind_run, audit_provider_run, (auditor_build_commitment_receipt_raises _ _ _ _ H), HE.
  rewrite bind_run.
  match goal with
  | |- context [match ?m ?st with _ => _ end] => destruct (m st) as [[[sd es] | e2] s2]
  end; [|discriminate].
  cbn. intros [= <- _]. repeat split.
Qed.

(** The cap keeps the first hash. *)
Lemma cap_hd max (hashes : list string) :
  hd_error (Auditor.cap max hashes) = hd_error hashes.
Proof.
  unfold Auditor.cap.
  destruct (Z.ltb_spec 0 max) as [Hpos | _]; cbn [andb]; [|reflexivity].
  destruct (max <? _); [|reflexivity].
  destruct hashes as [|h t]; [now rewrite firstn_nil|].
  destruct (Z.to_nat max) as [|k] eqn:E; [lia|]. reflexivity.
Qed.

(** One pass of the human-readable report over a record it can print. *)
Lemma render_printable sec (results : list AuditResult) :
  Forall printable results ->
  forall s : state W,
  exists evs,
    Auditor.render sec results s = (Ret tt, logged s evs) /\
    Forall on_stdout evs /\
    result_hashes evs = map r_txHash results.
Proof.
  induction 1 as [|r rest Hr _ IH]; intros s.
  - exists []. cbn. unfold logged. rewrite app_nil_r. destruct s. repeat split. constructor.
  - cbn [Auditor.render]. rewrite bind_run. cbn [print emit].
    set (s1 := {| world := world s; trace := (trace s ++ [EvStdout (LResultHash (r_txHash r))])%list |}).
    destruct (Auditor.truthy (r_errorPrimary r)) as [msg|] eqn:Herr.
    + rewrite bind_run. cbn [print emit].
      match goal with
      | |- context [Auditor.render sec rest ?st] => destruct (IH st) as (evs & -> & Hout & Hh)
      end.
      exists ([EvStdout (LResultHash (r_txHash r)); EvStdout (LResultPrimaryError msg)]
                ++ evs)%list.
      split; [unfold logged, s1; cbn; now rewrite <- !app_assoc|].
      split; [repeat constructor; assumption|].
      unfold result_hashes in *. cbn [flat_map app map]. now rewrite Hh.
    + destruct (r_primary r) as [c|] eqn:Hprim;
        [|destruct Hr as [Hr | Hr]; [now rewrite Herr in Hr | now rewrite Hprim in Hr]].
      rewrite bind_run. cbn [print emit]. rewrite bind_run.
      set (s2 := {| world := world s1; trace := (trace s1 ++ [EvStdout (LResultPrimary c)])%list |}).
      assert (Hsec : exists evs2,
                 (match sec with
                  | Some _ =>
                      match Auditor.truthy (r_errorSecondary r), r_secondary r with
                      | Some msg, _ => print (LResultSecondaryError msg)
                      | None, Some sd =>
                          print (LResultSecondary (c_commitment sd)
                                   (match r_match r with Some true => true | _ => false end))
                      | None, None => ret tt
                      end
                  | None => ret tt
                  end) s2 = (Ret tt, logged s2 evs2) /\
                 Forall on_stdout evs2 /\ result_hashes evs2 = []).
      { assert (Hnil : (ret tt : M W unit) s2 = (Ret tt, logged s2 [])).
        { cbn. unfold logged. rewrite app_nil_r. now destruct s2. }
        destruct sec as [w|]; [|exists []; repeat split; [exact Hnil | constructor]].
        destruct (Auditor.truthy (r_errorSecondary r)) as [msg|].
        - eexists [_]. repeat split. repeat constructor.
        - destruct (r_secondary r) as [sd|].
          + eexists [_]. repeat split. repeat constructor.
          + exists []. repeat split; [exact Hnil | constructor]. }
      destruct Hsec as (evs2 & -> & Hout2 & Hh2).
      rewrite bind_run. cbn [print emit].
      match goal with
      | |- context [Auditor.render sec rest ?st] => destruct (IH st) as (evs & -> & Hout & Hh)
      end.
      exists ([EvStdout (LResultHash (r_txHash r)); EvStdout (LResultPrimary c)]
                ++ evs2 ++ [EvStdout LResultTime] ++ evs)%list.
      split; [unfold logged, s2, s1; cbn; now rewrite <- !app_assoc|].
      split.
      * repeat constructor. apply Forall_app. split; [assumption|].
        repeat constructor. assumption.
      * unfold result_hashes in *. cbn [flat_map app map].
        rewrite !flat_map_app, Hh2. cbn [flat_map app map]. now rewrite Hh.
Qed.


Lemma to_bytes_message v n e : to_bytes v n = Raise e -> str_exn e <> EmptyString.
Proof.
  unfold to_bytes. destruct (v <? 0); [intros [= <-]; discriminate|].
  destruct (256 ^ Z.of_nat n <=? v); [intros [= <-] | ]; discriminate.
Qed.

Lemma fromhex_message s e : fromhex s = Raise e -> str_exn e <> EmptyString.
Proof.
  remember (String.length s) as n eqn:Hn.
  assert (Hle : (String.length s <= n)%nat) by lia. clear Hn.
  revert s e Hle. induction n as [|n IH]; intros s e Hle.
  - destruct s; [discriminate | cbn in Hle; lia].
  - destruct s as [|c rest]; [discriminate|].
    rewrite fromhex_cons. cbn [String.length] in Hle.
    destruct (is_c_space c); [apply IH; lia|].
    destruct (hex_value c); [|intros [= <-]; discriminate].
    destruct rest as [|d rest']; [intros [= <-]; discriminate|].
    destruct (hex_value d); [|intros [= <-]; discriminate].
    destruct (fromhex rest') eqn:Hr; [discriminate|].
    intros [= <-]. apply (IH rest'); [cbn [String.length] in Hle; lia | exact Hr].
Qed.

(** With a provider whose exceptions have messages, every exception of
    [build_commitment] has one. *)
Lemma auditor_build_commitment_message (w3 : Web3 W) tx s e :
  outspoken w3 ->
  fst (Auditor.build_commitment w3 tx s) = Raise e -> str_exn e <> EmptyString.
Proof.
  intros [Hc Hr]. unfold Auditor.build_commitment.
  rewrite bind_run. unfold eth_get_transaction_receipt. rewrite call_rpc_run.
  destruct (fst (get_transaction_receipt w3 tx (world s))) as [rcpt | e1] eqn:H1;
    [|cbn [fst]; intros [= <-]; eapply Hr; eassumption].
  rewrite bind_run. unfold eth_chain_id. rewrite call_rpc_run. cbn [world trace].
  match goal with
  | |- context [chain_id w3 ?w] =>
      destruct (fst (chain_id w3 w)) as [cid | e2] eqn:H2;
        [|cbn [fst]; intros [= <-]; eapply Hc; eassumption]
  end.
  destruct rcpt as [rcpt|]; [|cbn [fst raise]; intros [= <-]; discriminate].
  unfold bind, lift.
  destruct (to_bytes cid 8) eqn:E1; [|cbn [fst]; intros [= <-]; eauto using to_bytes_message].
  destruct (fromhex (drop 2 tx)) eqn:E2;
    [|cbn [fst]; intros [= <-]; eauto using fromhex_message].
  destruct (to_bytes (blockNumber rcpt) 8) eqn:E3;
    [|cbn [fst]; intros [= <-]; eauto using to_bytes_message].
  destruct (to_bytes (status rcpt) 1) eqn:E4;
    [|cbn [fst]; intros [= <-]; eauto using to_bytes_message].
  destruct (to_bytes (gasUsed rcpt) 8) eqn:E5;
    [|cbn [fst]; intros [= <-]; eauto using to_bytes_message].
  discriminate.
Qed.

(** Then the human-readable report can print every record of
    [audit_tx]. *)
Lemma audit_tx_printable tx (p : Web3 W) sec s r s' :
  outspoken p ->
  Auditor.audit_tx tx p sec s = (Ret r, s') -> printable r.
Proof.
  intros Hout. unfold Auditor.audit_tx. rewrite bind_run, audit_provider_run.
  pose proof (auditor_build_commitment_message p tx s) as Hmsg.
  destruct (Auditor.build_commitment p tx s) as [[c | e] s1]; cbn [fst] in Hmsg.
  - rewrite bind_run.
    match goal with
    | |- context [match ?m ?st with _ => _ end] => destruct (m st) as [[[sd es] | e2] s2]
    end; [|discriminate].
    cbn [ret]. intros [= <- _]. right. discriminate.
  - destruct (is_Exception e); [|discriminate]. rewrite bind_run.
    match goal with
    | |- context [match ?m ?st with _ => _ end] => destruct (m st) as [[[sd es] | e2] s2]
    end; [|discriminate].
    cbn [ret]. intros [= <- _]. left. cbn [r_errorPrimary Auditor.truthy].
    specialize (Hmsg e Hout eq_refl).
    destruct (String.eqb_spec (str_exn e) EmptyString); [contradiction | discriminate].
Qed.

Lemma audit_all_printable (hashes : list string) (p : Web3 W) sec :
  outspoken p ->
  forall acc s out s',
    Auditor.audit_all hashes p sec acc s = (Ret out, s') ->
    Forall printable acc -> Forall printable out.
Proof.
  intros Hout. induction hashes as [|h rest IH]; intros acc s out s'.
  - cbn [Auditor.audit_all ret]. now intros [= <- _].
  - cbn [Auditor.audit_all]. rewrite bind_run.
    destruct (Auditor.audit_tx h p sec s) as [[r | e] s1] eqn:Hr; [|discriminate].
    intros H Hacc. apply (IH _ _ _ _ H). apply Forall_app. split; [exact Hacc|].
    constructor; [|constructor]. eapply audit_tx_printable; eassumption.
Qed.

(** The human-readable report over records it can print: it returns,
    names every record's hash, in order, and writes to standard output
    only, the chain-id calls apart. *)
Lemma report_human_run (args : Auditor.Args) (p : Web3 W) sec c results s :
  Auditor.a_json args = false ->
  reports p c -> (forall w3, sec = Some w3 -> reports w3 c) ->
  Forall printable results ->
  exists s' evs,
    Auditor.report args p sec results s = (Ret tt, s') /\
    trace s' = (trace s ++ evs)%list /\
    result_hashes evs = map r_txHash results /\
    Forall (fun ev => no_audit ev \/ on_stdout ev) evs.
Proof.
  intros Hjson Hp Hs Hprint. unfold Auditor.report. rewrite Hjson.
  rewrite bind_run, (eth_chain_id_reports p c s Hp). cbn [world trace].
  rewrite bind_run, (eth_chain_id_reports p c _ Hp). cbn [world trace].
  rewrite bind_run. cbn [print emit world trace]. rewrite bind_run.
  destruct sec as [w3|].
  - rewrite bind_run, (eth_chain_id_reports w3 c _ (Hs w3 eq_refl)). cbn [world trace].
    rewrite bind_run, (eth_chain_id_reports w3 c _ (Hs w3 eq_refl)). cbn [world trace].
    cbn [print emit world trace]. rewrite bind_run. cbn [print emit world trace].
    match goal with
    | |- context [Auditor.render ?sec results ?st] =>
        destruct (render_printable sec results Hprint st) as (evs & -> & Hout & Hh)
    end.
    do 2 eexists. split; [reflexivity|]. cbn [logged trace]. rewrite <- !app_assoc.
    split; [reflexivity|]. cbn [app]. split.
    + unfold result_hashes in *. cbn [flat_map app]. exact Hh.
    + repeat (constructor; [first [left; exact I | right; exact I]|]).
      eapply Forall_impl; [|exact Hout]. intros ev H. now right.
  - cbn [ret]. rewrite bind_run. cbn [print emit world trace].
    match goal with
    | |- context [Auditor.render ?sec results ?st] =>
        destruct (render_printable sec results Hprint st) as (evs & -> & Hout & Hh)
    end.
    do 2 eexists. split; [reflexivity|]. cbn [logged trace]. rewrite <- !app_assoc.
    split; [reflexivity|]. cbn [app]. split.
    + unfold result_hashes in *. cbn [flat_map app]. exact Hh.
    + repeat (constructor; [first [left; exact I | right; exact I]|]).
      eapply Forall_impl; [|exact Hout]. intros ev H. now right.
Qed.

End AuditorEdges.
(** ** txbatch.py: the loop, transaction by transaction, and the run from
    the connection step on *)

Section Runs.
Context {W : Type}.
Import Py Eff.

Lemma returns_ret {A} (a : A) (s : state W) : returns (ret a) s a [] s.
Proof. split; [reflexivity|]. now rewrite app_nil_r. Qed.

Lemma returns_emit ev (s : state W) : returns (emit ev) s tt [ev] (logged s [ev]).
Proof. split; reflexivity. Qed.

Lemma returns_bind {A B} (m : M W A) (k : A -> M W B) s a e1 s1 b e2 s2 :
  returns m s a e1 s1 -> returns (k a) s1 b e2 s2 ->
  returns (bind m k) s b (e1 ++ e2) s2.
Proof.
  intros [H1 T1] [H2 T2]. split.
  - rewrite bind_run, H1. exact H2.
  - rewrite T2, T1. now rewrite <- app_assoc.
Qed.

Lemma returns_w3_connect (net : string -> Web3 W) url s :
  connects (net url) ->
  exists s', returns (Txbatch.w3_connect net url) s (net url)
               [EvRpc (uri (net url)) IsConnected] s'.
Proof.
  intros Hc. unfold returns, Txbatch.w3_connect, w3_is_connected.
  rewrite bind_run, call_rpc_run. specialize (Hc (world s)).
  destruct (is_connected (net url) (world s)) as [b w1]. cbn in Hc. subst b.
  eexists. split; reflexivity.
Qed.

Lemma returns_chain_id (w3 : Web3 W) c s :
  reports w3 c ->
  exists s', returns (Txbatch.safe_rpc_call (eth_chain_id w3) 3 1) s (Some c)
               [EvRpc (uri w3) ChainId] s'.
Proof.
  intros Hr. unfold returns, eth_chain_id. specialize (Hr (world s)).
  destruct (chain_id w3 (world s)) as [r w1] eqn:E. cbn in Hr. subst r.
  eexists. split; [apply safe_rpc_call_first_answer; [lia | exact E]|reflexivity].
Qed.

(** The cross-check's [match] is false exactly when its note is a flag. *)
Lemma cross_check_matched (w : Web3 W) txh b s note matched s' :
  Txbatch.cross_check w txh b s = (Ret (note, matched), s') ->
  matched = negb (flagged note) /\ note <> NoteNone.
Proof.
  unfold Txbatch.cross_check, try_except. rewrite bind_run.
  destruct (Txbatch.fetch_bundle w txh s) as [[b2 | e] s1].
  - destruct (forallb _ _); cbn [ret]; intros [= <- <- _];
      split; (reflexivity || discriminate).
  - destruct (is_TransactionNotFound e);
      [cbn [ret]; intros [= <- <- _]; split; (reflexivity || discriminate)|].
    destruct (is_Exception e); [|discriminate].
    cbn [ret]. intros [= <- <- _]. split; (reflexivity || discriminate).
Qed.

Lemma crossed_flag (w3b : option (Web3 W)) txh b s note matched s' :
  (match w3b with
   | None => ret (NoteNone, true)
   | Some w => Txbatch.cross_check w txh b
   end) s = (Ret (note, matched), s') ->
  negb matched && (match w3b with Some _ => true | None => false end) = flagged note /\
  (w3b = None -> note = NoteNone).
Proof.
  destruct w3b as [w|].
  - intros H. apply cross_check_matched in H. destruct H as [-> _].
    rewrite negb_involutive, andb_true_r. split; [reflexivity | discriminate].
  - cbn [ret]. intros [= <- <- _]. split; reflexivity.
Qed.

Lemma count_cons f o outs : count f (o :: outs) = (if f o then 1 else 0) + count f outs.
Proof. unfold count. cbn [filter]. destruct (f o); cbn [List.length]; lia. Qed.

Lemma count_nil f : count f [] = 0.
Proof. reflexivity. Qed.

(** When the loop returns, its counters have advanced by the numbers of
    the outcomes of each kind. *)
Lemma audit_loop_outcomes (w3 : Web3 W) w3b tx_hashes :
  forall c0 s c s',
    Txbatch.audit_loop w3 w3b tx_hashes c0 s = (Ret c, s') ->
    exists outs,
      loop_run w3 w3b tx_hashes s outs s' /\
      List.length outs = List.length tx_hashes /\
      Txbatch.success_count c = Txbatch.success_count c0 + count status_one outs /\
      Txbatch.fail_count c =
        Txbatch.fail_count c0 + count status_other outs + count fetch_failed outs /\
      Txbatch.not_found_count c = Txbatch.not_found_count c0 + count not_found outs /\
      Txbatch.pending_count c = Txbatch.pending_count c0 /\
      Txbatch.mismatch_count c = Txbatch.mismatch_count c0 + count cross_flagged outs.
Proof.
  induction tx_hashes as [|txh rest IH]; intros c0 s c s' H.
  - cbn in H. injection H as <- <-. exists [].
    split; [constructor|]. rewrite !count_nil. repeat split; lia.
  - rewrite audit_loop_step in H.
    destruct (Txbatch.fetch_bundle w3 txh s) as [[b | e] s1] eqn:Hf.
    + destruct ((match w3b with
                 | None => ret (NoteNone, true)
                 | Some w3b' => Txbatch.cross_check w3b' txh b
                 end) s1) as [[[note matched] | e] s2] eqn:Hx; [|discriminate].
      destruct (IH _ _ _ _ H) as (outs & Hrun & Hlen & E1 & E2 & E3 & E4 & E5).
      destruct (crossed_flag w3b txh b s1 note matched s2 Hx) as [Hflag _].
      exists (Fetched b note :: outs). split.
      { econstructor; [eapply audited_fetched; eassumption | exact Hrun]. }
      rewrite !count_cons. cbn [status_one status_other fetch_failed not_found
                                  cross_flagged List.length].
      unfold counted_row in E1, E2, E3, E4, E5.
      cbn [Txbatch.success_count Txbatch.fail_count Txbatch.pending_count
             Txbatch.not_found_count Txbatch.mismatch_count] in E1, E2, E3, E4, E5.
      rewrite Hflag in E5.
      destruct (Txbatch.b_status b =? 1); destruct (flagged note); cbn [negb];
        repeat split; lia.
    + destruct (is_TransactionNotFound e) eqn:Hnf.
      * destruct (IH _ _ _ _ H) as (outs & Hrun & Hlen & E1 & E2 & E3 & E4 & E5).
        exists (NotFound :: outs). split.
        { econstructor; [eapply audited_not_found; eassumption | exact Hrun]. }
        rewrite !count_cons. cbn [status_one status_other fetch_failed not_found
                                    cross_flagged List.length].
        cbn [Txbatch.success_count Txbatch.fail_count Txbatch.pending_count
               Txbatch.not_found_count Txbatch.mismatch_count] in E1, E2, E3, E4, E5.
        repeat split; lia.
      * destruct (is_Exception e) eqn:HE; [|discriminate].
        destruct (IH _ _ _ _ H) as (outs & Hrun & Hlen & E1 & E2 & E3 & E4 & E5).
        exists (Failed (str_exn e) :: outs). split.
        { econstructor; [eapply audited_failed; eassumption | exact Hrun]. }
        rewrite !count_cons. cbn [status_one status_other fetch_failed not_found
                                    cross_flagged List.length].
        cbn [Txbatch.success_count Txbatch.fail_count Txbatch.pending_count
               Txbatch.not_found_count Txbatch.mismatch_count] in E1, E2, E3, E4, E5.
        repeat split; lia.
Qed.

(** Without a secondary provider no outcome is flagged. *)
Lemma loop_run_alone (w3 : Web3 W) tx_hashes s outs s' :
  loop_run w3 None tx_hashes s outs s' -> count cross_flagged outs = 0.
Proof.
  induction 1 as [|txh rest s o s1 outs s' Ha _ IH]; [reflexivity|].
  rewrite count_cons, IH. destruct Ha as [b s1 note matched s2 _ Hx | |]; try reflexivity.
  cbn [ret] in Hx. injection Hx as <- _ _. reflexivity.
Qed.

Lemma cross_check_emits (w : Web3 W) txh b :
  emits (fetch_event txh) (Txbatch.cross_check w txh b).
Proof.
  unfold Txbatch.cross_check. apply emits_try_except.
  - apply emits_bind; [eapply hoare_emits, fetch_bundle_any|]. intros b2.
    destruct (forallb _ _); apply emits_ret.
  - intros e h. destruct (is_TransactionNotFound e); [|destruct (is_Exception e)];
      try discriminate; intros [= <-]; apply emits_ret.
Qed.

(** The fetches for one transaction write fetch events only. *)
Lemma audited_trace (w3 : Web3 W) w3b txh s o s1 :
  audited w3 w3b txh s o s1 ->
  exists evs, trace s1 = (trace s ++ evs)%list /\ Forall (fetch_event txh) evs.
Proof.
  intros H. destruct (fetch_bundle_any w3 txh s) as [(evs1 & Ht1 & HP1) _].
  destruct H as [b s1 note matched s2 Hf Hx | e s1 Hf _ | e s1 Hf _ _];
    rewrite Hf in Ht1; cbn [snd] in Ht1; [|now exists evs1 ..].
  destruct w3b as [w|].
  - destruct (cross_check_emits w txh b s1) as (evs2 & Ht2 & HP2).
    rewrite Hx in Ht2. cbn [snd] in Ht2.
    exists (evs1 ++ evs2)%list. rewrite Ht2, Ht1, app_assoc.
    split; [reflexivity | now apply Forall_app].
  - cbn [ret] in Hx. injection Hx as _ _ <-. now exists evs1.
Qed.

Lemma outcome_line_verdict txh o : is_verdict (outcome_line txh o) = true.
Proof. now destruct o. Qed.

Lemma filter_none {A} (f : A -> bool) l :
  Forall (fun x => f x = false) l -> filter f l = [].
Proof. induction 1 as [|x l Hx _ IH]; [reflexivity|]. cbn. now rewrite Hx. Qed.

(** What the loop writes: for each hash its fetch events, then its line. *)
Lemma loop_run_trace (w3 : Web3 W) w3b tx_hashes s outs s' :
  loop_run w3 w3b tx_hashes s outs s' ->
  exists evs,
    trace s' = (trace s ++ evs)%list /\
    filter is_verdict evs = outcome_lines tx_hashes outs /\
    Forall (fun ev => is_verdict ev = true \/ exists h, In h tx_hashes /\ fetch_event h ev)
      evs.
Proof.
  induction 1 as [s | txh rest s o s1 outs s' Ha _ (evs & Ht & Hv & Hall)].
  - exists []. rewrite app_nil_r. repeat split. constructor.
  - destruct (audited_trace _ _ _ _ _ _ Ha) as (evs1 & Ht1 & HP1).
    exists (evs1 ++ [outcome_line txh o] ++ evs)%list. split; [|split].
    + rewrite Ht. cbn [logged trace]. rewrite Ht1, <- !app_assoc. reflexivity.
    + rewrite !filter_app, Hv. cbn [filter]. rewrite outcome_line_verdict.
      rewrite filter_none; [reflexivity|].
      eapply Forall_impl; [|exact HP1]. apply fetch_event_quiet.
    + apply Forall_app. split; [|constructor].
      * eapply Forall_impl; [|exact HP1]. intros ev Hev. right. exists txh.
        split; [now left | exact Hev].
      * left. apply outcome_line_verdict.
      * eapply Forall_impl; [|exact Hall]. intros ev [Hev | (h & Hin & Hev)];
          [now left | right; exists h; split; [now right | exact Hev]].
Qed.

(** The connection to the secondary provider, when one is configured. *)
Lemma returns_secondary (env : Txbatch.Env W) (s : state W) :
  (forall w, option_map (Txbatch.network env) (Txbatch.RPC_URL_2 env) = Some w ->
             connects w /\ exists c, reports w c) ->
  exists e s',
    returns
      (match Txbatch.RPC_URL_2 env with
       | None => ret None
       | Some url2 =>
           bind (print (LConnecting url2)) (fun _ =>
           bind (Txbatch.w3_connect (Txbatch.network env) url2) (fun w3b =>
           bind (Txbatch.safe_rpc_call (eth_chain_id w3b) 3 1) (fun secondary_chain_id =>
           bind (print (LConnected secondary_chain_id)) (fun _ =>
           ret (Some w3b)))))
       end) s (option_map (Txbatch.network env) (Txbatch.RPC_URL_2 env)) e s' /\
    Forall setup e.
Proof.
  intros H. destruct (Txbatch.RPC_URL_2 env) as [url2|]; cbn [option_map] in *.
  - destruct (H _ eq_refl) as [Hc [c Hr]].
    destruct (returns_w3_connect (Txbatch.network env) url2
                (logged s [EvStdout (LConnecting url2)]) Hc) as (s1 & H1).
    destruct (returns_chain_id _ c s1 Hr) as (s2 & H2).
    do 2 eexists. split.
    + eapply returns_bind; [apply returns_emit|].
      eapply returns_bind; [exact H1|].
      eapply returns_bind; [exact H2|].
      eapply returns_bind; [apply returns_emit | apply returns_ret].
    + repeat constructor.
  - do 2 eexists. split; [apply returns_ret | constructor].
Qed.


(** The connection step with providers that connect and report their
    chain ids: it returns the two providers, having tested the connections
    and read the chain ids. *)
Lemma connections_run (env : Txbatch.Env W) (s : state W) :
  let p := Txbatch.network env (Txbatch.RPC_URL env) in
  let w3b := option_map (Txbatch.network env) (Txbatch.RPC_URL_2 env) in
  connects p -> (exists c, reports p c) ->
  (forall w, w3b = Some w -> connects w /\ exists c, reports w c) ->
  exists pre s0,
    returns (Txbatch.connections env) s (p, w3b) pre s0 /\ Forall setup pre.
Proof.
  intros p w3b Hconn [cp Hrep] Hsec.
  set (s3 := logged s [EvStdout (LConnecting (Txbatch.RPC_URL env))]).
  destruct (returns_w3_connect (Txbatch.network env) (Txbatch.RPC_URL env) s3 Hconn)
    as (s4 & H4).
  destruct (returns_chain_id p cp s4 Hrep) as (s5 & H5).
  set (s6 := logged s5 [EvStdout (LConnected (Some cp))]).
  destruct (returns_secondary env s6 Hsec) as (e7 & s7 & H7 & Q7).
  fold w3b in H7.
  eassert (Hrun : returns (Txbatch.connections env) s (p, w3b) _ s7).
  { unfold Txbatch.connections.
    eapply returns_bind; [apply (returns_emit _ s)|].
    eapply returns_bind; [exact H4|].
    eapply returns_bind; [exact H5|].
    eapply returns_bind; [apply (returns_emit _ s5)|].
    eapply returns_bind; [exact H7|].
    apply returns_ret. }
  do 2 eexists. split; [exact Hrun|].
  repeat (constructor; [exact I|]). apply Forall_app. split; [exact Q7 | constructor].
Qed.

(** From its connection step on, with providers that connect, report their
    chain ids and are not interrupted, [main] of txbatch.py returns: after
    the connection step and the header it audits the hashes it was left
    with one after the other, prints the number of hashes with the number
    of invalid strings, the summary of the outcomes, and the warning when
    a cross-check did not end in agreement; the exit status follows the
    outcomes. *)
Lemma process_run (env : Txbatch.Env W) tx_hashes invalid_count (s : state W) :
  let p := Txbatch.network env (Txbatch.RPC_URL env) in
  let w3b := option_map (Txbatch.network env) (Txbatch.RPC_URL_2 env) in
  connects p -> (exists c, reports p c) -> calm_provider p ->
  (forall w, w3b = Some w -> connects w /\ (exists c, reports w c) /\ calm_provider w) ->
  exists (pre : list event) (s0 : state W) (outs : list outcome) (s1 : state W),
    returns (Txbatch.connections env) s (p, w3b) pre s0 /\
    Forall setup pre /\
    loop_run p w3b tx_hashes (logged s0 [EvStdout LHeader]) outs s1 /\
    List.length outs = List.length tx_hashes /\
    Txbatch.process env tx_hashes invalid_count s =
      (Ret (exit_status outs invalid_count),
       logged s1
         (EvStdout (LProcessed (Z.of_nat (List.length tx_hashes)) invalid_count)
          :: summary_of outs :: mismatch_warning outs)).
Proof.
  intros p w3b Hconn Hrep Hcalm Hsec.
  destruct (connections_run env s Hconn Hrep) as (pre & s0 & H0 & Hpre).
  { intros w Hw. destruct (Hsec w Hw) as (Hc & Hr & _). now split. }
  fold p w3b in H0.
  set (s8 := logged s0 [EvStdout LHeader]).
  destruct (audit_loop_tally p w3b Hcalm (fun w Hw => proj2 (proj2 (Hsec w Hw)))
              tx_hashes zero_counters s8)
    as (c & loop & s9 & Hrun & Htr & _).
  destruct (audit_loop_outcomes p w3b tx_hashes _ _ _ _ Hrun)
    as (outs & Hloop & Hlen & E1 & E2 & E3 & E4 & E5).
  cbn [zero_counters Txbatch.success_count Txbatch.fail_count Txbatch.not_found_count
         Txbatch.pending_count Txbatch.mismatch_count] in E1, E2, E3, E4, E5.
  rewrite Z.add_0_l in E1, E2, E3, E5.
  assert (Hc : c = {| Txbatch.success_count := count status_one outs;
                      Txbatch.fail_count := count status_other outs + count fetch_failed outs;
                      Txbatch.pending_count := 0;
                      Txbatch.not_found_count := count not_found outs;
                      Txbatch.mismatch_count := count cross_flagged outs |}).
  { destruct c. cbn in *. congruence. }
  clear E1 E2 E3 E4 E5.
  exists pre, s0, outs, s9. split; [exact H0|]. split; [exact Hpre|].
  split; [exact Hloop|]. split; [exact Hlen|].
  destruct H0 as [H0 _]. unfold Txbatch.process.
  rewrite bind_run, H0. cbv beta iota.
  rewrite bind_run. change (print LHeader s0) with (Ret tt, s8). cbv beta iota.
  unfold zero_counters in Hrun. rewrite bind_run, Hrun. cbv beta iota.
  rewrite bind_run. unfold print at 1. unfold emit at 1. cbv beta iota.
  rewrite bind_run. unfold print at 1. unfold emit at 1. cbv beta iota.
  rewrite Hc. cbn [Txbatch.success_count Txbatch.fail_count Txbatch.not_found_count
                     Txbatch.pending_count Txbatch.mismatch_count world trace].
  unfold exit_status, mismatch_warning, summary_of, logged.
  destruct (Z.ltb_spec 0 (count cross_flagged outs)) as [Hflag | _].
  - destruct w3b as [w|] eqn:Ew.
    + unfold bind, print_err, emit, ret. cbn [world trace].
      rewrite <- !app_assoc. reflexivity.
    + pose proof (loop_run_alone _ _ _ _ _ Hloop). lia.
  - destruct (_ || _); unfold ret; rewrite <- !app_assoc; reflexivity.
Qed.

End Runs.

(** The providers of the examples are not interrupted. *)
Lemma fixture_provider_calm url cid rc :
  (forall h w e, rc h w = Py.Raise e -> Py.is_Exception e = true) ->
  calm_provider (Fixtures.provider url cid rc).
Proof.
  intros H. constructor; cbn; intros; try discriminate. eapply H; eauto.
Qed.


(** ** The retry wrapper: bounds and the not-found case *)




(** The flaky provider of the examples answers on the third attempt. *)
Example flaky_third_attempt :
  timing (Eff.trace
            (snd (Txbatch.safe_rpc_call
                    (Eff.eth_get_transaction_receipt Fixtures.node_flaky Fixtures.tx1)
                    3 1 Fixtures.start))) =
  retry_pattern (EvRpc "https://flaky.example" (GetTransactionReceipt Fixtures.tx1))
    (EvSleep 1) 2.
Proof. vm_compute. reflexivity. Qed.


Section NotFound.
Context {W : Type}.
Import Py Eff.



End NotFound.



(** ** Witnesses for the commitment derivation *)

Lemma C1_commitment_is_keccak_of_preimage_witness :
  let preimage := spec_preimage 1 Fixtures.hash_bytes 100 1 21000 in
  let digest := Py.hex (Keccak.keccak256 preimage) in
  let tx := "0x" ++ Py.hex Fixtures.hash_bytes in
  List.length preimage = 57%nat /\
  Txbatch.build_commitment 1 tx 100 1 21000 = Py.Ret ("0x" ++ digest) /\
  Txapp.build_commitment 1 tx 100 1 21000 = Py.Ret ("0x" ++ digest) /\
  (forall (W : Type) (w3 : Eff.Web3 W) (s : Eff.state W) (rcpt : Receipt) (w1 w2 : W),
      Eff.get_transaction_receipt w3 tx (Eff.world s) = (Py.Ret (Some rcpt), w1) ->
      Eff.chain_id w3 w1 = (Py.Ret 1, w2) ->
      blockNumber rcpt = 100 -> status rcpt = 1 -> gasUsed rcpt = 21000 ->
      fst (Auditor.build_commitment w3 tx s) =
      Py.Ret {| c_chainId := 1; c_blockNumber := 100; c_status := 1;
                c_gasUsed := 21000; c_commitment := digest |}).
Proof.
  apply (C1_commitment_is_keccak_of_preimage 1 Fixtures.hash_bytes 100 1 21000);
    try lia; try reflexivity.
  unfold Fixtures.hash_bytes. cbn [repeat]. repeat constructor; unfold is_byte; lia.
Defined.

(** The commitment of the example transaction, as a value. *)
Example commitment_of_example :
  Txbatch.build_commitment 1 Fixtures.tx1 100 1 21000 =
  Py.Ret "0x5679b673fce129acdc95dcdadb642fdc84228c7046b610fc921177e3ee0ea38a".
Proof. vm_compute. reflexivity. Qed.

Lemma C2_same_fields_same_commitment_witness :
  exists b1 b2,
    fst (Txbatch.fetch_bundle Fixtures.node_a Fixtures.tx1 Fixtures.start) = Py.Ret b1 /\
    fst (Txbatch.fetch_bundle Fixtures.node_c Fixtures.tx1 Fixtures.start) = Py.Ret b2 /\
    Txbatch.b_commitment b1 = Txbatch.b_commitment b2 /\
    String.length (Txbatch.b_commitment b1) = 66%nat.
Proof.
  assert (H1 : exists b1,
             fst (Txbatch.fetch_bundle Fixtures.node_a Fixtures.tx1 Fixtures.start)
             = Py.Ret b1) by (vm_compute; eexists; reflexivity).
  assert (H2 : exists b2,
             fst (Txbatch.fetch_bundle Fixtures.node_c Fixtures.tx1 Fixtures.start)
             = Py.Ret b2) by (vm_compute; eexists; reflexivity).
  destruct H1 as [b1 H1], H2 as [b2 H2]. exists b1, b2.
  split; [exact H1|]. split; [exact H2|].
  apply (proj1 (C2_same_fields_same_commitment nat nat Fixtures.node_a Fixtures.node_c
                  Fixtures.tx1 Fixtures.start Fixtures.start) b1 b2 H1 H2);
    vm_compute in H1, H2; injection H1 as <-; injection H2 as <-; reflexivity.
Defined.

(** C5, counterexample: status 2 is not rejected; it is encoded as the
    byte 0x02 and a commitment comes out. *)
Lemma C5_counterexample :
  Txbatch.build_commitment 1 Fixtures.tx1 100 2 21000 =
  Py.Ret "0xcd92924bb15765779e300dbd025d6ab2073a7daf88157e8ff133443a14c963fd".
Proof. vm_compute. reflexivity. Qed.
(** ** Chain identities *)




(** ** One record per hash *)

(** C6, counterexample: tx_batch_auditor.py given one well-formed hash and
    one malformed string. Two hashes remain after de-duplication and
    capping; the malformed one aborts the batch before any provider is
    called, and no record is produced. *)
Lemma C6_counterexample :
  Auditor.cap 0 (Py.dict_fromkeys (Auditor.stripped [Fixtures.tx1; "0xnotahash"])) =
    [Fixtures.tx1; "0xnotahash"] /\
  Auditor.main Fixtures.auditor_env
    (Fixtures.auditor_args "https://a.example" (Some "https://b.example")
       [Fixtures.tx1; "0xnotahash"] 0) Fixtures.start =
  (Py.Raise (Py.SystemExit 1),
   {| Eff.world := 0%nat;
      Eff.trace := [EvStderr (LInvalidHashes ["0xnotahash"])] |}).
Proof. split; vm_compute; reflexivity. Qed.

(** C6, as the code has it. In tx_batch_auditor.py, when the hashes of the
    input (the positional arguments, or the lines of the file), stripped
    and de-duplicated, are all accepted by [validate_tx_hash], and there
    is one at least, the providers connect, report the same chain id and
    none of their calls is interrupted, [main] gets to its report with
    exactly one record per hash that remains after stripping,
    de-duplication and capping, in that order, whatever the providers
    answered for each of them. In JSON mode it then prints these records
    and returns. In the human-readable mode it prints them all and returns
    provided every exception the primary provider raises has a message.
    When one of the hashes is rejected by [validate_tx_hash], [main] names
    the rejected ones and exits with status 1, and does nothing else. In
    txbatch.py, the loop of [main] ends with one outcome and prints
    exactly one line (a row, not-found or error) for each entry of the
    list of hashes it is given, in order, whatever the providers
    answered. *)
Theorem C6_one_record_per_hash :
  (forall (W : Type) (env : Auditor.Env W) (args : Auditor.Args) (lines : list string)
          (c : Z) (s : Eff.state W),
      let hashes := Py.dict_fromkeys (Auditor.stripped lines) in
      let kept := Auditor.cap (Auditor.a_max args) hashes in
      let p := Auditor.network env (Auditor.a_rpc1 args) in
      let sec := option_map (Auditor.network env) (Auditor.truthy (Auditor.a_rpc2 args)) in
      given_lines env args = Some lines ->
      hashes <> [] ->
      Forall (fun h => Auditor.validate_tx_hash h = true) hashes ->
      connects p -> reports p c -> calm_provider p ->
      (forall w3, sec = Some w3 -> connects w3 /\ reports w3 c /\ calm_provider w3) ->
      exists (results : list AuditResult) (s1 : Eff.state W) (evs : list event),
        Auditor.main env args s = Auditor.report args p sec results s1 /\
        map r_txHash results = kept /\
        Eff.trace s1 = (Eff.trace s ++ evs)%list /\
        Forall (audits kept) evs /\
        (Auditor.a_json args = true ->
         exists s' evs' secondary,
           Auditor.main env args s = (Py.Ret tt, s') /\
           Eff.trace s' =
             (Eff.trace s1 ++ evs' ++
                [EvStdout (LJson (Auditor.a_rpc1 args, c, network_name c)
                             secondary results)])%list /\
           Forall no_audit evs') /\
        (Auditor.a_json args = false ->
         outspoken p ->
         exists s' evs',
           Auditor.main env args s = (Py.Ret tt, s') /\
           Eff.trace s' = (Eff.trace s1 ++ evs')%list /\
           result_hashes evs' = kept)) /\
  (forall (W : Type) (env : Auditor.Env W) (args : Auditor.Args) (lines : list string)
          (s : Eff.state W),
      given_lines env args = Some lines ->
      bad_hashes lines <> [] ->
      Auditor.main env args s =
      (Py.Raise (Py.SystemExit 1),
       logged s [EvStderr (LInvalidHashes (bad_hashes lines))])) /\
  (forall (W : Type) (w3 : Eff.Web3 W) (w3b : option (Eff.Web3 W))
          (tx_hashes : list string) (c0 : Txbatch.Counters) (s : Eff.state W),
      calm_provider w3 ->
      (forall w, w3b = Some w -> calm_provider w) ->
      exists (c : Txbatch.Counters) (outs : list outcome) (evs : list event)
             (s' : Eff.state W),
        Txbatch.audit_loop w3 w3b tx_hashes c0 s = (Py.Ret c, s') /\
        loop_run w3 w3b tx_hashes s outs s' /\
        List.length outs = List.length tx_hashes /\
        Eff.trace s' = (Eff.trace s ++ evs)%list /\
        filter is_verdict evs = outcome_lines tx_hashes outs).
Proof.
  split; [|split].
  - intros W env args lines c s hashes kept p sec Hgiven Hne Hvalid Hcp Hrp Hcalm Hsec.
    destruct (main_reaches_check env args lines s Hgiven Hne Hvalid Hcp)
      as (s1 & evs1 & Ht1 & Hq1 & Hmain).
    { intros w3 Hw. now apply Hsec. }
    fold hashes p sec in Hmain. fold kept in Hmain.
    destruct (check_chain_ids_agree_run p sec c s1 Hrp)
      as (s2 & evs2 & Hcheck & Ht2 & Hq2).
    { intros w3 Hw. now apply Hsec. }
    destruct (audit_all_returns kept p sec Hcalm) with (acc := @nil AuditResult) (s := s2)
      as (results & s3 & Haudit & Hmap).
    { intros w3 Hw. now apply Hsec. }
    destruct (audit_all_emits kept p sec [] s2) as (evs3 & Ht3 & Hq3).
    rewrite Haudit in Ht3. cbn [snd app] in Ht3, Haudit.
    assert (Hrun : Auditor.main env args s = Auditor.report args p sec results s3).
    { rewrite Hmain, bind_run, Hcheck, bind_run, Haudit. reflexivity. }
    exists results, s3, (evs1 ++ evs2 ++ evs3)%list.
    split; [exact Hrun|]. split; [exact Hmap|]. split.
    { rewrite Ht3, Ht2, Ht1, <- !app_assoc. reflexivity. }
    split.
    { repeat (apply Forall_app; split).
      - eapply Forall_impl; [|exact Hq1]. intros ev Hev. now left.
      - eapply Forall_impl; [|exact Hq2]. intros ev Hev. now left.
      - eapply Forall_impl; [|exact Hq3]. intros ev Hev. now right. }
    split.
    + intros Hjson.
      destruct (report_json_run args p sec c results s3 Hjson Hrp)
        as (s' & evs' & secondary & Hreport & Ht' & Hq').
      { intros w3 Hw. now apply Hsec. }
      exists s', evs', secondary. rewrite Hrun. auto.
    + intros Hjson Hout.
      destruct (report_human_run args p sec c results s3 Hjson Hrp)
        as (s' & evs' & Hreport & Ht' & Hh & _).
      { intros w3 Hw. now apply Hsec. }
      { eapply (audit_all_printable kept p sec Hout [] s2); [exact Haudit | constructor]. }
      exists s', evs'. rewrite Hrun, Hh. auto.
  - intros W env args lines s Hgiven Hbad.
    apply auditor_main_rejects; [|exact Hbad].
    rewrite input_hashes_given, Hgiven. reflexivity.
  - intros W w3 w3b tx_hashes c0 s Hcalm Hcalmb.
    destruct (audit_loop_tally w3 w3b Hcalm Hcalmb tx_hashes c0 s)
      as (c & evs & s' & Hrun & Ht & _).
    destruct (audit_loop_outcomes w3 w3b tx_hashes _ _ _ _ Hrun)
      as (outs & Hloop & Hlen & _).
    destruct (loop_run_trace _ _ _ _ _ _ Hloop) as (evs' & Ht' & Hv & _).
    exists c, outs, evs', s'. auto.
Qed.

Lemma C6_one_record_per_hash_witness :
  exists (results : list AuditResult) (s1 s' : Eff.state nat) (evs' : list event),
    Auditor.main Fixtures.auditor_file_env
      (Fixtures.auditor_table_args "https://a.example" "batch.txt") Fixtures.start =
    Auditor.report (Fixtures.auditor_table_args "https://a.example" "batch.txt")
      Fixtures.node_a None results s1 /\
    map r_txHash results = [Fixtures.tx1] /\
    Auditor.main Fixtures.auditor_file_env
      (Fixtures.auditor_table_args "https://a.example" "batch.txt") Fixtures.start =
    (Py.Ret tt, s') /\
    Eff.trace s' = (Eff.trace s1 ++ evs')%list /\
    result_hashes evs' = [Fixtures.tx1].
Proof.
  destruct (proj1 C6_one_record_per_hash nat Fixtures.auditor_file_env
              (Fixtures.auditor_table_args "https://a.example" "batch.txt")
              Fixtures.batch_txt 1 Fixtures.start)
    as (results & s1 & evs & Hrun & Hmap & _ & _ & _ & Htable).
  - reflexivity.
  - vm_compute. discriminate.
  - change (Py.dict_fromkeys (Auditor.stripped Fixtures.batch_txt)) with [Fixtures.tx1].
    constructor; [vm_compute; reflexivity | constructor].
  - intros w. reflexivity.
  - intros w. reflexivity.
  - apply fixture_provider_calm. discriminate.
  - intros w3 H. discriminate H.
  - destruct (Htable eq_refl) as (s' & evs' & Hret & Ht & Hh).
    { split; [discriminate|]. intros h w e H. discriminate H. }
    exists results, s1, s', evs'. auto.
Defined.

(** ** Hash validation *)



(** Strings of other lengths, with or without spaces around them, are
    reported one by one. *)
Example txbatch_rejects_short_strings :
  Txbatch.main (Fixtures.batch_env "https://a.example" None)
    (Fixtures.batch_args ["0x1234"; " not a hash "]) Fixtures.start =
  (Py.Ret 1,
   logged Fixtures.start
     [EvStderr (LInvalidHash "0x1234"); EvStderr (LInvalidHash " not a hash ");
      EvStderr LNoValidHashes]).
Proof. vm_compute. reflexivity. Qed.

(** ** The summary counters of txbatch.py *)




(** * Further properties of the code *)

(** ** The preimage can be read back *)

Lemma from_bytes_app bs b : from_bytes (bs ++ [b]) = from_bytes bs * 256 + b.
Proof. unfold from_bytes. now rewrite fold_left_app. Qed.

Lemma from_bytes_be_digits n v :
  0 <= v -> from_bytes (Py.be_digits n v) = v mod 256 ^ Z.of_nat n.
Proof.
  revert v. induction n as [|n IH]; intros v Hv.
  - cbn. now rewrite Z.mod_1_r.
  - cbn [Py.be_digits]. rewrite from_bytes_app, IH by (apply Z.div_pos; lia).
    rewrite Nat2Z.inj_succ, Z.pow_succ_r by lia.
    rewrite (Z.rem_mul_r v 256 (256 ^ Z.of_nat n)) by lia. lia.
Qed.

Lemma to_bytes_from_bytes v n bs :
  Py.to_bytes v n = Py.Ret bs -> from_bytes bs = v /\ List.length bs = n.
Proof.
  intros H. pose proof (to_bytes_returns _ _ _ H) as Hr.
  unfold Py.to_bytes in H.
  destruct (v <? 0); [discriminate|].
  destruct (256 ^ Z.of_nat n <=? v); [discriminate|].
  injection H as <-. split; [|apply be_digits_length].
  rewrite from_bytes_be_digits by lia. apply Z.mod_small. lia.
Qed.

Lemma firstn_exact {A} (l1 l2 : list A) n :
  List.length l1 = n -> firstn n (l1 ++ l2) = l1.
Proof.
  intros <-. rewrite firstn_app, Nat.sub_diag, firstn_all. cbn. apply app_nil_r.
Qed.

Lemma skipn_exact {A} (l1 l2 : list A) n :
  List.length l1 = n -> skipn n (l1 ++ l2) = l2.
Proof.
  intros <-. rewrite skipn_app, Nat.sub_diag, skipn_all. reflexivity.
Qed.

Lemma decode_preimage_parts c t b s g :
  List.length c = 8%nat -> List.length t = 32%nat -> List.length b = 8%nat ->
  List.length s = 1%nat -> List.length g = 8%nat ->
  decode_preimage (c ++ t ++ b ++ s ++ g) =
  (from_bytes c, t, from_bytes b, from_bytes s, from_bytes g).
Proof.
  intros Hc Ht Hb Hs Hg. unfold decode_preimage.
  replace (skipn 40 (c ++ t ++ b ++ s ++ g)) with (b ++ s ++ g)%list.
  2:{ change 40%nat with (32 + 8)%nat. rewrite <- skipn_skipn.
      now rewrite (skipn_exact c), (skipn_exact t). }
  replace (skipn 48 (c ++ t ++ b ++ s ++ g)) with (s ++ g)%list.
  2:{ change 48%nat with (8 + (32 + 8))%nat. rewrite <- !skipn_skipn.
      now rewrite (skipn_exact c), (skipn_exact t), (skipn_exact b). }
  replace (skipn 49 (c ++ t ++ b ++ s ++ g)) with g.
  2:{ change 49%nat with (1 + (8 + (32 + 8)))%nat. rewrite <- !skipn_skipn.
      now rewrite (skipn_exact c), (skipn_exact t), (skipn_exact b), (skipn_exact s). }
  rewrite (skipn_exact c), !firstn_exact by assumption. reflexivity.
Qed.

(** X1. The bytes [build_commitment] hashes determine its five arguments:
    when the conversions of the source succeed ([to_bytes] on the four
    integers, [bytes.fromhex] on the hash, giving 32 bytes), the payload
    [c + t + b + s + g] is 57 bytes long, the commitment is the Keccak-256 of
    it, and cutting the payload at offsets 8, 40, 48 and 49 and reading the
    integer fields big-endian gives back chain id, hash bytes, block number,
    status and gas used. Two calls that hash the same payload were given
    the same fields. *)
Theorem X1_preimage_reads_back :
  forall (cid : Z) (tx : string) (blk st gas : Z) (c t b s g : list Z),
    Py.to_bytes cid 8 = Py.Ret c ->
    Py.fromhex (Py.drop 2 tx) = Py.Ret t ->
    List.length t = 32%nat ->
    Py.to_bytes blk 8 = Py.Ret b ->
    Py.to_bytes st 1 = Py.Ret s ->
    Py.to_bytes gas 8 = Py.Ret g ->
    let payload := (c ++ t ++ b ++ s ++ g)%list in
    Txbatch.build_commitment cid tx blk st gas =
      Py.Ret ("0x" ++ Py.hex (Keccak.keccak256 payload)) /\
    List.length payload = 57%nat /\
    decode_preimage payload = (cid, t, blk, st, gas).
Proof.
  intros cid tx blk st gas c t b s g Hc Ht Hlen Hb Hs Hg payload.
  destruct (to_bytes_from_bytes _ _ _ Hc) as [Ec Lc].
  destruct (to_bytes_from_bytes _ _ _ Hb) as [Eb Lb].
  destruct (to_bytes_from_bytes _ _ _ Hs) as [Es Ls].
  destruct (to_bytes_from_bytes _ _ _ Hg) as [Eg Lg].
  split; [|split].
  - unfold Txbatch.build_commitment. rewrite Hc, Ht, Hb, Hs, Hg. reflexivity.
  - unfold payload. rewrite !length_app, Lc, Hlen, Lb, Ls, Lg. reflexivity.
  - unfold payload. rewrite decode_preimage_parts by assumption.
    now rewrite Ec, Eb, Es, Eg.
Qed.

Lemma X1_preimage_reads_back_witness :
  Txbatch.build_commitment 1 Fixtures.tx1 100 1 21000 =
    Py.Ret ("0x" ++ Py.hex (Keccak.keccak256
              (spec_preimage 1 Fixtures.hash_bytes 100 1 21000))) /\
  List.length (spec_preimage 1 Fixtures.hash_bytes 100 1 21000) = 57%nat /\
  decode_preimage (spec_preimage 1 Fixtures.hash_bytes 100 1 21000) =
    (1, Fixtures.hash_bytes, 100, 1, 21000).
Proof.
  apply (X1_preimage_reads_back 1 Fixtures.tx1 100 1 21000
           (big_endian 8 1) Fixtures.hash_bytes (big_endian 8 100)
           (big_endian 1 1) (big_endian 8 21000));
    vm_compute; reflexivity.
Defined.

(** ** A well-formed hash always decodes *)

Lemma hex_digit_value c :
  Py.is_hex_digit c = true ->
  Py.is_c_space c = false /\ exists v, Py.hex_value c = Some v /\ 0 <= v < 16.
Proof.
  unfold Py.is_hex_digit, Py.hex_value, Py.is_c_space.
  set (n := Py.code c).
  destruct (Z.leb_spec 48 n), (Z.leb_spec n 57); cbn [andb];
    [intros _; split; [|eexists; split; [reflexivity|lia]]
    |destruct (Z.leb_spec 97 n), (Z.leb_spec n 102); cbn [andb];
      [intros _; split; [|eexists; split; [reflexivity|lia]]
      |destruct (Z.leb_spec 65 n), (Z.leb_spec n 70); cbn [andb];
        [intros _; split; [|eexists; split; [reflexivity|lia]]
        |discriminate..]..]..];
    destruct (Z.leb_spec 9 n), (Z.leb_spec n 13), (Z.eqb_spec n 32);
    cbn; try reflexivity; lia.
Qed.

Lemma fromhex_digits (n : nat) :
  forall d, String.length d = (2 * n)%nat -> Py.all_chars Py.is_hex_digit d = true ->
  exists bs, Py.fromhex d = Py.Ret bs /\ List.length bs = n /\ Forall is_byte bs.
Proof.
  induction n as [|n IH]; intros d Hlen Hall.
  - destruct d; [|discriminate]. exists []. now repeat split.
  - destruct d as [|c1 [|c2 rest]]; cbn [String.length] in Hlen; try lia.
    cbn [Py.all_chars] in Hall.
    apply andb_prop in Hall as [H1 Hall]. apply andb_prop in Hall as [H2 Hall].
    destruct (hex_digit_value _ H1) as [S1 (hi & E1 & B1)].
    destruct (hex_digit_value _ H2) as [_ (lo & E2 & B2)].
    destruct (IH rest) as (bs & E & L & F); [lia|assumption|].
    exists (16 * hi + lo :: bs).
    rewrite fromhex_cons, S1, E1, E2, E. repeat split.
    + cbn. now rewrite L.
    + constructor; [unfold is_byte; lia|assumption].
Qed.

Lemma well_formed_decodes h :
  well_formed h = true ->
  exists bs, Py.fromhex (Py.drop 2 h) = Py.Ret bs /\ List.length bs = 32%nat /\
             Forall is_byte bs.
Proof.
  intros H. apply well_formed_parts in H as (d & -> & Hlen & Hall).
  change (Py.drop 2 ("0x" ++ d)) with d.
  apply fromhex_digits; [rewrite Hlen; reflexivity|assumption].
Qed.

(** X2. A well-formed hash can always be committed to: for every string
    [h] made of [0x] and 64 hexadecimal digits, [bytes.fromhex(h[2:])]
    succeeds and gives exactly 32 bytes, so that [build_commitment] of
    txbatch.py and of txapp.py on [h] return the same commitment (0x and
    64 digits) for all field values that fit their widths, and raise
    nothing. *)
Theorem X2_well_formed_hash_is_committable :
  forall (h : string) (cid blk st gas : Z),
    well_formed h = true ->
    0 <= cid < 2 ^ 64 -> 0 <= blk < 2 ^ 64 -> 0 <= st < 2 ^ 8 -> 0 <= gas < 2 ^ 64 ->
    exists (hash : list Z) (out : string),
      Py.fromhex (Py.drop 2 h) = Py.Ret hash /\
      List.length hash = 32%nat /\
      Txbatch.build_commitment cid h blk st gas = Py.Ret out /\
      Txapp.build_commitment cid h blk st gas = Py.Ret out /\
      String.length out = 66%nat.
Proof.
  intros h cid blk st gas Hwf Hc Hb Hs Hg.
  destruct (well_formed_decodes _ Hwf) as (hash & E & L & _).
  assert (Hout : exists out, Txbatch.build_commitment cid h blk st gas = Py.Ret out).
  { eexists. apply build_commitment_returns. exists hash. repeat split; eauto; lia. }
  destruct Hout as [out Hout]. exists hash, out.
  split; [exact E|]. split; [exact L|]. split; [exact Hout|]. split.
  - now rewrite build_commitment_txapp_same.
  - eapply commitment_text_length; eassumption.
Qed.

Lemma X2_well_formed_hash_is_committable_witness :
  exists (hash : list Z) (out : string),
    Py.fromhex (Py.drop 2 Fixtures.tx1) = Py.Ret hash /\
    List.length hash = 32%nat /\
    Txbatch.build_commitment 1 Fixtures.tx1 100 1 21000 = Py.Ret out /\
    Txapp.build_commitment 1 Fixtures.tx1 100 1 21000 = Py.Ret out /\
    String.length out = 66%nat.
Proof.
  apply (X2_well_formed_hash_is_committable Fixtures.tx1 1 100 1 21000);
    [vm_compute; reflexivity | lia..].
Defined.

(** What [validate_tx_hash] accepts need not decode: the sign that
    [int(h[2:], 16)] lets through stops [bytes.fromhex]. *)
Example validated_hash_may_not_decode :
  Auditor.validate_tx_hash ("0x+" ++ Py.hex (repeat 171 31) ++ "a") = true /\
  Txbatch.build_commitment 1 ("0x+" ++ Py.hex (repeat 171 31) ++ "a") 100 1 21000 =
    Py.Raise (Py.ValueError "non-hexadecimal number found in fromhex() arg").
Proof. split; vm_compute; reflexivity. Qed.

(** ** The retry wrappers at their edges *)

Lemma range_empty lo hi : hi <= lo -> Py.range lo hi = [].
Proof.
  intros H. unfold Py.range. replace (Z.to_nat (hi - lo)) with 0%nat by lia. reflexivity.
Qed.

Lemma range_cons lo hi : lo < hi -> Py.range lo hi = lo :: Py.range (lo + 1) hi.
Proof.
  intros H. unfold Py.range.
  replace (Z.to_nat (hi - lo)) with (S (Z.to_nat (hi - (lo + 1)))) by lia.
  apply range_unfold.
Qed.


Section RetryEdges.
Context {W : Type}.
Import Py Eff.

(** One pass through the loop body of txapp.py's [safe_rpc_call]. *)
Lemma txapp_attempts_step {A} (func : M W A) retries delay attempt rest s :
  Txapp.safe_rpc_attempts func retries delay (attempt :: rest) s =
  match func s with
  | (Ret a, s1) => (Ret a, s1)
  | (Raise e, s1) =>
      if is_Exception e then
        if Qle_bool 0 delay then
          Txapp.safe_rpc_attempts func retries delay rest
            (logged s1 [EvStdout (LRetryWarning attempt retries (str_exn e));
                        EvSleep delay])
        else
          (Raise (ValueError "sleep length must be non-negative"),
           logged s1 [EvStdout (LRetryWarning attempt retries (str_exn e))])
      else (Raise e, s1)
  end.
Proof.
  cbn [Txapp.safe_rpc_attempts]. unfold bind at 1. unfold try_except, bind at 1.
  destruct (func s) as [[a | e] s1]; [reflexivity|].
  destruct (is_Exception e); [|reflexivity].
  unfold sleep. destruct (Qle_bool 0 delay);
    cbn; unfold logged; cbn; rewrite <- ?app_assoc; reflexivity.
Qed.



End RetryEdges.

(** X3. With [retries <= 0] neither retry wrapper calls the wrapped
    function at all. [safe_rpc_call] of txbatch.py then returns [None]
    without a message, whatever the function would have done;
    [safe_rpc_call] of txapp.py prints its last message and exits with
    status 2. *)
Theorem X3_no_retries_no_call :
  forall (W A : Type) (func : Eff.M W A) (retries : Z) (delay : Q) (s : Eff.state W),
    retries <= 0 ->
    Txbatch.safe_rpc_call func retries delay s = (Py.Ret None, s) /\
    Txapp.safe_rpc_call func retries delay s =
      (Py.Raise (Py.SystemExit 2), logged s [EvStdout (LRetryFailed retries EmptyString)]).
Proof.
  intros W A func retries delay s H.
  unfold Txbatch.safe_rpc_call, Txapp.safe_rpc_call.
  rewrite range_empty by lia. split; reflexivity.
Qed.

Lemma X3_no_retries_no_call_witness :
  Txbatch.safe_rpc_call
    (Eff.eth_get_transaction_receipt Fixtures.node_a Fixtures.tx1) 0 1 Fixtures.start =
    (Py.Ret None, Fixtures.start) /\
  Txapp.safe_rpc_call
    (Eff.eth_get_transaction_receipt Fixtures.node_a Fixtures.tx1) 0 1 Fixtures.start =
    (Py.Raise (Py.SystemExit 2),
     logged Fixtures.start [EvStdout (LRetryFailed 0 EmptyString)]).
Proof.
  apply (X3_no_retries_no_call nat (option Receipt)
           (Eff.eth_get_transaction_receipt Fixtures.node_a Fixtures.tx1) 0 1
           Fixtures.start).
  lia.
Defined.

(** X4. Neither retry wrapper retries an interrupt: when the wrapped
    function raises something that is not an [Exception]
    ([KeyboardInterrupt], [SystemExit]) at the first attempt, the wrapper
    lets it out at once, in the state the function left, without message
    and without sleep. *)
Theorem X4_interrupt_is_not_retried :
  forall (W A : Type) (func : Eff.M W A) (retries : Z) (delay : Q)
         (s s1 : Eff.state W) (e : Py.exn),
    1 <= retries ->
    func s = (Py.Raise e, s1) ->
    Py.is_Exception e = false ->
    Txbatch.safe_rpc_call func retries delay s = (Py.Raise e, s1) /\
    Txapp.safe_rpc_call func retries delay s = (Py.Raise e, s1).
Proof.
  intros W A func retries delay s s1 e Hr Hf He.
  unfold Txbatch.safe_rpc_call, Txapp.safe_rpc_call.
  rewrite range_cons by lia.
  rewrite safe_rpc_attempts_step, txapp_attempts_step, Hf, He. split; reflexivity.
Qed.

Lemma X4_interrupt_is_not_retried_witness :
  Txbatch.safe_rpc_call
    (Eff.eth_get_transaction_receipt Fixtures.node_interrupted Fixtures.tx1) 3 1
    Fixtures.start =
    (Py.Raise Py.KeyboardInterrupt,
     {| Eff.world := 1%nat;
        Eff.trace := [EvRpc "https://interrupted.example"
                        (GetTransactionReceipt Fixtures.tx1)] |}) /\
  Txapp.safe_rpc_call
    (Eff.eth_get_transaction_receipt Fixtures.node_interrupted Fixtures.tx1) 3 1
    Fixtures.start =
    (Py.Raise Py.KeyboardInterrupt,
     {| Eff.world := 1%nat;
        Eff.trace := [EvRpc "https://interrupted.example"
                        (GetTransactionReceipt Fixtures.tx1)] |}).
Proof.
  apply (X4_interrupt_is_not_retried nat (option Receipt)
           (Eff.eth_get_transaction_receipt Fixtures.node_interrupted Fixtures.tx1) 3 1
           Fixtures.start);
    [lia | reflexivity | reflexivity].
Defined.



Example txapp_retry_on_dead_provider :
  let out := Txapp.safe_rpc_call
               (Eff.eth_get_transaction_receipt Fixtures.node_down Fixtures.tx1) 3 1
               Fixtures.start in
  fst out = Py.Raise (Py.SystemExit 2) /\
  timing (Eff.trace (snd out)) =
    all_failed (EvRpc "https://down.example" (GetTransactionReceipt Fixtures.tx1))
      (EvSleep 1) 3.
Proof. split; vm_compute; reflexivity. Qed.

(** A negative delay: [time.sleep] raises [ValueError] after the warning
    of the first failed attempt, and that exception is what comes out of
    either wrapper; no second attempt is made. *)
Example negative_delay_stops_the_retry :
  Txbatch.safe_rpc_call
    (Eff.eth_get_transaction_receipt Fixtures.node_down Fixtures.tx1) 3 (-1) Fixtures.start =
    (Py.Raise (Py.ValueError "sleep length must be non-negative"),
     {| Eff.world := 1%nat;
        Eff.trace := [EvRpc "https://down.example" (GetTransactionReceipt Fixtures.tx1);
                      EvStderr (LRetryWarning 1 3 "timeout")] |}) /\
  Txapp.safe_rpc_call
    (Eff.eth_get_transaction_receipt Fixtures.node_down Fixtures.tx1) 3 (-1) Fixtures.start =
    (Py.Raise (Py.ValueError "sleep length must be non-negative"),
     {| Eff.world := 1%nat;
        Eff.trace := [EvRpc "https://down.example" (GetTransactionReceipt Fixtures.tx1);
                      EvStdout (LRetryWarning 1 3 "timeout")] |}).
Proof. split; vm_compute; reflexivity. Qed.

(** ** De-duplication and the hash file of txbatch.py *)

Lemma mem_In x xs : Py.mem x xs = true <-> In x xs.
Proof.
  unfold Py.mem. rewrite existsb_exists. split.
  - intros (y & Hy & E). apply String.eqb_eq in E. now subst.
  - intros H. exists x. split; [assumption|apply String.eqb_refl].
Qed.

Lemma mem_cons y h seen : Py.mem y (h :: seen) = (y =? h)%string || Py.mem y seen.
Proof. reflexivity. Qed.

Lemma mem_snoc y keys x : Py.mem y (keys ++ [x]) = Py.mem y keys || (y =? x)%string.
Proof. unfold Py.mem. rewrite existsb_app. cbn. now rewrite orb_false_r. Qed.

Lemma filter_filter {A} (f g : A -> bool) (l : list A) :
  filter f (filter g l) = filter (fun x => f x && g x) l.
Proof.
  induction l as [|a l IH]; [reflexivity|]. cbn.
  destruct (g a); cbn; [destruct (f a); cbn; now rewrite IH|].
  rewrite andb_false_r. exact IH.
Qed.

(** The loop of [load_hashes], from any point of its run. *)
Lemma dedup_first_occurrences hashes :
  forall seen unique,
    Txbatch.dedup hashes seen unique =
    (unique ++ filter (fun y => negb (Py.mem y seen)) (first_occurrences hashes))%list.
Proof.
  induction hashes as [|h rest IH]; intros seen unique.
  - cbn. now rewrite app_nil_r.
  - cbn [Txbatch.dedup first_occurrences filter].
    destruct (Py.mem h seen) eqn:Hm; cbn [negb]; rewrite IH, filter_filter.
    + f_equal. apply filter_ext. intros y.
      destruct (String.eqb_spec y h) as [-> | _]; [now rewrite Hm|].
      now rewrite andb_true_r.
    + rewrite <- app_assoc. cbn [app]. do 2 f_equal. apply filter_ext. intros y.
      rewrite mem_cons, negb_orb. apply andb_comm.
Qed.

(** The same for the insertions of [dict.fromkeys]. *)
Lemma fromkeys_first_occurrences xs :
  forall keys,
    fold_left (fun keys x => if Py.mem x keys then keys else (keys ++ [x])%list) xs keys =
    (keys ++ filter (fun y => negb (Py.mem y keys)) (first_occurrences xs))%list.
Proof.
  induction xs as [|x rest IH]; intros keys.
  - cbn. now rewrite app_nil_r.
  - cbn [fold_left first_occurrences filter].
    destruct (Py.mem x keys) eqn:Hm; cbn [negb]; rewrite IH, filter_filter.
    + f_equal. apply filter_ext. intros y.
      destruct (String.eqb_spec y x) as [-> | _]; [now rewrite Hm|].
      now rewrite andb_true_r.
    + rewrite <- app_assoc. cbn [app]. do 2 f_equal. apply filter_ext. intros y.
      now rewrite mem_snoc, negb_orb.
Qed.

Lemma first_occurrences_In x xs : In x (first_occurrences xs) <-> In x xs.
Proof.
  induction xs as [|a rest IH]; [reflexivity|].
  cbn [first_occurrences In]. rewrite filter_In, IH. split.
  - intros [H | [H _]]; auto.
  - intros [H | H]; [now left|].
    destruct (String.eqb_spec x a) as [-> | _]; [now left|right; now split].
Qed.

Lemma first_occurrences_NoDup xs : NoDup (first_occurrences xs).
Proof.
  induction xs as [|a rest IH]; [constructor|].
  cbn [first_occurrences]. constructor.
  - rewrite filter_In. intros [_ H]. now rewrite String.eqb_refl in H.
  - now apply NoDup_filter.
Qed.

Lemma first_occurrences_fixed xs : NoDup xs -> first_occurrences xs = xs.
Proof.
  induction 1 as [|a rest Hnot _ IH]; [reflexivity|].
  cbn [first_occurrences]. rewrite IH. f_equal.
  apply forallb_filter_id. apply forallb_forall. intros y Hy.
  destruct (String.eqb_spec y a) as [-> | _]; [contradiction|reflexivity].
Qed.

Lemma dedup_is_first_occurrences hashes :
  Txbatch.dedup hashes [] [] = first_occurrences hashes.
Proof.
  rewrite dedup_first_occurrences. cbn [app].
  apply forallb_filter_id. apply forallb_forall. reflexivity.
Qed.

Lemma fromkeys_is_first_occurrences xs : Py.dict_fromkeys xs = first_occurrences xs.
Proof.
  unfold Py.dict_fromkeys. rewrite fromkeys_first_occurrences. cbn [app].
  apply forallb_filter_id. apply forallb_forall. reflexivity.
Qed.

(** X6. The de-duplication loop of [load_hashes] (txbatch.py) and
    [list(dict.fromkeys(hashes))] (tx_batch_auditor.py) compute the same
    list: every string of the input at its first occurrence, later
    repetitions dropped. The result has no duplicates and the same
    members as the input; an input without duplicates comes back
    unchanged, order included, so that de-duplicating twice changes
    nothing. *)
Theorem X6_dedup_keeps_first_occurrences :
  forall hashes : list string,
    let unique := Txbatch.dedup hashes [] [] in
    unique = first_occurrences hashes /\
    Py.dict_fromkeys hashes = unique /\
    NoDup unique /\
    (forall h, In h unique <-> In h hashes) /\
    (NoDup hashes -> unique = hashes) /\
    Txbatch.dedup unique [] [] = unique.
Proof.
  intros hashes unique. subst unique. rewrite !dedup_is_first_occurrences.
  split; [reflexivity|]. split; [apply fromkeys_is_first_occurrences|].
  split; [apply first_occurrences_NoDup|].
  split; [intros h; apply first_occurrences_In|].
  split; [apply first_occurrences_fixed|].
  apply first_occurrences_fixed, first_occurrences_NoDup.
Qed.

Lemma file_hashes_In h lines :
  In h (Txbatch.file_hashes lines) <->
  exists line, In line lines /\ h = Py.strip line /\ h <> EmptyString /\
               Py.startswith h "#" = false.
Proof.
  induction lines as [|l rest IH].
  - cbn. split; [contradiction|]. now intros (line & [] & _).
  - cbn [Txbatch.file_hashes].
    destruct (String.eqb_spec (Py.strip l) EmptyString) as [E | E]; cbn [orb].
    + rewrite IH. split.
      * intros (line & Hin & Hrest). exists line. split; [now right|assumption].
      * intros (line & [<- | Hin] & Hs & Hne & Hc); [congruence|].
        exists line. auto.
    + destruct (Py.startswith (Py.strip l) "#") eqn:Hc.
      * rewrite IH. split.
        -- intros (line & Hin & Hrest). exists line. split; [now right|assumption].
        -- intros (line & [<- | Hin] & Hs & Hne & Hc'); [congruence|].
           exists line. auto.
      * cbn [In]. rewrite IH. split.
        -- intros [<- | (line & Hin & Hrest)].
           ++ exists l. repeat split; auto.
           ++ exists line. split; [now right|assumption].
        -- intros (line & [<- | Hin] & Hs & Hne & Hc'); [now left|].
           right. exists line. auto.
Qed.

(** X7. [load_hashes] of txbatch.py ends in one of three ways, and in none
    of them is a provider contacted. When the input can be read (no file
    is given, or the file, or standard input for [-], gives lines of
    text), it returns, having written nothing: its result has no
    duplicates, and its members are exactly the [--tx] arguments, as they
    were given, and the stripped lines that are neither blank nor
    comments. When the file cannot be opened it names the file on standard
    error and exits with status 1. When the file opens but is not valid
    UTF-8 text (or standard input is not), the [UnicodeDecodeError] of the
    read goes out of [load_hashes], nothing written. *)
Theorem X7_load_hashes_members :
  forall (W : Type) (env : Txbatch.Env W) (args : Txbatch.Args) (s : Eff.state W),
    match read_input env args with
    | Text lines =>
        exists unique,
          Txbatch.load_hashes env args s = (Py.Ret unique, s) /\
          NoDup unique /\
          forall h,
            In h unique <->
            In h (Txbatch.a_tx args) \/
            exists line, In line lines /\ h = Py.strip line /\
                         h <> EmptyString /\ Py.startswith h "#" = false
    | CannotOpen =>
        exists path,
          Txbatch.a_file args = Some path /\
          Txbatch.load_hashes env args s =
            (Py.Raise (Py.SystemExit 1), logged s [EvStderr (LFileError path)])
    | NotText =>
        exists msg,
          Txbatch.load_hashes env args s = (Py.Raise (Py.UnicodeDecodeError msg), s)
    end.
Proof.
  intros W env args s. unfold Txbatch.load_hashes, read_input.
  assert (Hok : forall lines,
    let unique := Txbatch.dedup (Txbatch.a_tx args ++ Txbatch.file_hashes lines) [] [] in
    NoDup unique /\
    forall h, In h unique <->
      In h (Txbatch.a_tx args) \/
      exists line, In line lines /\ h = Py.strip line /\ h <> EmptyString /\
                   Py.startswith h "#" = false).
  { intros lines unique. subst unique. rewrite dedup_is_first_occurrences.
    split; [apply first_occurrences_NoDup|].
    intros h. now rewrite first_occurrences_In, in_app_iff, file_hashes_In. }
  destruct (Txbatch.a_file args) as [path|].
  - destruct (String.eqb_spec path EmptyString) as [-> | Hne].
    + eexists. split; [reflexivity|]. exact (Hok []).
    + destruct (String.eqb_spec path "-") as [-> | Hnd].
      * destruct (Txbatch.stdin env) as [lines|].
        -- eexists. split; [reflexivity|]. exact (Hok lines).
        -- eexists. reflexivity.
      * destruct (Txbatch.open_file env path) as [| |lines] eqn:Hopen.
        -- exists path. split; reflexivity.
        -- eexists. reflexivity.
        -- eexists. split; [reflexivity|]. exact (Hok lines).
  - eexists. split; [reflexivity|]. exact (Hok []).
Qed.

(** The file of the examples: the comment and the blank line are skipped,
    the hash is kept once. A file that is no text stops the script. *)
Example load_hashes_of_example :
  Txbatch.load_hashes (Fixtures.batch_file_env "https://a.example")
    (Fixtures.batch_file_args "hashes.txt") Fixtures.start =
  (Py.Ret [Fixtures.tx1], Fixtures.start) /\
  Txbatch.main (Fixtures.batch_file_env "https://a.example")
    (Fixtures.batch_file_args "photo.jpg") Fixtures.start =
  (Py.Raise (Py.UnicodeDecodeError "'utf-8' codec can't decode the input"),
   Fixtures.start).
Proof. split; vm_compute; reflexivity. Qed.

(** ** Blank lines and comments in the input of tx_batch_auditor.py *)

Lemma comment_is_no_hash h :
  Py.startswith h "#" = true ->
  h <> EmptyString /\ Auditor.validate_tx_hash h = false.
Proof.
  destruct h as [|c rest]; [discriminate|]. cbn [Py.startswith]. intros H.
  apply andb_prop in H as [H _]. apply Ascii.eqb_eq in H. subst c.
  split; [discriminate | reflexivity].
Qed.

Lemma auditor_main_empty {W : Type} (env : Auditor.Env W) args (s : Eff.state W) :
  input_hashes env args = Some [] ->
  Auditor.main env args s =
  (Py.Raise (Py.SystemExit 1), logged s [EvStderr LNoHashes]).
Proof.
  unfold input_hashes, Auditor.main. intros Hin. rewrite bind_run.
  assert (Hrun : exists raw,
             (match Auditor.truthy (Auditor.a_file args) with
              | Some path => Auditor.read_hashes_from_file env path
              | None => Eff.ret (Auditor.a_txs args)
              end) s = (Py.Ret raw, s) /\
             Py.dict_fromkeys (Auditor.stripped raw) = []).
  { destruct (Auditor.truthy (Auditor.a_file args)) as [path|].
    - unfold Auditor.read_hashes_from_file.
      destruct (Auditor.open_file env path) as [lines|]; [|discriminate].
      injection Hin as Hin. eexists. split; [reflexivity|exact Hin].
    - injection Hin as Hin. eexists. split; [reflexivity|exact Hin]. }
  destruct Hrun as (raw & -> & Hraw). cbv zeta. rewrite Hraw. reflexivity.
Qed.

(** X8. A comment in the input ends the run of tx_batch_auditor.py. Its
    file reader keeps every line that is not blank, so a line that starts
    with [#] (after stripping) reaches the validation, which rejects it:
    [main] names it among the invalid hashes on standard error and exits
    with status 1, having contacted no provider, whatever else the input
    holds. The reader of txbatch.py skips the same line. *)
Theorem X8_auditor_comment_line_aborts :
  forall (W : Type) (env : Auditor.Env W) (args : Auditor.Args)
         (lines : list string) (line : string) (s : Eff.state W),
    given_lines env args = Some lines ->
    In line lines ->
    Py.startswith (Py.strip line) "#" = true ->
    In (Py.strip line) (bad_hashes lines) /\
    Auditor.main env args s =
      (Py.Raise (Py.SystemExit 1), logged s [EvStderr (LInvalidHashes (bad_hashes lines))]) /\
    ~ In (Py.strip line) (Txbatch.file_hashes lines).
Proof.
  intros W env args lines line s Hgiven Hin Hc.
  destruct (comment_is_no_hash _ Hc) as (Hne & Hval).
  assert (Hbad : In (Py.strip line) (bad_hashes lines)).
  { unfold bad_hashes. rewrite filter_In, Hval. split; [|reflexivity].
    rewrite fromkeys_is_first_occurrences, first_occurrences_In, stripped_In.
    exists line. auto. }
  split; [exact Hbad|]. split.
  - apply auditor_main_rejects.
    + rewrite input_hashes_given, Hgiven. reflexivity.
    + fold (bad_hashes lines). intros E. now rewrite E in Hbad.
  - rewrite file_hashes_In. intros (l & _ & _ & _ & Hno). congruence.
Qed.

Lemma X8_auditor_comment_line_aborts_witness :
  In "# transfers of today" (bad_hashes Fixtures.hashes_txt) /\
  Auditor.main Fixtures.auditor_file_env
    (Fixtures.auditor_file_args "https://a.example" "hashes.txt") Fixtures.start =
    (Py.Raise (Py.SystemExit 1),
     logged Fixtures.start [EvStderr (LInvalidHashes (bad_hashes Fixtures.hashes_txt))]) /\
  ~ In "# transfers of today" (Txbatch.file_hashes Fixtures.hashes_txt).
Proof.
  apply (X8_auditor_comment_line_aborts nat Fixtures.auditor_file_env
           (Fixtures.auditor_file_args "https://a.example" "hashes.txt")
           Fixtures.hashes_txt "# transfers of today" Fixtures.start);
    [reflexivity | left; reflexivity | reflexivity].
Defined.

(** X9. Input that holds nothing but blank strings (or nothing at all)
    ends the run of tx_batch_auditor.py at once: [main] says on standard
    error that no hashes were provided and exits with status 1; no
    provider is contacted and nothing is written to standard output. *)
Theorem X9_auditor_blank_input_exits :
  forall (W : Type) (env : Auditor.Env W) (args : Auditor.Args)
         (lines : list string) (s : Eff.state W),
    given_lines env args = Some lines ->
    Forall (fun l => Py.strip l = EmptyString) lines ->
    Auditor.main env args s =
      (Py.Raise (Py.SystemExit 1), logged s [EvStderr LNoHashes]).
Proof.
  intros W env args lines s Hgiven Hblank.
  apply auditor_main_empty. rewrite input_hashes_given, Hgiven. cbn [option_map].
  f_equal. rewrite fromkeys_is_first_occurrences.
  assert (E : Auditor.stripped lines = []).
  { clear Hgiven. unfold Auditor.stripped.
    induction Hblank as [|l rest Hl _ IH]; [reflexivity|].
    cbn [map filter]. rewrite Hl. exact IH. }
  now rewrite E.
Qed.

Lemma X9_auditor_blank_input_exits_witness :
  Auditor.main Fixtures.auditor_env
    (Fixtures.auditor_args "https://a.example" None ["  "; ""] 0) Fixtures.start =
    (Py.Raise (Py.SystemExit 1), logged Fixtures.start [EvStderr LNoHashes]).
Proof.
  apply (X9_auditor_blank_input_exits nat Fixtures.auditor_env
           (Fixtures.auditor_args "https://a.example" None ["  "; ""] 0)
           ["  "; ""] Fixtures.start);
    [reflexivity | repeat constructor].
Defined.

(** ** The two hash parsers, and what they make of txbatch.py *)

(** X10. [parse_tx_hash] of txapp.py and [parse_tx_hash] of txbatch.py
    return no hash. Both strip the string and put [0x] in front when it is
    missing. When that form does not have 66 characters, txbatch.py
    returns [None], and txapp.py prints a message on standard output and
    exits with status 1. When it has 66 characters, both go on to
    evaluate [Web3.is_hex], an attribute the class [Web3] does not have,
    and raise [AttributeError], whatever the 66 characters are. *)
Theorem X10_parsers_return_no_hash :
  forall (W : Type) (raw : string) (s : Eff.state W),
    if hash_length raw then
      Txbatch.parse_tx_hash raw = Py.Raise no_is_hex /\
      Txapp.parse_tx_hash raw s = (Py.Raise no_is_hex, s)
    else
      Txbatch.parse_tx_hash raw = Py.Ret None /\
      Txapp.parse_tx_hash raw s =
        (Py.Raise (Py.SystemExit 1), logged s [EvStdout (LInvalidHash raw)]).
Proof.
  intros W raw s. rewrite parse_tx_hash_run.
  unfold Txapp.parse_tx_hash, hash_length, normal_form. cbv zeta.
  destruct (Py.startswith (Py.strip raw) "0x"); cbn [negb];
    match goal with |- context [Py.len ?h =? 66] => destruct (Py.len h =? 66) end;
    split; reflexivity.
Qed.

(** A well-formed hash, and the same digits without the prefix. *)
Example parsers_on_a_well_formed_hash :
  Txbatch.parse_tx_hash Fixtures.tx1 = Py.Raise no_is_hex /\
  Txbatch.parse_tx_hash (Py.drop 2 Fixtures.tx1) = Py.Raise no_is_hex /\
  Txapp.parse_tx_hash Fixtures.tx1 Fixtures.start = (Py.Raise no_is_hex, Fixtures.start) /\
  Txbatch.parse_tx_hash "0x1234" = Py.Ret None.
Proof. repeat split; vm_compute; reflexivity. Qed.




(** One well-formed hash on the command line: the script stops in
    [parse_tx_hash], before it prints or connects. *)
Example txbatch_on_a_well_formed_hash :
  Txbatch.main (Fixtures.batch_env "https://a.example" (Some "https://b.example"))
    (Fixtures.batch_args [Fixtures.tx1]) Fixtures.start =
  (Py.Raise no_is_hex, Fixtures.start).
Proof. vm_compute. reflexivity. Qed.

(** ** tx_batch_auditor.py: the cap, the calls of one audit, agreement *)

(** X11. The cap of tx_batch_auditor.py keeps a prefix of the hashes: the
    first [max] of them when [max] is positive (all of them when there are
    fewer), and all of them when [max] is zero or negative. The order is
    kept, and nothing is added. *)
Theorem X11_cap_keeps_a_prefix :
  forall (max : Z) (hashes : list string),
    let kept := Auditor.cap max hashes in
    (exists rest, hashes = (kept ++ rest)%list) /\
    (max <= 0 -> kept = hashes) /\
    (0 < max ->
     kept = firstn (Z.to_nat max) hashes /\
     Z.of_nat (List.length kept) = Z.min max (Z.of_nat (List.length hashes))).
Proof.
  intros max hashes kept. subst kept. unfold Auditor.cap.
  destruct (Z.ltb_spec 0 max) as [Hpos | Hneg]; cbn [andb].
  - destruct (Z.ltb_spec max (Z.of_nat (List.length hashes))) as [Hlong | Hshort].
    + split; [exists (skipn (Z.to_nat max) hashes); now rewrite firstn_skipn|].
      split; [lia|]. intros _. split; [reflexivity|].
      rewrite length_firstn. lia.
    + split; [exists []; now rewrite app_nil_r|].
      split; [reflexivity|]. intros _. split; [|lia].
      symmetry. apply firstn_all2. lia.
  - split; [exists []; now rewrite app_nil_r|]. split; [reflexivity|]. lia.
Qed.

Section AuditCalls.
Context {W : Type}.
Import Py Eff.




End AuditCalls.


(** A flaky provider is asked once by [audit_tx]: its time-out becomes the
    record's error, where txbatch.py would have retried twice. *)
Example audit_tx_does_not_retry :
  Auditor.audit_tx Fixtures.tx1 Fixtures.node_flaky None Fixtures.start =
  (Py.Ret {| r_txHash := Fixtures.tx1; r_primary := None; r_secondary := None;
             r_match := None; r_errorPrimary := Some "timeout";
             r_errorSecondary := None |},
   {| Eff.world := 1%nat;
      Eff.trace := [receipt_call Fixtures.node_flaky Fixtures.tx1] |}).
Proof. vm_compute. reflexivity. Qed.

(** X13. When both providers give a commitment record for a hash and the
    two records agree on chain id, block number, status and gas used,
    [audit_tx] reports a match: both records are attached, no error is
    recorded, and [match] is [True]. Hence a record with [match] [False]
    means that one of the four fields differs. *)
Theorem X13_agreeing_providers_match :
  forall (W : Type) (tx : string) (p w3s : Eff.Web3 W) (s s1 s2 : Eff.state W)
         (cp cs : Commit),
    Auditor.build_commitment p tx s = (Py.Ret cp, s1) ->
    Auditor.build_commitment w3s tx s1 = (Py.Ret cs, s2) ->
    c_chainId cp = c_chainId cs ->
    c_blockNumber cp = c_blockNumber cs ->
    c_status cp = c_status cs ->
    c_gasUsed cp = c_gasUsed cs ->
    Auditor.audit_tx tx p (Some w3s) s =
    (Py.Ret {| r_txHash := tx; r_primary := Some cp; r_secondary := Some cs;
               r_match := Some true; r_errorPrimary := None;
               r_errorSecondary := None |}, s2).
Proof.
  intros W tx p w3s s s1 s2 cp cs Hp Hs Hc Hb Hst Hg.
  assert (Hsame : c_commitment cp = c_commitment cs).
  { destruct (auditor_build_commitment_ok p tx s) as [_ Okp].
    destruct (auditor_build_commitment_ok w3s tx s1) as [_ Oks].
    rewrite Hp in Okp. rewrite Hs in Oks. cbn in Okp, Oks.
    unfold commit_ok in Okp, Oks. rewrite Hc, Hb, Hst, Hg, Oks in Okp.
    injection Okp as E. exact (eq_sym E). }
  unfold Auditor.audit_tx.
  rewrite bind_run, audit_provider_run, Hp, bind_run, audit_provider_run, Hs.
  cbn. rewrite Hsame, String.eqb_refl. reflexivity.
Qed.

Lemma X13_agreeing_providers_match_witness :
  exists (cp cs : Commit) (s2 : Eff.state nat),
    Auditor.audit_tx Fixtures.tx1 Fixtures.node_a (Some Fixtures.node_c) Fixtures.start =
    (Py.Ret {| r_txHash := Fixtures.tx1; r_primary := Some cp; r_secondary := Some cs;
               r_match := Some true; r_errorPrimary := None;
               r_errorSecondary := None |}, s2).
Proof.
  eexists. eexists. eexists.
  eapply (X13_agreeing_providers_match nat Fixtures.tx1 Fixtures.node_a Fixtures.node_c
            Fixtures.start);
    [vm_compute; reflexivity | vm_compute; reflexivity | reflexivity..].
Defined.

(** ** tx_batch_auditor.py: an interrupt, and a provider without words *)

(** X14. An interrupt during the audit discards the whole batch. When the
    hashes of the input are well-formed, the providers connect and agree
    on the chain id, and the user interrupts the primary provider's
    receipt request, the run of tx_batch_auditor.py ends with exit status
    1 right after that request for the first hash of the input: the last
    thing it writes is the abort message on standard error, it has written
    nothing on standard output, and no report is printed. *)
Theorem X14_interrupt_aborts_the_batch :
  forall (W : Type) (env : Auditor.Env W) (args : Auditor.Args) (lines : list string)
         (c : Z) (s : Eff.state W),
    let hashes := Py.dict_fromkeys (Auditor.stripped lines) in
    let p := Auditor.network env (Auditor.a_rpc1 args) in
    let sec := option_map (Auditor.network env) (Auditor.truthy (Auditor.a_rpc2 args)) in
    given_lines env args = Some lines ->
    hashes <> [] ->
    Forall (fun h => Auditor.validate_tx_hash h = true) hashes ->
    connects p -> reports p c ->
    (forall w3, sec = Some w3 -> connects w3 /\ reports w3 c) ->
    (forall h w, fst (Eff.get_transaction_receipt p h w) = Py.Raise Py.KeyboardInterrupt) ->
    exists (h0 : string) (evs : list event) (s' : Eff.state W),
      hd_error hashes = Some h0 /\
      Auditor.entry env args s = (Py.Raise (Py.SystemExit 1), s') /\
      Eff.trace s' = (Eff.trace s ++ evs ++ [receipt_call p h0; EvStderr LAborted])%list /\
      Forall no_audit evs.
Proof.
  intros W env args lines c s hashes p sec Hgiven Hne Hvalid Hconn Hrep Hsec Hint.
  destruct (main_reaches_check env args lines s Hgiven Hne Hvalid Hconn
              (fun w3 H => proj1 (Hsec w3 H)))
    as (s1 & evs1 & Htr1 & Hno1 & Hmain).
  fold hashes p sec in Hmain.
  destruct (check_chain_ids_agree_run p sec c s1 Hrep (fun w3 H => proj2 (Hsec w3 H)))
    as (s2 & evs2 & Hcheck & Htr2 & Hno2).
  pose proof (cap_hd (Auditor.a_max args) hashes) as Hhd.
  destruct (Auditor.cap (Auditor.a_max args) hashes) as [|h0 rest] eqn:Hcap.
  { destruct hashes; [contradiction | discriminate Hhd]. }
  unfold Auditor.entry, Eff.try_except. rewrite Hmain, bind_run, Hcheck, bind_run.
  cbn [Auditor.audit_all]. rewrite bind_run.
  rewrite (audit_tx_interrupted h0 p sec s2 Py.KeyboardInterrupt (Hint h0 _) eq_refl).
  exists h0, (evs1 ++ evs2)%list. eexists. split; [now rewrite <- Hhd|].
  split; [reflexivity|].
  split; [cbn; rewrite Htr2, Htr1, <- !app_assoc; reflexivity|].
  apply Forall_app; now split.
Qed.

Lemma X14_interrupt_aborts_the_batch_witness :
  exists (h0 : string) (evs : list event) (s' : Eff.state nat),
    hd_error (Py.dict_fromkeys (Auditor.stripped Fixtures.batch_txt)) = Some h0 /\
    Auditor.entry Fixtures.auditor_file_env
      (Fixtures.auditor_file_args "https://interrupted.example" "batch.txt")
      Fixtures.start = (Py.Raise (Py.SystemExit 1), s') /\
    Eff.trace s' =
      (Eff.trace Fixtures.start ++ evs ++
         [receipt_call Fixtures.node_interrupted h0; EvStderr LAborted])%list /\
    Forall no_audit evs.
Proof.
  apply (X14_interrupt_aborts_the_batch nat Fixtures.auditor_file_env
           (Fixtures.auditor_file_args "https://interrupted.example" "batch.txt")
           Fixtures.batch_txt 1 Fixtures.start).
  - reflexivity.
  - vm_compute. discriminate.
  - change (Py.dict_fromkeys (Auditor.stripped Fixtures.batch_txt)) with [Fixtures.tx1].
    constructor; [vm_compute; reflexivity | constructor].
  - intros w. reflexivity.
  - intros w. reflexivity.
  - intros w3 H. discriminate H.
  - intros h w. reflexivity.
Defined.

(** X15. A provider error without a message crashes the human-readable
    report. When the primary receipt request raises an [Exception] whose
    text is empty, the record [audit_tx] returns has no primary commitment
    and the empty string as its primary error; the report's test
    [if res["errorPrimary"]] takes that for no error, goes on to read the
    missing primary record, and raises [TypeError] right after printing
    the record's hash line. *)
Theorem X15_silent_error_breaks_the_report :
  forall (W : Type) (tx : string) (p : Eff.Web3 W) (sec : option (Eff.Web3 W))
         (s s' s2 : Eff.state W) (e : Py.exn) (r : AuditResult) (rest : list AuditResult),
    fst (Eff.get_transaction_receipt p tx (Eff.world s)) = Py.Raise e ->
    Py.is_Exception e = true ->
    Py.str_exn e = EmptyString ->
    Auditor.audit_tx tx p sec s = (Py.Ret r, s') ->
    r_primary r = None /\
    r_errorPrimary r = Some EmptyString /\
    Auditor.render sec (r :: rest) s2 =
      (Py.Raise (Py.TypeError "'NoneType' object is not subscriptable"),
       logged s2 [EvStdout (LResultHash tx)]).
Proof.
  intros W tx p sec s s' s2 e r rest Hraise HE Hstr Haudit.
  destruct (audit_tx_primary_error tx p sec s e r s' Hraise HE Haudit)
    as (Htx & Hprim & Herr).
  rewrite Hstr in Herr. split; [exact Hprim|]. split; [exact Herr|].
  cbn [Auditor.render]. rewrite bind_run. cbn [Eff.print Eff.emit].
  rewrite Herr, Hprim, Htx. reflexivity.
Qed.

Lemma X15_silent_error_breaks_the_report_witness :
  exists r : AuditResult,
    r_primary r = None /\
    r_errorPrimary r = Some EmptyString /\
    Auditor.render None [r] Fixtures.start =
      (Py.Raise (Py.TypeError "'NoneType' object is not subscriptable"),
       logged Fixtures.start [EvStdout (LResultHash Fixtures.tx1)]).
Proof.
  eexists.
  eapply (X15_silent_error_breaks_the_report nat Fixtures.tx1 Fixtures.node_silent None
            Fixtures.start _ Fixtures.start (Py.ProviderException EmptyString) _ []);
    reflexivity.
Defined.

(** X16. The human-readable report prints every record it is given, in
    order, and returns, provided each record's primary error, if there is
    one, has a message (or its primary commitment is there). What it
    writes goes to standard output only: it contacts no provider and
    writes nothing on standard error; the hash lines among it name the
    audited hashes, one line per record. *)
Theorem X16_report_prints_every_record :
  forall (W : Type) (sec : option (Eff.Web3 W)) (results : list AuditResult)
         (s : Eff.state W),
    Forall printable results ->
    exists evs,
      Auditor.render sec results s = (Py.Ret tt, logged s evs) /\
      Forall on_stdout evs /\
      result_hashes evs = map r_txHash results.
Proof.
  intros W sec results s H. now apply render_printable.
Qed.

Lemma X16_report_prints_every_record_witness :
  exists evs,
    Auditor.render (Some Fixtures.node_b)
      [{| r_txHash := Fixtures.tx1; r_primary := None; r_secondary := None;
          r_match := None; r_errorPrimary := Some "timeout";
          r_errorSecondary := None |}] Fixtures.start =
      (Py.Ret tt, logged Fixtures.start evs) /\
    Forall on_stdout evs /\
    result_hashes evs = [Fixtures.tx1].
Proof.
  apply (X16_report_prints_every_record nat (Some Fixtures.node_b)
           [{| r_txHash := Fixtures.tx1; r_primary := None; r_secondary := None;
               r_match := None; r_errorPrimary := Some "timeout";
               r_errorSecondary := None |}] Fixtures.start).
  constructor; [|constructor]. left. discriminate.
Defined.

(** ** txbatch.py: what [fetch_bundle] makes of the provider's answers *)

Section FetchBundle.
Context {W : Type}.
Import Py Eff.

(** The two requests at the head of [fetch_bundle], answered at once. *)
Lemma fetch_pair_first_answers (w3 : Web3 W) txh s rcpt tx w1 w2 :
  get_transaction_receipt w3 txh (world s) = (Ret rcpt, w1) ->
  get_transaction w3 txh w1 = (Ret tx, w2) ->
  bind (Txbatch.safe_rpc_call (eth_get_transaction_receipt w3 txh) 3 1)
    (fun rcpt => bind (Txbatch.safe_rpc_call (eth_get_transaction w3 txh) 3 1)
                   (fun tx => ret (rcpt, tx))) s =
  (Ret (Some rcpt, Some tx),
   {| world := w2;
      trace := (trace s ++ [receipt_call w3 txh; EvRpc (uri w3) (GetTransaction txh)])%list |}).
Proof.
  intros Hr Ht. rewrite bind_run. unfold eth_get_transaction_receipt.
  rewrite (safe_rpc_call_first_answer w3 _ _ 3 1 s rcpt w1) by (lia || exact Hr).
  rewrite bind_run. unfold eth_get_transaction.
  erewrite (safe_rpc_call_first_answer w3 _ _ 3 1 _ tx w2) by (lia || exact Ht).
  cbn [ret world trace]. now rewrite <- app_assoc.
Qed.

Lemma fetch_bundle_no_receipt (w3 : Web3 W) txh s tx w1 w2 :
  get_transaction_receipt w3 txh (world s) = (Ret None, w1) ->
  get_transaction w3 txh w1 = (Ret tx, w2) ->
  Txbatch.fetch_bundle w3 txh s =
  (Raise (RuntimeError "receipt is None (tx pending or unknown)"),
   {| world := w2;
      trace := (trace s ++ [receipt_call w3 txh; EvRpc (uri w3) (GetTransaction txh)])%list |}).
Proof.
  intros Hr Ht. unfold Txbatch.fetch_bundle. rewrite bind_run. unfold try_except at 1.
  rewrite (fetch_pair_first_answers w3 txh s None tx w1 w2 Hr Ht). reflexivity.
Qed.

End FetchBundle.

(** X17. A transaction without a receipt is counted as failed. When the
    provider answers the receipt request with [None] (the transaction is
    pending or unknown to it) and then answers the transaction request,
    [fetch_bundle] raises [RuntimeError] after these two calls, without
    retry and without asking for the chain id. The loop of [main] reports
    it as an error on the primary provider on standard error and adds one
    to [failed]: not to [pending] and not to [not_found]. No row is
    printed and the secondary provider is not asked about the hash. *)
Theorem X17_missing_receipt_counts_as_failed :
  forall (W : Type) (w3 : Eff.Web3 W) (w3b : option (Eff.Web3 W)) (txh : string)
         (rest : list string) (c : Txbatch.Counters) (s : Eff.state W)
         (tx : option Transaction) (w1 w2 : W),
    Eff.get_transaction_receipt w3 txh (Eff.world s) = (Py.Ret None, w1) ->
    Eff.get_transaction w3 txh w1 = (Py.Ret tx, w2) ->
    let msg := "receipt is None (tx pending or unknown)" in
    let s1 := {| Eff.world := w2;
                 Eff.trace := (Eff.trace s ++
                                 [receipt_call w3 txh;
                                  EvRpc (Eff.uri w3) (GetTransaction txh)])%list |} in
    Txbatch.fetch_bundle w3 txh s = (Py.Raise (Py.RuntimeError msg), s1) /\
    Txbatch.audit_loop w3 w3b (txh :: rest) c s =
    Txbatch.audit_loop w3 w3b rest
      {| Txbatch.success_count := Txbatch.success_count c;
         Txbatch.fail_count := Txbatch.fail_count c + 1;
         Txbatch.pending_count := Txbatch.pending_count c;
         Txbatch.not_found_count := Txbatch.not_found_count c;
         Txbatch.mismatch_count := Txbatch.mismatch_count c |}
      (logged s1 [EvStderr (LErrorPrimary txh msg)]).
Proof.
  intros W w3 w3b txh rest c s tx w1 w2 Hr Ht msg s1.
  pose proof (fetch_bundle_no_receipt w3 txh s tx w1 w2 Hr Ht) as Hf.
  split; [exact Hf|]. rewrite audit_loop_step, Hf. reflexivity.
Qed.

Lemma X17_missing_receipt_counts_as_failed_witness :
  Txbatch.fetch_bundle Fixtures.node_pending Fixtures.tx1 Fixtures.start =
    (Py.Raise (Py.RuntimeError "receipt is None (tx pending or unknown)"),
     {| Eff.world := 2%nat;
        Eff.trace := (Eff.trace Fixtures.start ++
                        [receipt_call Fixtures.node_pending Fixtures.tx1;
                         EvRpc (Eff.uri Fixtures.node_pending)
                           (GetTransaction Fixtures.tx1)])%list |}) /\
  Txbatch.audit_loop Fixtures.node_pending (Some Fixtures.node_a) [Fixtures.tx1]
    zero_counters Fixtures.start =
  Txbatch.audit_loop Fixtures.node_pending (Some Fixtures.node_a) []
    {| Txbatch.success_count := Txbatch.success_count zero_counters;
       Txbatch.fail_count := Txbatch.fail_count zero_counters + 1;
       Txbatch.pending_count := Txbatch.pending_count zero_counters;
       Txbatch.not_found_count := Txbatch.not_found_count zero_counters;
       Txbatch.mismatch_count := Txbatch.mismatch_count zero_counters |}
    (logged
       {| Eff.world := 2%nat;
          Eff.trace := (Eff.trace Fixtures.start ++
                          [receipt_call Fixtures.node_pending Fixtures.tx1;
                           EvRpc (Eff.uri Fixtures.node_pending)
                             (GetTransaction Fixtures.tx1)])%list |}
       [EvStderr (LErrorPrimary Fixtures.tx1 "receipt is None (tx pending or unknown)")]).
Proof.
  apply (X17_missing_receipt_counts_as_failed nat Fixtures.node_pending
           (Some Fixtures.node_a) Fixtures.tx1 [] zero_counters Fixtures.start
           (Some Fixtures.transfer) 1%nat 2%nat);
    reflexivity.
Defined.



(** ** txbatch.py: the run that ends early, and the exit status *)





(** X20. From its connection step on (lines 236 to 359 of [main]), the
    exit status of txbatch.py follows the outcomes of the transactions.
    With providers that connect, report their chain ids and are not
    interrupted, the run returns; its status is 2 when the cross-check of
    some fetched transaction did not end in agreement; otherwise 1 when
    some fetched transaction has a status other than 1, some primary fetch
    raised an error or found nothing, or the count of invalid input
    strings it was given is positive; otherwise 0. The status 0 that the
    source has for mismatches without a secondary provider never occurs:
    without one no outcome is flagged. *)
Theorem X20_exit_status_follows_the_outcomes :
  forall (W : Type) (env : Txbatch.Env W) (tx_hashes : list string) (invalid_count : Z)
         (s : Eff.state W),
    let p := Txbatch.network env (Txbatch.RPC_URL env) in
    let w3b := option_map (Txbatch.network env) (Txbatch.RPC_URL_2 env) in
    connects p -> (exists c, reports p c) -> calm_provider p ->
    (forall w, w3b = Some w -> connects w /\ (exists c, reports w c) /\ calm_provider w) ->
    exists (s0 : Eff.state W) (outs : list outcome) (s1 s' : Eff.state W),
      Txbatch.connections env s = (Py.Ret (p, w3b), s0) /\
      loop_run p w3b tx_hashes (logged s0 [EvStdout LHeader]) outs s1 /\
      Txbatch.process env tx_hashes invalid_count s =
        (Py.Ret (exit_status outs invalid_count), s') /\
      (w3b = None -> count cross_flagged outs = 0).
Proof.
  intros W env tx_hashes invalid_count s p w3b Hconn Hrep Hcalm Hsec.
  destruct (process_run env tx_hashes invalid_count s Hconn Hrep Hcalm Hsec)
    as (pre & s0 & outs & s1 & [H0 _] & _ & Hloop & _ & Hrun).
  exists s0, outs, s1. eexists. split; [exact H0|]. split; [exact Hloop|].
  split; [exact Hrun|].
  fold p w3b in Hloop. intros Hnone. rewrite Hnone in Hloop.
  eapply loop_run_alone; eassumption.
Qed.

Lemma X20_exit_status_follows_the_outcomes_witness :
  exists (s0 : Eff.state nat) (outs : list outcome) (s1 s' : Eff.state nat),
    Txbatch.connections (Fixtures.batch_env "https://a.example" (Some "https://b.example"))
      Fixtures.start = (Py.Ret (Fixtures.node_a, Some Fixtures.node_b), s0) /\
    loop_run Fixtures.node_a (Some Fixtures.node_b) [Fixtures.tx1]
      (logged s0 [EvStdout LHeader]) outs s1 /\
    Txbatch.process (Fixtures.batch_env "https://a.example" (Some "https://b.example"))
      [Fixtures.tx1] 0 Fixtures.start = (Py.Ret (exit_status outs 0), s') /\
    (Some Fixtures.node_b = None -> count cross_flagged outs = 0).
Proof.
  apply (X20_exit_status_follows_the_outcomes nat
           (Fixtures.batch_env "https://a.example" (Some "https://b.example"))
           [Fixtures.tx1] 0 Fixtures.start).
  - intros w. reflexivity.
  - exists 1. intros w. reflexivity.
  - apply fixture_provider_calm. discriminate.
  - intros w [= <-]. split; [|split].
    + intros w. reflexivity.
    + exists 1. intros w. reflexivity.
    + apply fixture_provider_calm. discriminate.
Defined.

(** The three statuses: two providers that disagree on the gas used; a
    provider that has no receipt; a provider that has it. *)
Example txbatch_exit_statuses :
  fst (Txbatch.process (Fixtures.batch_env "https://a.example" (Some "https://b.example"))
         [Fixtures.tx1] 0 Fixtures.start) = Py.Ret 2 /\
  fst (Txbatch.process (Fixtures.batch_file_env "https://pending.example")
         [Fixtures.tx1] 0 Fixtures.start) = Py.Ret 1 /\
  fst (Txbatch.process (Fixtures.batch_env "https://a.example" None)
         [Fixtures.tx1] 0 Fixtures.start) = Py.Ret 0.
Proof. repeat split; vm_compute; reflexivity. Qed.

(** ** Connection failures, the cross-check, an unreadable file *)

(** X21. A provider that is not connected ends the run with status 1 in
    all three scripts. [w3_connect] of txbatch.py, [connect] of
    tx_batch_auditor.py and [w3_connect] of txapp.py test the connection
    once; when the answer is no they name the URL (on standard error in
    the first two scripts, on standard output in txapp.py) and exit with
    status 1, without any other provider call. *)
Theorem X21_no_connection_exits :
  forall (W : Type) (net : string -> Eff.Web3 W) (url : string) (s : Eff.state W) (w1 : W),
    Eff.is_connected (net url) (Eff.world s) = (false, w1) ->
    let tested := {| Eff.world := w1;
                     Eff.trace := (Eff.trace s ++
                                     [EvRpc (Eff.uri (net url)) IsConnected])%list |} in
    Txbatch.w3_connect net url s =
      (Py.Raise (Py.SystemExit 1), logged tested [EvStderr (LConnectionFailed url)]) /\
    Auditor.connect net url s =
      (Py.Raise (Py.SystemExit 1), logged tested [EvStderr (LConnectionFailed url)]) /\
    Txapp.w3_connect net url s =
      (Py.Raise (Py.SystemExit 1), logged tested [EvStdout (LConnectionFailed url)]).
Proof.
  intros W net url s w1 H tested. subst tested.
  unfold Txbatch.w3_connect, Auditor.connect, Txapp.w3_connect, Eff.w3_is_connected.
  rewrite !bind_run, !call_rpc_run, H. repeat split.
Qed.

Lemma X21_no_connection_exits_witness :
  Txbatch.w3_connect
    (fun _ => {| Eff.uri := "https://off.example";
                 Eff.is_connected := fun w => (false, S w);
                 Eff.chain_id := Eff.chain_id Fixtures.node_a;
                 Eff.get_transaction_receipt := Eff.get_transaction_receipt Fixtures.node_a;
                 Eff.get_transaction := Eff.get_transaction Fixtures.node_a |})
    "https://off.example" Fixtures.start =
    (Py.Raise (Py.SystemExit 1),
     logged {| Eff.world := 1%nat;
               Eff.trace := (Eff.trace Fixtures.start ++
                               [EvRpc "https://off.example" IsConnected])%list |}
       [EvStderr (LConnectionFailed "https://off.example")]).
Proof.
  apply (X21_no_connection_exits nat
           (fun _ => {| Eff.uri := "https://off.example";
                        Eff.is_connected := fun w => (false, S w);
                        Eff.chain_id := Eff.chain_id Fixtures.node_a;
                        Eff.get_transaction_receipt :=
                          Eff.get_transaction_receipt Fixtures.node_a;
                        Eff.get_transaction := Eff.get_transaction Fixtures.node_a |})
           "https://off.example" Fixtures.start 1%nat).
  reflexivity.
Defined.

(** X22. In the cross-check of txbatch.py the comparison of the
    commitments adds nothing to the comparison of the fields. For a
    primary bundle that is consistent (as every bundle [fetch_bundle]
    returns is), the note is ok exactly when the secondary bundle agrees
    on chain id, block number, status and gas used, and mismatch
    otherwise. When the secondary fetch raises, the note is not-found for
    [TransactionNotFound] and error, with the exception's text, for any
    other [Exception]; an interrupt goes through. *)
Theorem X22_cross_check_compares_the_fields :
  forall (W : Type) (w3b : Eff.Web3 W) (txh : string) (b : Txbatch.Bundle)
         (s : Eff.state W),
    bundle_ok txh b ->
    Txbatch.cross_check w3b txh b s =
    match Txbatch.fetch_bundle w3b txh s with
    | (Py.Ret b2, s2) =>
        (Py.Ret (if fields_agree b b2 then (NoteOk, true) else (NoteMismatch, false)), s2)
    | (Py.Raise e, s2) =>
        if Py.is_TransactionNotFound e then (Py.Ret (NoteNotFoundSecondary, false), s2)
        else if Py.is_Exception e then
          (Py.Ret (NoteErrorSecondary (Py.str_exn e), false), s2)
        else (Py.Raise e, s2)
    end.
Proof.
  intros W w3b txh b s [Htx Hcm].
  destruct (fetch_bundle_any w3b txh s) as [_ Hok].
  unfold Txbatch.cross_check, Eff.try_except. rewrite bind_run.
  destruct (Txbatch.fetch_bundle w3b txh s) as [[b2 | e] s2]; cbn [fst] in Hok.
  - destruct Hok as [Htx2 Hcm2]. unfold fields_agree. cbn [forallb].
    destruct (Z.eqb_spec (Txbatch.b_chain_id b) (Txbatch.b_chain_id b2)) as [E1 | _];
      [|reflexivity].
    destruct (Z.eqb_spec (Txbatch.b_block_number b) (Txbatch.b_block_number b2))
      as [E2 | _]; [|reflexivity].
    destruct (Z.eqb_spec (Txbatch.b_status b) (Txbatch.b_status b2)) as [E3 | _];
      [|reflexivity].
    destruct (Z.eqb_spec (Txbatch.b_gas_used b) (Txbatch.b_gas_used b2)) as [E4 | _];
      [|reflexivity].
    rewrite Htx, E1, E2, E3, E4, <- Htx2, Hcm2 in Hcm. injection Hcm as Hcm.
    rewrite Hcm, String.eqb_refl. reflexivity.
  - destruct (Py.is_TransactionNotFound e); [reflexivity|].
    destruct (Py.is_Exception e); reflexivity.
Qed.

Lemma X22_cross_check_compares_the_fields_witness :
  exists (b : Txbatch.Bundle) (s1 s2 : Eff.state nat),
    Txbatch.fetch_bundle Fixtures.node_a Fixtures.tx1 Fixtures.start = (Py.Ret b, s1) /\
    Txbatch.cross_check Fixtures.node_b Fixtures.tx1 b s1 =
      (Py.Ret (NoteMismatch, false), s2).
Proof.
  eexists. eexists. eexists. split; [vm_compute; reflexivity|].
  rewrite X22_cross_check_compares_the_fields; [|split; vm_compute; reflexivity].
  vm_compute. reflexivity.
Defined.

(** X23. When the file given to tx_batch_auditor.py cannot be read, [main]
    names it on standard error and exits with status 1; nothing else is
    written and no provider is contacted. *)
Theorem X23_auditor_unreadable_file_exits :
  forall (W : Type) (env : Auditor.Env W) (args : Auditor.Args) (s : Eff.state W),
    given_lines env args = None ->
    exists path,
      Auditor.truthy (Auditor.a_file args) = Some path /\
      Auditor.main env args s =
        (Py.Raise (Py.SystemExit 1), logged s [EvStderr (LFileError path)]).
Proof.
  intros W env args s H. unfold given_lines in H. unfold Auditor.main.
  destruct (Auditor.truthy (Auditor.a_file args)) as [path|]; [|discriminate].
  exists path. split; [reflexivity|].
  rewrite bind_run. unfold Auditor.read_hashes_from_file. rewrite H. reflexivity.
Qed.

Lemma X23_auditor_unreadable_file_exits_witness :
  exists path,
    Auditor.truthy (Auditor.a_file
                      (Fixtures.auditor_file_args "https://a.example" "missing.txt"))
      = Some path /\
    Auditor.main Fixtures.auditor_file_env
      (Fixtures.auditor_file_args "https://a.example" "missing.txt") Fixtures.start =
      (Py.Raise (Py.SystemExit 1), logged Fixtures.start [EvStderr (LFileError path)]).
Proof.
  apply (X23_auditor_unreadable_file_exits nat Fixtures.auditor_file_env
           (Fixtures.auditor_file_args "https://a.example" "missing.txt") Fixtures.start).
  reflexivity.
Defined.
